(** * TinyPedal: the setting persistence engine ([tinypedal/setting.py])

    A shallow embedding of the [Setting] class: the save trigger [save], the
    saving thread [__saving] and the [preset_list] property.

    - Python integers are [Z]; strings are [string], a character outside
      ASCII being its UTF-8 bytes.
    - The save queue is a Python [dict] whose iteration order matters (the
      trigger takes the first key), so it is an association list in
      insertion order.
    - The calls the engine makes to its collaborators (file primitives of
      [userfile/json_setting.py], [logging], [time.sleep],
      [threading.Thread]) are recorded as a trace of [Event]s.  What a
      collaborator answers ([verify_json_file], the clock) is an input of the
      model.
    - Two views of the saving thread are given: [__saving], the method run
      from its first to its last statement with no other thread scheduled in
      between, and [worker_step], one statement at a time (line 380 in
      its two halves, the read and the write), used for the interleavings
      with requests arriving from the UI thread.  They agree
      ([thread_run_saving]).
    - [getattr] on the two slotted classes answers for the slots and for
      what the class and [object] provide ([inherited]).
    - [preset_list] is given on a listing that was obtained, and as
      [Setting_preset_list] with the failures of the file system.
    - Around the engine: [update_path], [create] and
      [get_primary_preset_name] of the same class, the preset dialog and
      the context menu of [ui/preset_view.py], whose message boxes, file
      operations and widget calls are a trace of [UiEvent]s, and
      [format_num] of [widget/brake_wear.py]. *)

From Stdlib Require Import ZArith List String Ascii Bool Lia Arith.
From Stdlib Require Import Sorting.Sorted Sorting.Permutation.
Import ListNotations.
Local Open Scope Z_scope.
Local Open Scope string_scope.
Local Open Scope list_scope.

(** ** Data model *)

(** Identity of a Python dictionary object.  The engine only stores and
    passes references; the contents belong to the UI code. *)
Definition DictRef := nat.

(** Besides its slots an instance answers [getattr] for the attributes of
    its class and of [object].  For a class of [setting.py] that defines
    [__slots__] and [__init__] only, these are the names CPython 3.11
    finds; another interpreter may find others, and no theorem depends on
    the list. *)
Definition object_attributes : list string :=
  ["__class__"; "__delattr__"; "__dir__"; "__doc__"; "__eq__"; "__format__";
   "__ge__"; "__getattribute__"; "__getstate__"; "__gt__"; "__hash__";
   "__init__"; "__init_subclass__"; "__le__"; "__lt__"; "__module__";
   "__ne__"; "__new__"; "__reduce__"; "__reduce_ex__"; "__repr__";
   "__setattr__"; "__sizeof__"; "__slots__"; "__str__"; "__subclasshook__"].

(** Where [name] stands in [l]. *)
Fixpoint position (name : string) (l : list string) : option nat :=
  match l with
  | [] => None
  | x :: l' => if x =? name then Some O
               else option_map S (position name l')
  end.

(** [class FileName]: one slot per file name.  [inherited] is what
    [getattr] finds for a name that is no slot: the attributes of the class
    and of [object], each by the key it makes in a [dict]; [None] where
    there is no such attribute. *)
Module FileName.
Record t := mk {
  config : string;
  setting : string;
  classes : string;
  heatmap : string;
  brands : string;
  brakes : string;
  compounds : string;
  last_setting : string;
  inherited : string -> option string
}.

(** The attributes of the class: the doc string and the module name are
    strings; the others (the class, the tuple of slots, the methods) are
    objects that make a key of their own, written [<FileName.name>]
    here. *)
Definition class_attributes (name : string) : option string :=
  if name =? "__doc__" then Some "File name"
  else if name =? "__module__" then Some "tinypedal.setting"
  else if existsb (String.eqb name) object_attributes
       then Some ("<FileName." ++ name ++ ">")%string
  else None.

(** [FileName.__init__] *)
Definition init : t :=
  {| config := "config.json";
     setting := "default.json";
     classes := "classes.json";
     heatmap := "heatmap.json";
     brands := "brands.json";
     brakes := "brakes.json";
     compounds := "compounds.json";
     last_setting := "None.json";
     inherited := class_attributes |}.

(** [getattr(self.filename, name, None)]: the slot of that name, else what
    the class and [object] give. *)
Definition getattr (f : t) (name : string) : option string :=
  if name =? "config" then Some (config f)
  else if name =? "setting" then Some (setting f)
  else if name =? "classes" then Some (classes f)
  else if name =? "heatmap" then Some (heatmap f)
  else if name =? "brands" then Some (brands f)
  else if name =? "brakes" then Some (brakes f)
  else if name =? "compounds" then Some (compounds f)
  else if name =? "last_setting" then Some (last_setting f)
  else inherited f name.
End FileName.

(** [class Preset]: the dictionaries of one preset; a slot holds [None] until
    the file is loaded.  [inherited] is what [getattr] finds for a name
    that is no slot, by the identity of the object found; [None] where
    Python raises [AttributeError]. *)
Module Preset.
Record t := mk {
  config : option DictRef;
  setting : option DictRef;
  classes : option DictRef;
  heatmap : option DictRef;
  brands : option DictRef;
  brakes : option DictRef;
  compounds : option DictRef;
  inherited : string -> option (option DictRef)
}.

(** The attributes of the class: those of [object] and the two methods
    [set_default] and [set_platform_default], each an object of its
    own. *)
Definition class_attributes (name : string) : option (option DictRef) :=
  match position name
                 (object_attributes ++ ["set_default"; "set_platform_default"])
  with
  | Some i => Some (Some (1000 + i)%nat)
  | None => None
  end.

(** [Preset.__init__] *)
Definition init : t :=
  mk None None None None None None None class_attributes.

(** [getattr(self.user, name)], without a default: [None] here stands for
    the [AttributeError] Python raises.  ([brands_logo] holds a list, not a
    dictionary, and is never reached from [save]: [FileName] has no such
    slot.) *)
Definition getattr (p : t) (name : string) : option (option DictRef) :=
  if name =? "config" then Some (config p)
  else if name =? "setting" then Some (setting p)
  else if name =? "classes" then Some (classes p)
  else if name =? "heatmap" then Some (heatmap p)
  else if name =? "brands" then Some (brands p)
  else if name =? "brakes" then Some (brakes p)
  else if name =? "compounds" then Some (compounds p)
  else inherited p name.
End Preset.

(** The category identifiers, the file types [save] is called with. *)
Definition known_categories : list string :=
  ["config"; "setting"; "classes"; "heatmap"; "brands"; "brakes"; "compounds"].

(** [class FilePath]: the two paths [save] reads. *)
Module FilePath.
Record t := mk {
  config : string;
  settings : string
}.
End FilePath.

(** A queued save task: [(filepath, dict_user)]. *)
Definition Task : Type := string * option DictRef.

(** The save queue: file name to task, in insertion order. *)
Definition Queue : Type := list (string * Task).

(** [filename in queue] *)
Fixpoint queue_mem (k : string) (q : Queue) : bool :=
  match q with
  | [] => false
  | (k', _) :: q' => (k' =? k) || queue_mem k q'
  end.

(** [queue[filename]]; [None] stands for [KeyError]. *)
Fixpoint queue_get (k : string) (q : Queue) : option Task :=
  match q with
  | [] => None
  | (k', v) :: q' => if k' =? k then Some v else queue_get k q'
  end.

(** [queue[filename] = task]: a present key keeps its place, a new key goes
    last. *)
Fixpoint queue_set (k : string) (v : Task) (q : Queue) : Queue :=
  match q with
  | [] => [(k, v)]
  | (k', v') :: q' =>
      if k' =? k then (k', v) :: q' else (k', v') :: queue_set k v q'
  end.

(** [queue.pop(filename, None)] *)
Fixpoint queue_pop (k : string) (q : Queue) : Queue :=
  match q with
  | [] => []
  | (k', v') :: q' => if k' =? k then q' else (k', v') :: queue_pop k q'
  end.

Definition queue_keys (q : Queue) : list string := map fst q.

(** The slots of [class Setting] the save engine reads or writes.
    [maximum_saving_attempts] is [self.application["maximum_saving_attempts"]]. *)
Record Setting := mkSetting {
  _save_delay : Z;
  _save_queue : Queue;
  is_saving : bool;
  filename : FileName.t;
  user : Preset.t;
  path : FilePath.t;
  maximum_saving_attempts : Z
}.

Definition set_save_delay (self : Setting) (d : Z) : Setting :=
  mkSetting d (_save_queue self) (is_saving self) (filename self) (user self)
            (path self) (maximum_saving_attempts self).

Definition set_save_queue (self : Setting) (q : Queue) : Setting :=
  mkSetting (_save_delay self) q (is_saving self) (filename self) (user self)
            (path self) (maximum_saving_attempts self).

Definition set_is_saving (self : Setting) (b : bool) : Setting :=
  mkSetting (_save_delay self) (_save_queue self) b (filename self) (user self)
            (path self) (maximum_saving_attempts self).

(** ** Trace of calls to collaborators *)

Inductive LogArg :=
| AStr (s : string)
| AInt (n : Z).

Inductive Event :=
| EvLogError (fmt : string) (args : list LogArg)
| EvLogInfo (fmt : string) (args : list LogArg)
| EvSleep (milliseconds : Z)
| EvCreateBackup (filename filepath : string)
| EvSaveJson (dict_user : option DictRef) (filename filepath : string)
| EvVerifyJson (dict_user : option DictRef) (filename filepath : string)
               (result : bool)
| EvRestoreBackup (filename filepath : string)
| EvDeleteBackup (filename filepath : string)
| EvThreadStart (filename filepath : string) (dict_user : option DictRef).

Definition MSG_INVALID_FILE_TYPE := "SETTING: invalid file type, skipping".
Definition MSG_ATTEMPTS_LEFT := "SETTING: failed saving, %s attempt(s) left".
Definition MSG_RESULT := "SETTING: %s %s (took %sms, %s/%s attempts)".

(** What a call gives back: a value, or an exception reaching the caller. *)
Inductive outcome (A : Type) :=
| Returned (a : A)
| Raised (exc : string).
Arguments Returned {A} a.
Arguments Raised {A} exc.

(** ** [Setting.save] *)

(** Lines 348-358: add the task to the queue unless [next_task]. *)
Definition save_enqueue (filetype : string) (next_task : bool) (self : Setting)
  : outcome (Setting * list Event) :=
  if negb next_task then
    match FileName.getattr (filename self) filetype with
    | None => Returned (self, [EvLogError MSG_INVALID_FILE_TYPE []])
    | Some fname =>
        if negb (queue_mem fname (_save_queue self)) then
          let filepath :=
            if filetype =? "config" then FilePath.config (path self)
            else FilePath.settings (path self) in
          match Preset.getattr (user self) filetype with
          | None => Raised "AttributeError"
          | Some dict_user =>
              Returned
                (set_save_queue self
                   (queue_set fname (filepath, dict_user) (_save_queue self)),
                 [])
          end
        else Returned (self, [])
    end
  else Returned (self, []).

(** Lines 360-372: take the first file name of the queue, refresh the delay
    and start the saving thread unless one is flagged as running. *)
Definition save_trigger (delay : Z) (self : Setting)
  : outcome (Setting * list Event) :=
  match _save_queue self with
  | [] => Returned (self, [])
  | (fname, _) :: _ =>
      let self := set_save_delay self delay in
      if negb (is_saving self) then
        let self := set_is_saving self true in
        match queue_get fname (_save_queue self) with
        | Some (filepath, dict_user) =>
            Returned (self, [EvThreadStart fname filepath dict_user])
        | None => Raised "KeyError"
        end
      else Returned (self, [])
  end.

Definition save (delay : Z) (filetype : string) (next_task : bool)
           (self : Setting) : outcome (Setting * list Event) :=
  match save_enqueue filetype next_task self with
  | Raised e => Raised e
  | Returned (self, ev1) =>
      match save_trigger delay self with
      | Raised e => Raised e
      | Returned (self, ev2) => Returned (self, ev1 ++ ev2)
      end
  end.

(** ** [Setting.__saving], run without interruption *)

(** Lines 379-381: [while self._save_delay > 0: self._save_delay -= 1;
    sleep(0.01)].  The first argument bounds the number of iterations;
    [delay_wait] starts it at the value of the counter, which is never
    exceeded ([delay_wait_exits]). *)
Fixpoint delay_loop (n : nat) (self : Setting) : Setting * list Event :=
  if (0 <? _save_delay self)%Z then
    match n with
    | O => (self, [])
    | S n' =>
        let self := set_save_delay self (_save_delay self - 1) in
        let '(self, ev) := delay_loop n' self in
        (self, EvSleep 10 :: ev)
    end
  else (self, []).

Definition delay_wait (self : Setting) : Setting * list Event :=
  delay_loop (Z.to_nat (_save_delay self)) self.

(** Lines 386-392: the write-and-verify attempts.  [verify k] is what the
    [k]-th call of [verify_json_file] of this thread returns.  The result is
    the value of [attempts] after the loop.  The first argument bounds the
    number of iterations; [attempt_all] starts it at the number of attempts,
    which is never exceeded ([thread_run_attempts]). *)
Fixpoint attempt_loop (n : nat) (verify : nat -> bool) (call : nat)
         (attempts : Z) (dict_user : option DictRef) (fname fpath : string)
  : Z * list Event :=
  if (0 <? attempts)%Z then
    match n with
    | O => (attempts, [])
    | S n' =>
        if verify call then
          (attempts,
           [EvSaveJson dict_user fname fpath;
            EvVerifyJson dict_user fname fpath true])
        else
          let attempts := attempts - 1 in
          let '(remaining, ev) :=
            attempt_loop n' verify (S call) attempts dict_user fname fpath in
          (remaining,
           EvSaveJson dict_user fname fpath
           :: EvVerifyJson dict_user fname fpath false
           :: EvLogError MSG_ATTEMPTS_LEFT [AInt attempts]
           :: EvSleep 50
           :: ev)
    end
  else (attempts, []).

Definition attempt_all (verify : nat -> bool) (attempts : Z)
           (dict_user : option DictRef) (fname fpath : string)
  : Z * list Event :=
  attempt_loop (Z.to_nat attempts) verify 0 attempts dict_user fname fpath.

(** Line 376 *)
Definition max_attempts_of (self : Setting) : Z :=
  Z.max (maximum_saving_attempts self) 3.

(** Lines 384-409: backup, attempts, restore on failure, log, cleanup.
    [timer_end] is the rounded elapsed time read from the clock. *)
Definition saving_cycle (verify : nat -> bool) (timer_end : Z)
           (max_attempts : Z) (fname fpath : string)
           (dict_user : option DictRef) : list Event :=
  let '(attempts, ev_attempts) :=
    attempt_all verify max_attempts dict_user fname fpath in
  let '(state_text, ev_restore) :=
    if (0 <? attempts)%Z then ("saved", [])
    else ("failed saving", [EvRestoreBackup fname fpath]) in
  [EvCreateBackup fname fpath]
  ++ ev_attempts
  ++ ev_restore
  ++ [EvLogInfo MSG_RESULT
        [AStr fname; AStr state_text; AInt timer_end;
         AInt (max_attempts - attempts); AInt attempts]]
  ++ [EvDeleteBackup fname fpath].

(** Lines 411-416: leave the queue, clear the flag, trigger the next task. *)
Definition saving_finish (fname : string) (self : Setting)
  : Setting * list Event :=
  let self := set_save_queue self (queue_pop fname (_save_queue self)) in
  let self := set_is_saving self false in
  match _save_queue self with
  | [] => (self, [])
  | _ :: _ =>
      match save 0 "setting" true self with
      | Returned r => r
      | Raised _ => (self, [])
      end
  end.

(** The whole method. *)
Definition __saving (verify : nat -> bool) (timer_end : Z)
           (fname fpath : string) (dict_user : option DictRef)
           (self : Setting) : Setting * list Event :=
  let max_attempts := max_attempts_of self in
  let '(self, ev_delay) := delay_wait self in
  let ev_cycle :=
    saving_cycle verify timer_end max_attempts fname fpath dict_user in
  let '(self, ev_next) := saving_finish fname self in
  (self, ev_delay ++ ev_cycle ++ ev_next).

(** The threads started by a run of calls. *)
Definition started (ev : list Event) : list (string * Task) :=
  flat_map (fun e => match e with
                     | EvThreadStart fname fpath d => [(fname, (fpath, d))]
                     | _ => []
                     end) ev.

(** Saving threads run one after the other, each to its end, in the order
    they were started; no request arrives meanwhile.  [verify r] and
    [timer r] are the inputs of the [r]-th thread.  [None]: more than [n]
    threads would have to run. *)
Fixpoint run_threads (n : nat) (verify : nat -> nat -> bool) (timer : nat -> Z)
         (r : nat) (todo : list (string * Task)) (self : Setting)
  : option (Setting * list Event) :=
  match todo with
  | [] => Some (self, [])
  | (fname, (fpath, dict_user)) :: rest =>
      match n with
      | O => None
      | S n' =>
          let '(self, ev) :=
            __saving (verify r) (timer r) fname fpath dict_user self in
          match run_threads n' verify timer (S r) (rest ++ started ev) self with
          | Some (self, ev') => Some (self, ev ++ ev')
          | None => None
          end
      end
  end.

(** [Setting.__init__], with the global configuration loaded. *)
Definition Setting_init (paths : FilePath.t) (max_saving_attempts : Z)
  : Setting :=
  {| _save_delay := 0;
     _save_queue := [];
     is_saving := false;
     filename := FileName.init;
     user := Preset.init;
     path := paths;
     maximum_saving_attempts := max_saving_attempts |}.

(** ** [Setting.__saving], one statement at a time

    A program point is named after the source line of the statement about to
    run.  [L416] enters [self.save(0, next_task=True)]; [L360] to [L369] are
    the statements of that call, run on the saving thread.

    Line 380, [self._save_delay -= 1], reads the attribute, subtracts and
    writes the attribute back; another thread can run between the read and
    the write.  [L380] is the read and the subtraction, [L380_store v] the
    write of the result [v]. *)

Inductive Pc :=
| L376 | L379 | L380 | L380_store (v : Z) | L381 | L384 | L385 | L386 | L387
| L388 | L390 | L391 | L392 | L393 | L396 | L397 | L399 | L400 | L401 | L409
| L411 | L412 | L415 | L416 | L360 | L365 | L367 | L368 | L369
| Finished
| Crashed (exc : string).

(** A saving thread: program point, arguments and locals.  [verify_calls]
    counts the calls of [verify_json_file] made so far; [next_filename] is
    the local [filename] of the chained [save] call. *)
Record Thread := mkThread {
  pc : Pc;
  t_filename : string;
  t_filepath : string;
  t_dict_user : option DictRef;
  attempts : Z;
  max_attempts : Z;
  state_text : string;
  timer_end : Z;
  verify_calls : nat;
  next_filename : string
}.

Definition goto (p : Pc) (th : Thread) : Thread :=
  mkThread p (t_filename th) (t_filepath th) (t_dict_user th) (attempts th)
           (max_attempts th) (state_text th) (timer_end th) (verify_calls th)
           (next_filename th).

Definition set_attempts (a : Z) (th : Thread) : Thread :=
  mkThread (pc th) (t_filename th) (t_filepath th) (t_dict_user th) a
           (max_attempts th) (state_text th) (timer_end th) (verify_calls th)
           (next_filename th).

Definition set_max_attempts (a : Z) (th : Thread) : Thread :=
  mkThread (pc th) (t_filename th) (t_filepath th) (t_dict_user th)
           (attempts th) a (state_text th) (timer_end th) (verify_calls th)
           (next_filename th).

Definition set_state_text (s : string) (th : Thread) : Thread :=
  mkThread (pc th) (t_filename th) (t_filepath th) (t_dict_user th)
           (attempts th) (max_attempts th) s (timer_end th) (verify_calls th)
           (next_filename th).

Definition set_timer_end (t : Z) (th : Thread) : Thread :=
  mkThread (pc th) (t_filename th) (t_filepath th) (t_dict_user th)
           (attempts th) (max_attempts th) (state_text th) t (verify_calls th)
           (next_filename th).

Definition set_verify_calls (n : nat) (th : Thread) : Thread :=
  mkThread (pc th) (t_filename th) (t_filepath th) (t_dict_user th)
           (attempts th) (max_attempts th) (state_text th) (timer_end th) n
           (next_filename th).

Definition set_next_filename (s : string) (th : Thread) : Thread :=
  mkThread (pc th) (t_filename th) (t_filepath th) (t_dict_user th)
           (attempts th) (max_attempts th) (state_text th) (timer_end th)
           (verify_calls th) s.

(** [threading.Thread(target=self.__saving, args=(filename, filepath,
    dict_user))], not yet run. *)
Definition thread_start (task : string * Task) : Thread :=
  let '(fname, (fpath, dict_user)) := task in
  mkThread L376 fname fpath dict_user 0 0 "" 0 0 "".

(** One step of the thread: a statement, or one half of line 380, the
    only statement of the thread that reads and writes the same attribute
    of the engine.  [verify] answers the calls of [verify_json_file] by
    their number, [timer] is the elapsed time the clock gives at line
    393. *)
Definition worker_step (verify : nat -> bool) (timer : Z)
           (self : Setting) (th : Thread) : Setting * Thread * list Event :=
  let fname := t_filename th in
  let fpath := t_filepath th in
  let dict_user := t_dict_user th in
  match pc th with
  | L376 =>
      let m := max_attempts_of self in
      (self, goto L379 (set_max_attempts m (set_attempts m th)), [])
  | L379 =>
      if (0 <? _save_delay self)%Z then (self, goto L380 th, [])
      else (self, goto L384 th, [])
  | L380 => (self, goto (L380_store (_save_delay self - 1)) th, [])
  | L380_store v => (set_save_delay self v, goto L381 th, [])
  | L381 => (self, goto L379 th, [EvSleep 10])
  | L384 => (self, goto L385 th, [EvCreateBackup fname fpath])
  | L385 => (self, goto L386 th, [])
  | L386 =>
      if (0 <? attempts th)%Z then (self, goto L387 th, [])
      else (self, goto L393 th, [])
  | L387 => (self, goto L388 th, [EvSaveJson dict_user fname fpath])
  | L388 =>
      let b := verify (verify_calls th) in
      let th := set_verify_calls (S (verify_calls th)) th in
      (self, goto (if b then L393 else L390) th,
       [EvVerifyJson dict_user fname fpath b])
  | L390 => (self, goto L391 (set_attempts (attempts th - 1) th), [])
  | L391 =>
      (self, goto L392 th, [EvLogError MSG_ATTEMPTS_LEFT [AInt (attempts th)]])
  | L392 => (self, goto L386 th, [EvSleep 50])
  | L393 => (self, goto L396 (set_timer_end timer th), [])
  | L396 =>
      if (0 <? attempts th)%Z then (self, goto L397 th, [])
      else (self, goto L399 th, [])
  | L397 => (self, goto L401 (set_state_text "saved" th), [])
  | L399 => (self, goto L400 th, [EvRestoreBackup fname fpath])
  | L400 => (self, goto L401 (set_state_text "failed saving" th), [])
  | L401 =>
      (self, goto L409 th,
       [EvLogInfo MSG_RESULT
          [AStr fname; AStr (state_text th); AInt (timer_end th);
           AInt (max_attempts th - attempts th); AInt (attempts th)]])
  | L409 => (self, goto L411 th, [EvDeleteBackup fname fpath])
  | L411 =>
      (set_save_queue self (queue_pop fname (_save_queue self)),
       goto L412 th, [])
  | L412 => (set_is_saving self false, goto L415 th, [])
  | L415 =>
      match _save_queue self with
      | [] => (self, goto Finished th, [])
      | _ :: _ => (self, goto L416 th, [])
      end
  | L416 => (self, goto L360 th, [])
  | L360 =>
      match _save_queue self with
      | [] => (self, goto Finished th, [])
      | (next, _) :: _ => (self, goto L365 (set_next_filename next th), [])
      end
  | L365 => (set_save_delay self 0, goto L367 th, [])
  | L367 =>
      if negb (is_saving self) then (self, goto L368 th, [])
      else (self, goto Finished th, [])
  | L368 => (set_is_saving self true, goto L369 th, [])
  | L369 =>
      match queue_get (next_filename th) (_save_queue self) with
      | Some (filepath, d) =>
          (self, goto Finished th, [EvThreadStart (next_filename th) filepath d])
      | None => (self, goto (Crashed "KeyError") th, [])
      end
  | Finished => (self, th, [])
  | Crashed _ => (self, th, [])
  end.

(** [n] statements of one thread, no other thread scheduled in between. *)
Fixpoint thread_run (n : nat) (verify : nat -> bool) (timer : Z)
         (self : Setting) (th : Thread) : Setting * Thread * list Event :=
  match n with
  | O => (self, th, [])
  | S n' =>
      let '(self, th, ev) := worker_step verify timer self th in
      let '(self, th, ev') := thread_run n' verify timer self th in
      (self, th, ev ++ ev')
  end.

(** ** The engine with its threads *)

Record System := mkSystem {
  cfg : Setting;
  threads : list Thread;
  trace : list Event
}.

(** What the scheduler lets happen next: the UI thread calls [cfg.save], or
    the saving thread number [i] runs one step.  A call from the UI
    thread is taken as one step; the statements of the chained call on a
    saving thread are steps of their own. *)
Inductive Action :=
| Request (delay : Z) (filetype : string)
| Run (i : nat) (verify : nat -> bool) (timer : Z).

Fixpoint replace_nth {A : Type} (i : nat) (x : A) (l : list A) : list A :=
  match l, i with
  | [], _ => []
  | _ :: l', O => x :: l'
  | y :: l', S i' => y :: replace_nth i' x l'
  end.

Definition sys_do (a : Action) (sys : System) : option System :=
  match a with
  | Request delay filetype =>
      match save delay filetype false (cfg sys) with
      | Returned (self, ev) =>
          Some (mkSystem self
                         (threads sys ++ map thread_start (started ev))
                         (trace sys ++ ev))
      | Raised _ => Some sys
      end
  | Run i verify timer =>
      match nth_error (threads sys) i with
      | Some th =>
          let '(self, th', ev) := worker_step verify timer (cfg sys) th in
          Some (mkSystem self
                         (replace_nth i th' (threads sys)
                          ++ map thread_start (started ev))
                         (trace sys ++ ev))
      | None => None
      end
  end.

Fixpoint sys_run (acts : list Action) (sys : System) : option System :=
  match acts with
  | [] => Some sys
  | a :: acts' =>
      match sys_do a sys with
      | Some sys' => sys_run acts' sys'
      | None => None
      end
  end.

Definition reachable (sys0 sys : System) : Prop :=
  exists acts, sys_run acts sys0 = Some sys.

Definition sys_init (self : Setting) : System := mkSystem self [] [].

(** The pool counts a thread as saving from its start to the statement that
    clears the flag. *)
Definition in_saving (p : Pc) : bool :=
  match p with
  | L376 | L379 | L380 | L380_store _ | L381 | L384 | L385 | L386 | L387
  | L388 | L390 | L391 | L392 | L393 | L396 | L397 | L399 | L400 | L401
  | L409 | L411 | L412 => true
  | _ => false
  end.

Definition in_delay_loop (p : Pc) : bool :=
  match p with
  | L379 | L380 | L380_store _ | L381 => true
  | _ => false
  end.

(** The thread stands between two statements, not inside line 380. *)
Definition between_statements (p : Pc) : bool :=
  match p with
  | L380_store _ => false
  | _ => true
  end.

(** The same engine when a call of [save] is never interleaved with another:
    the chained call of a saving thread (line 416) is one step as well. *)
Definition worker_step_atomic (verify : nat -> bool) (timer : Z)
           (self : Setting) (th : Thread) : Setting * Thread * list Event :=
  match pc th with
  | L416 =>
      match save 0 "setting" true self with
      | Returned (self', ev) => (self', goto Finished th, ev)
      | Raised exc => (self, goto (Crashed exc) th, [])
      end
  | _ => worker_step verify timer self th
  end.

Definition sys_do_atomic (a : Action) (sys : System) : option System :=
  match a with
  | Request _ _ => sys_do a sys
  | Run i verify timer =>
      match nth_error (threads sys) i with
      | Some th =>
          let '(self, th', ev) :=
            worker_step_atomic verify timer (cfg sys) th in
          Some (mkSystem self
                         (replace_nth i th' (threads sys)
                          ++ map thread_start (started ev))
                         (trace sys ++ ev))
      | None => None
      end
  end.

Fixpoint sys_run_atomic (acts : list Action) (sys : System) : option System :=
  match acts with
  | [] => Some sys
  | a :: acts' =>
      match sys_do_atomic a sys with
      | Some sys' => sys_run_atomic acts' sys'
      | None => None
      end
  end.

(** Program points inside the chained call. *)
Definition in_chained_call (p : Pc) : bool :=
  match p with
  | L360 | L365 | L367 | L368 | L369 => true
  | _ => false
  end.

(** The threads that are saving. *)
Definition saving_threads (ths : list Thread) : list Thread :=
  filter (fun th => in_saving (pc th)) ths.

(** At most one thread is saving, and none while the flag is down. *)
Definition exclusive (sys : System) : Prop :=
  (List.length (saving_threads (threads sys)) <= 1)%nat
  /\ (is_saving (cfg sys) = false -> saving_threads (threads sys) = []).

(** The thread has not left the delay loop during its first [n]
    statements. *)
Definition waits (n : nat) (verify : nat -> bool) (timer : Z)
           (s : Setting) (th : Thread) : Prop :=
  forall m, (m < n)%nat ->
    in_delay_loop (pc (snd (fst (thread_run m verify timer s th)))) = true.

(** [ui/preset_view.py], line 313: [while cfg.is_saving: time.sleep(0.01)].
    The caller leaves the loop when it reads the flag as false. *)
Definition wait_is_over (sys : System) : bool := negb (is_saving (cfg sys)).

(** ** Sample configurations *)

Definition ex_paths := FilePath.mk "global/" "settings/".

Definition ex_user : Preset.t :=
  Preset.mk (Some 1%nat) (Some 2%nat) (Some 3%nat) (Some 4%nat) (Some 5%nat)
            (Some 6%nat) (Some 7%nat) Preset.class_attributes.

(** An idle engine: nothing queued, no thread flagged. *)
Definition ex_cfg : Setting :=
  {| _save_delay := 0; _save_queue := []; is_saving := false;
     filename := FileName.init; user := ex_user; path := ex_paths;
     maximum_saving_attempts := 3 |}.

(** A busy engine: [config.json] is queued and its thread is waiting. *)
Definition ex_busy : Setting :=
  {| _save_delay := 66;
     _save_queue := [("config.json", ("global/", Some 1%nat))];
     is_saving := true;
     filename := FileName.init; user := ex_user; path := ex_paths;
     maximum_saving_attempts := 3 |}.

(** Between two requests: the UI binds a fresh dictionary to
    [user.setting] and the waiting thread has ticked the delay once. *)
Definition ex_edit (fresh : DictRef) (s : Setting) : Setting :=
  mkSetting (_save_delay s - 1) (_save_queue s) (is_saving s) (filename s)
            (Preset.mk (Preset.config (user s)) (Some fresh)
                       (Preset.classes (user s)) (Preset.heatmap (user s))
                       (Preset.brands (user s)) (Preset.brakes (user s))
                       (Preset.compounds (user s))
                       (Preset.inherited (user s)))
            (path s) (maximum_saving_attempts s).

(** The engine after a burst of three requests for [setting] on [ex_cfg],
    the dictionary rebound before the second and the third. *)
Definition ex_after_burst : Setting :=
  {| _save_delay := 66;
     _save_queue := [("default.json", ("settings/", Some 2%nat))];
     is_saving := true;
     filename := FileName.init;
     user := Preset.mk (Some 1%nat) (Some 43%nat) (Some 3%nat) (Some 4%nat)
                       (Some 5%nat) (Some 6%nat) (Some 7%nat)
                       Preset.class_attributes;
     path := ex_paths;
     maximum_saving_attempts := 3 |}.

Definition yes (_ : nat) : bool := true.
Definition no (_ : nat) : bool := false.

(** Requests for three distinct categories.  The thread of [config] runs
    to line 367 of its chained [save] call and finds the flag down; before
    it reaches line 368 the UI thread requests [setting]; then the thread
    goes on, and both started threads run to their call of
    [save_json_file]. *)
Definition race_schedule : list Action :=
  [Request 0 "config"; Request 0 "classes"]
  ++ repeat (Run 0 yes 0) 19
  ++ [Request 0 "setting"]
  ++ repeat (Run 0 yes 0) 2
  ++ repeat (Run 1 yes 0) 5
  ++ repeat (Run 2 yes 0) 5.

(** A request for [config] with delay 2, then its thread run through line
    376, the loop test and the read of line 380. *)
Definition lost_restart_schedule : list Action :=
  [Request 2 "config"] ++ repeat (Run 0 yes 0) 3.

(** Requests for [config] and [classes], then the thread of [config] run
    up to and including [self.is_saving = False] (line 412). *)
Definition window_schedule : list Action :=
  [Request 0 "config"; Request 0 "classes"] ++ repeat (Run 0 yes 0) 14.

(** From there: the thread of [config] chains to [classes], whose thread
    runs up to its call of [save_json_file]. *)
Definition window_rest : list Action :=
  repeat (Run 0 yes 0) 7 ++ repeat (Run 1 yes 0) 6.

(** ** [Setting.preset_list] *)

(** [str.lower] as it acts on ASCII strings: the letters A to Z are
    folded, every other character is kept.  Python folds the cased letters
    outside ASCII as well; a statement that needs two lowered names to
    differ in Python asks for ASCII names ([is_ascii]). *)
Definition lower_ascii (c : ascii) : ascii :=
  let n := nat_of_ascii c in
  if ((65 <=? n) && (n <=? 90))%nat then ascii_of_nat (n + 32) else c.

Fixpoint lower (s : string) : string :=
  match s with
  | EmptyString => EmptyString
  | String c s' => String (lower_ascii c) (lower s')
  end.

(** [s.endswith(suffix)] *)
Definition endswith (suffix s : string) : bool :=
  (String.length suffix <=? String.length s)%nat
  && (substring (String.length s - String.length suffix)
                (String.length suffix) s =? suffix).

(** [_filename[:-5]] *)
Definition strip_ext (s : string) : string :=
  substring 0 (String.length s - 5) s.

(** An entry of the generator: [(os.path.getmtime(...), _filename[:-5])].
    Time stamps only get compared, so an integer clock stands for them. *)
Definition Entry : Type := Z * string.

(** Python's order on the tuples. *)
Definition entry_ltb (a b : Entry) : bool :=
  (fst a <? fst b)%Z || ((fst a =? fst b)%Z && String.ltb (snd a) (snd b)).

(** Newer first: the order of the time stamps alone. *)
Definition newer_first (a b : Entry) : Prop := (fst b <= fst a)%Z.

(** [sorted(..., reverse=True)]: descending, entries that compare equal keep
    their order. *)
Fixpoint insert_desc (x : Entry) (l : list Entry) : list Entry :=
  match l with
  | [] => [x]
  | y :: l' => if entry_ltb x y then y :: insert_desc x l' else x :: y :: l'
  end.

Fixpoint sorted_reverse (l : list Entry) : list Entry :=
  match l with
  | [] => []
  | x :: l' => insert_desc x (sorted_reverse l')
  end.

Section PresetList.
(** [val.allowed_filename(rxp.CFG_INVALID_FILENAME, name)]: the validator
    and the pattern live in modules outside this development. *)
Variable allowed_filename : string -> bool.

(** The directory [self.path.settings] as [os.listdir] and
    [os.path.getmtime] show it when they answer: file names with their
    time stamps.  [Setting_preset_list] below has the property with the
    failures of the two calls. *)
Definition gen_cfg_list (dir : list (string * Z)) : list Entry :=
  map (fun f => (snd f, strip_ext (fst f)))
      (filter (fun f => endswith ".json" (lower (fst f))) dir).

Definition valid_cfg_list (dir : list (string * Z)) : list string :=
  map snd
      (filter (fun e : Entry => allowed_filename (snd e))
              (sorted_reverse (gen_cfg_list dir))).

Definition preset_list (dir : list (string * Z)) : list string :=
  match valid_cfg_list dir with
  | [] => ["default"]
  | l => l
  end.
End PresetList.

Definition ex_allowed (name : string) : bool :=
  negb (name =? "classes") && negb (name =? "brands").

Definition ex_dir : list (string * Z) :=
  [("classes.json", 50); ("race.json", 10); ("notes.txt", 99);
   ("Quali.JSON", 30); ("default.json", 20)].

(** ** The file primitives

    [create_backup_file], [save_json_file], [restore_backup_file] and
    [delete_backup_file] act on the disk; [verify_json_file] only reads it.
    The engine relies on their contract, not on their code. *)

Record FilePrimitives (Disk Content : Type) := mkFilePrimitives {
  read_file : string -> string -> Disk -> option Content;
  read_backup : string -> string -> Disk -> option Content;
  create_backup_file : string -> string -> Disk -> Disk;
  save_json_file : option DictRef -> string -> string -> Disk -> Disk;
  restore_backup_file : string -> string -> Disk -> Disk;
  delete_backup_file : string -> string -> Disk -> Disk
}.
Arguments read_file {Disk Content} _ _ _ _.
Arguments read_backup {Disk Content} _ _ _ _.
Arguments create_backup_file {Disk Content} _ _ _ _.
Arguments save_json_file {Disk Content} _ _ _ _ _.
Arguments restore_backup_file {Disk Content} _ _ _ _.
Arguments delete_backup_file {Disk Content} _ _ _ _.

(** The contract: the backup captures the state before the write, a write
    leaves the backup alone, restoring puts the backup in place of the
    target, deleting the backup leaves the target alone. *)
Record honors_contract {Disk Content : Type}
       (io : FilePrimitives Disk Content) : Prop := mkContract {
  backup_captures : forall fname fpath d,
    read_backup io fname fpath (create_backup_file io fname fpath d)
    = read_file io fname fpath d;
  save_keeps_backup : forall dict fname fpath d,
    read_backup io fname fpath (save_json_file io dict fname fpath d)
    = read_backup io fname fpath d;
  restore_replaces : forall fname fpath d,
    read_file io fname fpath (restore_backup_file io fname fpath d)
    = read_backup io fname fpath d;
  delete_keeps_file : forall fname fpath d,
    read_file io fname fpath (delete_backup_file io fname fpath d)
    = read_file io fname fpath d
}.

(** The effect of a trace on the disk. *)
Definition disk_event {Disk Content : Type} (io : FilePrimitives Disk Content)
           (d : Disk) (e : Event) : Disk :=
  match e with
  | EvCreateBackup fname fpath => create_backup_file io fname fpath d
  | EvSaveJson dict fname fpath => save_json_file io dict fname fpath d
  | EvRestoreBackup fname fpath => restore_backup_file io fname fpath d
  | EvDeleteBackup fname fpath => delete_backup_file io fname fpath d
  | _ => d
  end.

Definition disk_run {Disk Content : Type} (io : FilePrimitives Disk Content)
           (ev : list Event) (d : Disk) : Disk :=
  fold_left (disk_event io) ev d.

(** Modelled from the spec: the file primitives of
    [userfile/json_setting.py], as section 6 of the specification describes
    them.  The disk maps a full path to its content, the backup of a file
    lives beside it under the extension [.bak], and a write stores a
    rendering of the dictionary. *)
Module SimpleDisk.
Definition t : Type := list (string * string).

Fixpoint lookup (k : string) (d : t) : option string :=
  match d with
  | [] => None
  | (k', v) :: d' => if k' =? k then Some v else lookup k d'
  end.

Definition remove (k : string) (d : t) : t :=
  filter (fun kv => negb (fst kv =? k)) d.

Definition put (k : string) (v : option string) (d : t) : t :=
  match v with
  | Some c => (k, c) :: remove k d
  | None => remove k d
  end.

Definition target (fname fpath : string) : string := (fpath ++ fname)%string.
Definition bak (fname fpath : string) : string :=
  (fpath ++ fname ++ ".bak")%string.

Definition render (dict : option DictRef) : string :=
  match dict with
  | Some _ => "{...}"
  | None => "null"
  end.

Definition io : FilePrimitives t string :=
  {| read_file := fun fname fpath d => lookup (target fname fpath) d;
     read_backup := fun fname fpath d => lookup (bak fname fpath) d;
     create_backup_file := fun fname fpath d =>
       put (bak fname fpath) (lookup (target fname fpath) d) d;
     save_json_file := fun dict fname fpath d =>
       put (target fname fpath) (Some (render dict)) d;
     restore_backup_file := fun fname fpath d =>
       put (target fname fpath) (lookup (bak fname fpath) d) d;
     delete_backup_file := fun fname fpath d =>
       put (bak fname fpath) None d |}.
End SimpleDisk.

(** ** Counting calls in a trace *)

Definition is_write (e : Event) : bool :=
  match e with EvSaveJson _ _ _ => true | _ => false end.

Definition is_backup (e : Event) : bool :=
  match e with EvCreateBackup _ _ => true | _ => false end.

Definition count_writes (ev : list Event) : nat :=
  List.length (filter is_write ev).

Definition count_backups (ev : list Event) : nat :=
  List.length (filter is_backup ev).

(** The calls of one failed attempt, [left] attempts remaining after it. *)
Definition failed_attempt (dict_user : option DictRef) (fname fpath : string)
           (left : Z) : list Event :=
  [EvSaveJson dict_user fname fpath;
   EvVerifyJson dict_user fname fpath false;
   EvLogError MSG_ATTEMPTS_LEFT [AInt left];
   EvSleep 50].

(** [n] failed attempts in a row, starting with [attempts] attempts. *)
Fixpoint failed_attempts (n : nat) (attempts : Z) (dict_user : option DictRef)
         (fname fpath : string) : list Event :=
  match n with
  | O => []
  | S n' =>
      failed_attempt dict_user fname fpath (attempts - 1)
      ++ failed_attempts n' (attempts - 1) dict_user fname fpath
  end.

(** ** Bursts of requests *)

(** The calls [save(filetype=C)] of one burst.  Between two calls the rest of
    the program runs and changes the engine as [R] allows. *)
Inductive burst (R : Setting -> Setting -> Prop) (filetype : string)
  : Setting -> list Event -> Setting -> Prop :=
| burst_first : forall delay s s' ev,
    save delay filetype false s = Returned (s', ev) ->
    burst R filetype s ev s'
| burst_next : forall delay s ev1 s1 s1' ev2 s2,
    burst R filetype s ev1 s1 ->
    R s1 s1' ->
    save delay filetype false s1' = Returned (s2, ev2) ->
    burst R filetype s (ev1 ++ ev2) s2.

(** The entry of [fname] is still in the queue, untouched. *)
Definition keeps_entry (fname : string) (s s' : Setting) : Prop :=
  filename s' = filename s
  /\ queue_get fname (_save_queue s') = queue_get fname (_save_queue s)
  /\ (NoDup (queue_keys (_save_queue s)) ->
      NoDup (queue_keys (_save_queue s'))).

(** Nothing was taken from or added to the queue and the flag was left
    alone: the UI rebinds dictionaries or paths, a thread ticks the delay. *)
Definition keeps_engine (s s' : Setting) : Prop :=
  filename s' = filename s
  /\ _save_queue s' = _save_queue s
  /\ is_saving s' = is_saving s.

(** ** More on the threads *)

(** A thread that will run no further statement. *)
Definition dead (p : Pc) : bool :=
  match p with
  | Finished | Crashed _ => true
  | _ => false
  end.

(** A thread between clearing the flag and its chained call. *)
Definition is_tail (p : Pc) : bool :=
  match p with
  | L415 | L416 => true
  | _ => false
  end.

(** Requests for [config] and [classes].  The thread of [config] finds the
    flag down at line 367; before it reaches line 368 the UI thread
    requests [classes] again, and the thread started by that request saves
    [classes.json] and ends.  The first thread then goes on with lines 368
    and 369. *)
Definition stuck_schedule : list Action :=
  [Request 0 "config"; Request 0 "classes"]
  ++ repeat (Run 0 yes 0) 19
  ++ [Request 0 "classes"]
  ++ repeat (Run 1 yes 0) 15
  ++ repeat (Run 0 yes 0) 2.

(** Calls of the file primitives. *)
Definition is_file_event (e : Event) : bool :=
  match e with
  | EvCreateBackup _ _ | EvSaveJson _ _ _ | EvVerifyJson _ _ _ _
  | EvRestoreBackup _ _ | EvDeleteBackup _ _ => true
  | _ => false
  end.

(** What a round of the attempt loop may call. *)
Definition is_attempt_event (e : Event) : bool :=
  match e with
  | EvSaveJson _ _ _ | EvVerifyJson _ _ _ _ | EvLogError _ _ | EvSleep _ =>
      true
  | _ => false
  end.

(** Every waiting task has a thread that will get to it. *)
Definition handled (sys : System) : Prop :=
  (is_saving (cfg sys) = true -> saving_threads (threads sys) <> [])
  /\ (_save_queue (cfg sys) <> [] ->
      is_saving (cfg sys) = true
      \/ existsb (fun th => is_tail (pc th)) (threads sys) = true).

(** What holds of the thread of the only queued task [fname], statement by
    statement: the flag is up as long as it saves, the file is written
    before the result is known and the backup deleted before the task
    leaves the queue. *)
Definition wait_inv (fname fpath : string) (s : Setting) (th : Thread)
           (ev : list Event) : Prop :=
  t_filename th = fname /\ t_filepath th = fpath /\
  match pc th with
  | L376 | L387 =>
      is_saving s = true /\ queue_keys (_save_queue s) = [fname]
  | L379 | L380 | L380_store _ | L381 | L384 | L385 | L386 =>
      is_saving s = true /\ queue_keys (_save_queue s) = [fname]
      /\ (0 < attempts th \/ (1 <= count_writes ev)%nat)
  | L388 | L390 | L391 | L392 | L393 | L396 | L397 | L399 | L400 | L401
  | L409 =>
      is_saving s = true /\ queue_keys (_save_queue s) = [fname]
      /\ (1 <= count_writes ev)%nat
  | L411 =>
      is_saving s = true /\ queue_keys (_save_queue s) = [fname]
      /\ (1 <= count_writes ev)%nat /\ In (EvDeleteBackup fname fpath) ev
  | L412 =>
      is_saving s = true /\ _save_queue s = []
      /\ (1 <= count_writes ev)%nat /\ In (EvDeleteBackup fname fpath) ev
  | L415 | Finished =>
      _save_queue s = []
      /\ (1 <= count_writes ev)%nat /\ In (EvDeleteBackup fname fpath) ev
  | _ => False
  end.

(** Python's [>=] on the tuples: [a] does not sort below [b]. *)
Definition not_below (a b : Entry) : Prop := entry_ltb a b = false.

(** ** [Setting.update_path] and [Setting.create] *)

(** [self.filename.setting = name] *)
Definition set_filename_setting (self : Setting) (name : string) : Setting :=
  mkSetting (_save_delay self) (_save_queue self) (is_saving self)
            (FileName.mk (FileName.config (filename self)) name
                         (FileName.classes (filename self))
                         (FileName.heatmap (filename self))
                         (FileName.brands (filename self))
                         (FileName.brakes (filename self))
                         (FileName.compounds (filename self))
                         (FileName.last_setting (filename self))
                         (FileName.inherited (filename self)))
            (user self) (path self) (maximum_saving_attempts self).

Definition set_path (self : Setting) (p : FilePath.t) : Setting :=
  mkSetting (_save_delay self) (_save_queue self) (is_saving self)
            (filename self) (user self) p (maximum_saving_attempts self).

(** [Setting.create]: [self.user.setting = copy_setting(self.default.setting)].
    The copy is a new dictionary object, [fresh]. *)
Definition create (fresh : DictRef) (self : Setting) : Setting :=
  mkSetting (_save_delay self) (_save_queue self) (is_saving self)
            (filename self)
            (Preset.mk (Preset.config (user self)) (Some fresh)
                       (Preset.classes (user self))
                       (Preset.heatmap (user self))
                       (Preset.brands (user self))
                       (Preset.brakes (user self))
                       (Preset.compounds (user self))
                       (Preset.inherited (user self)))
            (path self) (maximum_saving_attempts self).

Section UpdatePath.
Variable allowed_filename : string -> bool.
(** [os.path.abspath] *)
Variable abspath : string -> string.
(** The directory found at a path: file names with their time stamps. *)
Variable listdir : string -> list (string * Z).

(** [Setting.update_path], lines 250-260.  [self.path.update(...)] reads
    the paths from the user's configuration; what it assigns is [new_path].
    [self.preset_list[0]] raises [IndexError] on an empty list. *)
Definition update_path (new_path : FilePath.t) (self : Setting)
  : outcome Setting :=
  let old_settings_path := abspath (FilePath.settings (path self)) in
  let self := set_path self new_path in
  let new_settings_path := abspath (FilePath.settings (path self)) in
  if negb (new_settings_path =? old_settings_path) then
    match preset_list allowed_filename
                      (listdir (FilePath.settings (path self))) with
    | [] => Raised "IndexError"
    | name :: _ => Returned (set_filename_setting self (name ++ ".json")%string)
    end
  else Returned self.
End UpdatePath.

(** What makes a directory entry a preset. *)
Definition is_preset (allowed_filename : string -> bool) (f : string * Z)
  : bool :=
  endswith ".json" (lower (fst f)) && allowed_filename (strip_ext (fst f)).

(** ** The preset view ([ui/preset_view.py]) *)

(** What the view does besides changing [cfg]: message boxes, calls of
    [shutil] and [os], of the other widgets and, under [UiEngine], what
    [cfg.save] does. *)
Inductive UiEvent :=
| UiWarning (title text : string)
| UiQuestion (title filename : string)
| UiCopy (src dst : string)
| UiRename (src dst : string)
| UiRemove (file : string)
| UiOpenDialog (title mode source_filename : string)
| UiRefreshList
| UiReloadPreset
| UiWaitSaving
| UiAccept
| UiEngine (e : Event).

(** [cfg.primary_preset]: sim name to preset name, a [dict] in insertion
    order. *)
Definition PrimaryPreset : Type := list (string * string).

(** [d.get(k, "")] *)
Fixpoint dict_get (k : string) (d : PrimaryPreset) : string :=
  match d with
  | [] => ""
  | (k', v) :: d' => if k' =? k then v else dict_get k d'
  end.

(** [d[k] = v] *)
Fixpoint dict_set (k v : string) (d : PrimaryPreset) : PrimaryPreset :=
  match d with
  | [] => [(k, v)]
  | (k', v') :: d' =>
      if k' =? k then (k, v) :: d' else (k', v') :: dict_set k v d'
  end.

(** The loop of "Clear Primary Tag", lines 192-195: every sim tagged with
    the selected preset gets the empty name.  Returns the dictionary and
    [tag_found]. *)
Fixpoint clear_tags (selected_preset_name : string) (d : PrimaryPreset)
  : PrimaryPreset * bool :=
  match d with
  | [] => ([], false)
  | (sim_name, primary_preset) :: d' =>
      let '(r, tag_found) := clear_tags selected_preset_name d' in
      if selected_preset_name =? primary_preset
      then ((sim_name, "") :: r, true)
      else ((sim_name, primary_preset) :: r, tag_found)
  end.

(** [PrimaryPresetTag.__init__]: the labels added, each with the index
    into [QSS_TAGGED_COLOR]. *)
Definition PrimaryPresetTag (preset_name : string) (d : PrimaryPreset)
  : list (string * bool) :=
  map (fun e => (fst e, fst e =? "RF2"))
      (filter (fun e : string * string => preset_name =? snd e) d).

(** [cfg.save(filetype="config")] followed by [self.refresh_list()]. *)
Definition save_config_refresh (d : PrimaryPreset) (self : Setting)
  : outcome (Setting * PrimaryPreset * list UiEvent) :=
  match save 66 "config" false self with
  | Raised e => Raised e
  | Returned (self, ev) => Returned (self, d, map UiEngine ev ++ [UiRefreshList])
  end.

(** [PresetList.open_context_menu], lines 165-233.  [item_at] is what
    [itemAt(position)] finds, [selected_action] the menu entry chosen,
    [selected_preset_name] the entry [self.preset_list[selected_index]],
    [delete_yes] the answer to the question and [file_exists] that of
    [os.path.exists]. *)
Definition open_context_menu (item_at : bool) (selected_action : option string)
           (selected_preset_name : string) (delete_yes file_exists : bool)
           (d : PrimaryPreset) (self : Setting)
  : outcome (Setting * PrimaryPreset * list UiEvent) :=
  if negb item_at then Returned (self, d, [])
  else
    match selected_action with
    | None => Returned (self, d, [])
    | Some action =>
        let selected_filename := (selected_preset_name ++ ".json")%string in
        if action =? "Set Primary for LMU" then
          save_config_refresh (dict_set "LMU" selected_preset_name d) self
        else if action =? "Set Primary for RF2" then
          save_config_refresh (dict_set "RF2" selected_preset_name d) self
        else if action =? "Clear Primary Tag" then
          let '(d, tag_found) := clear_tags selected_preset_name d in
          if tag_found then save_config_refresh d self
          else Returned (self, d, [])
        else if action =? "Duplicate" then
          Returned (self, d,
                    [UiOpenDialog "Duplicate Preset" "duplicate"
                                  selected_filename])
        else if action =? "Rename" then
          Returned (self, d,
                    [UiOpenDialog "Rename Preset" "rename" selected_filename])
        else if action =? "Delete" then
          Returned
            (self, d,
             UiQuestion "Delete Preset" selected_filename
             :: (if delete_yes then
                   (if file_exists then
                      [UiRemove (FilePath.settings (path self)
                                 ++ selected_filename)%string]
                    else [])
                   ++ [UiRefreshList]
                 else []))
        else Returned (self, d, [])
    end.

Section PresetView.
Variable allowed_filename : string -> bool.
(** [fmt.strip_filename_extension], of the formatter module. *)
Variable strip_filename_extension : string -> string -> string.
(** [os.path.exists] *)
Variable path_exists : string -> bool.

(** [Setting.get_primary_preset_name], lines 222-229. *)
Definition get_primary_preset_name (d : PrimaryPreset) (self : Setting)
           (sim_name : string) : string :=
  let preset_name := dict_get sim_name d in
  if allowed_filename preset_name then
    let full_preset_name := (preset_name ++ ".json")%string in
    if path_exists (FilePath.settings (path self) ++ full_preset_name)%string
    then full_preset_name
    else ""
  else "".

(** [CreatePreset.__saving], lines 281-318.  [dir] is the settings folder
    as [cfg.preset_list] finds it, [fresh] the dictionary [cfg.create]
    makes. *)
Definition CreatePreset_saving (dir : list (string * Z)) (fresh : DictRef)
           (edit_mode : string) (self : Setting)
           (filepath entered_filename source_filename : string)
  : outcome (Setting * list UiEvent) :=
  let temp_list := preset_list allowed_filename dir in
  if existsb (fun preset => lower entered_filename =? lower preset) temp_list
  then Returned (self, [UiWarning "Error" "Preset already exists."])
  else if edit_mode =? "duplicate" then
    Returned (self,
              [UiCopy (filepath ++ source_filename)%string
                      (filepath ++ entered_filename ++ ".json")%string;
               UiRefreshList; UiAccept])
  else if edit_mode =? "rename" then
    let renamed :=
      UiRename (filepath ++ source_filename)%string
               (filepath ++ entered_filename ++ ".json")%string in
    if FileName.setting (filename self) =? source_filename then
      Returned (set_filename_setting self (entered_filename ++ ".json")%string,
                [renamed; UiReloadPreset; UiAccept])
    else Returned (self, [renamed; UiRefreshList; UiAccept])
  else
    let self :=
      set_filename_setting self (entered_filename ++ ".json")%string in
    let self := create fresh self in
    match save 0 "setting" false self with
    | Raised e => Raised e
    | Returned (self, ev) =>
        Returned (self,
                  map UiEngine ev ++ [UiWaitSaving; UiRefreshList; UiAccept])
    end.

(** [CreatePreset.creating], lines 272-279; [text] is what the entry box
    holds. *)
Definition creating (dir : list (string * Z)) (fresh : DictRef)
           (edit_mode source_filename text : string) (self : Setting)
  : outcome (Setting * list UiEvent) :=
  let entered_filename := strip_filename_extension text ".json" in
  if allowed_filename entered_filename then
    CreatePreset_saving dir fresh edit_mode self
                        (FilePath.settings (path self)) entered_filename
                        source_filename
  else Returned (self, [UiWarning "Error" "Invalid preset name."]).
End PresetView.

(** A stand-in for [fmt.strip_filename_extension] in the examples: the
    extension is cut off when the name ends with it. *)
Definition ex_strip (name extension : string) : string :=
  if endswith extension name
  then substring 0 (String.length name - String.length extension) name
  else name.

Definition ex_tags : PrimaryPreset := [("LMU", "race"); ("RF2", "race")].

(** ** The brake wear widget ([widget/brake_wear.py]) *)

(** [s.lstrip(".")] and [s.rstrip(".")] *)
Fixpoint lstrip_dot (s : string) : string :=
  match s with
  | EmptyString => EmptyString
  | String c s' => if Ascii.eqb c "." then lstrip_dot s' else s
  end.

Fixpoint rstrip_dot (s : string) : string :=
  match s with
  | EmptyString => EmptyString
  | String c s' =>
      match rstrip_dot s' with
      | EmptyString => if Ascii.eqb c "." then EmptyString
                       else String c EmptyString
      | r => String c r
      end
  end.

(** [s.strip(".")] *)
Definition strip_dot (s : string) : string := rstrip_dot (lstrip_dot s).

(** [Realtime.format_num], lines 264-267: [f"{value:.2f}"[:4].strip(".")].
    [rendered] is the text [f"{value:.2f}"] Python makes of the float. *)
Definition format_num (rendered : string) : string :=
  strip_dot (substring 0 4 rendered).

(** No character of [s] is a dot. *)
Fixpoint no_dot (s : string) : bool :=
  match s with
  | EmptyString => true
  | String c s' => negb (Ascii.eqb c ".") && no_dot s'
  end.

(** ** What a trace says about the files *)

(** The files backed up, in the order of the calls: one per saving cycle. *)
Definition backups (ev : list Event) : list (string * string) :=
  flat_map (fun e => match e with
                     | EvCreateBackup fname fpath => [(fname, fpath)]
                     | _ => []
                     end) ev.

Definition is_write_of (fname : string) (e : Event) : bool :=
  match e with
  | EvSaveJson _ f _ => f =? fname
  | _ => false
  end.

(** The calls of [save_json_file] for one file name. *)
Definition writes_of (fname : string) (ev : list Event) : nat :=
  List.length (filter (is_write_of fname) ev).

(** A file name with its path, as a task holds them. *)
Definition file_of (e : string * Task) : string * string :=
  (fst e, fst (snd e)).

(** ** [Setting.preset_list] and the file system

    [os.listdir] raises [OSError] when the folder is missing or cannot be
    read, and [os.path.getmtime] raises it for a name whose file is gone
    or is a dangling link.  Nothing in the property catches it. *)

(** The settings folder as the system answers: [None] when [os.listdir]
    raises; else the names in the order listed, each with what
    [os.path.getmtime] would answer for it, [None] when it would raise. *)
Definition Folder : Type := option (list (string * option Z)).

(** The generator of line 316 calls [os.path.getmtime] for the names that
    pass the test of line 319, in the order of the listing; the first call
    that raises ends the property. *)
Fixpoint getmtimes (l : list (string * option Z))
  : option (list (string * Z)) :=
  match l with
  | [] => Some []
  | (name, mtime) :: l' =>
      if endswith ".json" (lower name) then
        match mtime with
        | None => None
        | Some t => option_map (cons (name, t)) (getmtimes l')
        end
      else getmtimes l'
  end.

(** The property [preset_list] with its failures. *)
Definition Setting_preset_list (allowed_filename : string -> bool)
           (folder : Folder) : outcome (list string) :=
  match folder with
  | None => Raised "OSError"
  | Some l =>
      match getmtimes l with
      | None => Raised "OSError"
      | Some dir => Returned (preset_list allowed_filename dir)
      end
  end.

(** A name of the listing that passes the test of line 319 while its time
    stamp cannot be read. *)
Definition unreadable (f : string * option Z) : bool :=
  endswith ".json" (lower (fst f))
  && match snd f with None => true | Some _ => false end.

(** Every character is an ASCII character. *)
Fixpoint is_ascii (s : string) : bool :=
  match s with
  | EmptyString => true
  | String c s' => (nat_of_ascii c <? 128)%nat && is_ascii s'
  end.

(** * Properties *)

(** ** Sample runs *)

Example save_setting_on_idle :
  save 66 "setting" false ex_cfg
  = Returned (set_is_saving
                (set_save_delay
                   (set_save_queue ex_cfg
                      [("default.json", ("settings/", Some 2%nat))]) 66) true,
              [EvThreadStart "default.json" "settings/" (Some 2%nat)]).
Proof. reflexivity. Qed.

Example save_config_while_busy :
  save 10 "config" false ex_busy = Returned (set_save_delay ex_busy 10, []).
Proof. reflexivity. Qed.

Example saving_second_attempt_ok :
  snd (__saving (fun k => Nat.eqb k 1) 120 "config.json" "global/"
                (Some 1%nat) (set_save_delay ex_busy 1))
  = [EvSleep 10;
     EvCreateBackup "config.json" "global/";
     EvSaveJson (Some 1%nat) "config.json" "global/";
     EvVerifyJson (Some 1%nat) "config.json" "global/" false;
     EvLogError MSG_ATTEMPTS_LEFT [AInt 2];
     EvSleep 50;
     EvSaveJson (Some 1%nat) "config.json" "global/";
     EvVerifyJson (Some 1%nat) "config.json" "global/" true;
     EvLogInfo MSG_RESULT
       [AStr "config.json"; AStr "saved"; AInt 120; AInt 1; AInt 2];
     EvDeleteBackup "config.json" "global/"].
Proof. reflexivity. Qed.

Example preset_list_sample :
  preset_list ex_allowed ex_dir = ["Quali"; "default"; "race"].
Proof. reflexivity. Qed.

Example preset_list_same_time :
  preset_list ex_allowed [("a.json", 5%Z); ("b.json", 5%Z)] = ["b"; "a"].
Proof. reflexivity. Qed.

Example preset_list_fallback :
  preset_list ex_allowed [("classes.json", 50%Z); ("notes.txt", 99%Z)]
  = ["default"].
Proof. reflexivity. Qed.

(** ** The queue *)

Lemma queue_get_mem k q :
  queue_mem k q = true <-> queue_get k q <> None.
Proof.
  induction q as [|[k' v] q IH]; simpl.
  - split; [discriminate | congruence].
  - destruct (k' =? k); simpl.
    + split; [discriminate | reflexivity].
    + exact IH.
Qed.

Lemma queue_mem_In k q : queue_mem k q = true <-> In k (queue_keys q).
Proof.
  induction q as [|[k' v] q IH]; simpl.
  - split; [discriminate | tauto].
  - destruct (String.eqb_spec k' k) as [->|Hne]; simpl.
    + tauto.
    + rewrite IH. split; [tauto | intros [H|H]; [contradiction | exact H]].
Qed.

Lemma queue_set_fresh k v q :
  queue_mem k q = false -> queue_set k v q = q ++ [(k, v)].
Proof.
  induction q as [|[k' v'] q IH]; simpl; intros H.
  - reflexivity.
  - apply orb_false_iff in H as [H1 H2]. rewrite H1, IH by exact H2.
    reflexivity.
Qed.

Lemma queue_get_app_fresh k v q :
  queue_mem k q = false -> queue_get k (q ++ [(k, v)]) = Some v.
Proof.
  induction q as [|[k' v'] q IH]; simpl; intros H.
  - now rewrite String.eqb_refl.
  - apply orb_false_iff in H as [H1 H2]. rewrite H1. now apply IH.
Qed.

Lemma queue_keys_pop_incl k q x :
  In x (queue_keys (queue_pop k q)) -> In x (queue_keys q).
Proof.
  induction q as [|[k' v'] q IH]; simpl; [tauto|].
  destruct (k' =? k); simpl; [tauto|].
  intros [H|H]; [tauto | right; now apply IH].
Qed.

Lemma queue_pop_NoDup k q :
  NoDup (queue_keys q) -> NoDup (queue_keys (queue_pop k q)).
Proof.
  induction q as [|[k' v'] q IH]; simpl; intros H; [exact H|].
  inversion H as [|? ? Hnin Hnd]; subst.
  destruct (k' =? k); simpl; [exact Hnd|].
  constructor; [|now apply IH].
  intros Hin. apply Hnin. eapply queue_keys_pop_incl; exact Hin.
Qed.

Lemma queue_pop_removes k q :
  NoDup (queue_keys q) -> queue_mem k (queue_pop k q) = false.
Proof.
  induction q as [|[k' v'] q IH]; simpl; intros H; [reflexivity|].
  inversion H as [|? ? Hnin Hnd]; subst.
  destruct (String.eqb_spec k' k) as [->|Hne]; simpl.
  - destruct (queue_mem k q) eqn:E; [|reflexivity].
    apply queue_mem_In in E. contradiction.
  - apply String.eqb_neq in Hne. rewrite Hne. now apply IH.
Qed.

Lemma queue_pop_length k q :
  (List.length (queue_pop k q) <= List.length q)%nat.
Proof.
  induction q as [|[k' v'] q IH]; simpl; [lia|].
  destruct (k' =? k); simpl; lia.
Qed.

Lemma queue_app_NoDup k v q :
  NoDup (queue_keys q) -> queue_mem k q = false ->
  NoDup (queue_keys (q ++ [(k, v)])).
Proof.
  intros Hnd Hk. unfold queue_keys. rewrite map_app. simpl.
  apply NoDup_app; [exact Hnd | repeat constructor; simpl; tauto |].
  intros x Hx [<-|[]].
  apply queue_mem_In in Hx. congruence.
Qed.

(** ** The save trigger *)

Lemma started_app a b : started (a ++ b) = started a ++ started b.
Proof. unfold started. apply flat_map_app. Qed.

Lemma save_trigger_empty delay s :
  _save_queue s = [] -> save_trigger delay s = Returned (s, []).
Proof. unfold save_trigger. now intros ->. Qed.

Lemma save_trigger_flagged delay s :
  _save_queue s <> [] -> is_saving s = true ->
  save_trigger delay s = Returned (set_save_delay s delay, []).
Proof.
  unfold save_trigger. destruct (_save_queue s) as [|[k t] q] eqn:E.
  - congruence.
  - intros _ H. simpl. now rewrite H.
Qed.

Lemma save_trigger_starts delay s k fpath d q :
  _save_queue s = (k, (fpath, d)) :: q -> is_saving s = false ->
  save_trigger delay s
  = Returned (set_is_saving (set_save_delay s delay) true,
              [EvThreadStart k fpath d]).
Proof.
  unfold save_trigger. intros E H. rewrite E. simpl. rewrite H. simpl.
  rewrite E. simpl. now rewrite String.eqb_refl.
Qed.

(** The trigger never raises, never touches the queue or the file names,
    and starts a thread only if the flag was down, raising it. *)
Lemma save_trigger_spec delay s :
  exists s' ev,
    save_trigger delay s = Returned (s', ev)
    /\ _save_queue s' = _save_queue s
    /\ filename s' = filename s
    /\ (_save_queue s <> [] -> _save_delay s' = delay)
    /\ (_save_queue s = [] -> s' = s /\ ev = [])
    /\ (is_saving s = true -> is_saving s' = true /\ ev = [])
    /\ (is_saving s = false -> forall k t q,
          _save_queue s = (k, t) :: q ->
          is_saving s' = true /\ ev = [EvThreadStart k (fst t) (snd t)]).
Proof.
  destruct (_save_queue s) as [|[k [fpath d]] q] eqn:E.
  - exists s, []. rewrite save_trigger_empty by exact E.
    repeat split; intros; congruence.
  - destruct (is_saving s) eqn:F.
    + exists (set_save_delay s delay), [].
      rewrite save_trigger_flagged by congruence.
      repeat split; simpl; intros; congruence.
    + exists (set_is_saving (set_save_delay s delay) true),
        [EvThreadStart k fpath d].
      rewrite (save_trigger_starts delay s k fpath d q E F).
      repeat split; simpl; intros; try congruence.
      match goal with H : _ :: _ = _ :: _ |- _ => injection H as <- <- <- end.
      reflexivity.
Qed.

Lemma save_next_task delay filetype s :
  save delay filetype true s = save_trigger delay s.
Proof.
  unfold save, save_enqueue. simpl.
  destruct (save_trigger delay s) as [[s' ev]|e]; reflexivity.
Qed.

(** The chained call enqueues nothing and cannot raise. *)
Lemma save_next_task_spec delay filetype s :
  exists s' ev,
    save delay filetype true s = Returned (s', ev)
    /\ _save_queue s' = _save_queue s.
Proof.
  rewrite save_next_task.
  destruct (save_trigger_spec delay s) as (s' & ev & H & Hq & _).
  now exists s', ev.
Qed.

(** A thread is started by [save] only when the flag is down, and the flag
    is up when the call returns. *)
Lemma save_starts_only_if_idle delay filetype next_task s s' ev :
  save delay filetype next_task s = Returned (s', ev) ->
  started ev <> [] ->
  is_saving s = false /\ is_saving s' = true.
Proof.
  unfold save. intros H Hst.
  destruct (save_enqueue filetype next_task s) as [[s1 ev1]|e] eqn:E1;
    [|discriminate].
  assert (Hflag : is_saving s1 = is_saving s /\ started ev1 = []).
  { unfold save_enqueue in E1.
    destruct (negb next_task);
      [|injection E1 as <- <-; split; reflexivity].
    destruct (FileName.getattr (filename s) filetype);
      [|injection E1 as <- <-; split; reflexivity].
    destruct (negb (queue_mem s0 (_save_queue s)));
      [|injection E1 as <- <-; split; reflexivity].
    destruct (Preset.getattr (user s) filetype); [|discriminate].
    injection E1 as <- <-; split; reflexivity. }
  destruct Hflag as [Hf Hs1].
  destruct (save_trigger_spec delay s1)
    as (s2 & ev2 & H2 & _ & _ & _ & _ & Hbusy & Hidle).
  rewrite H2 in H. injection H as <- <-.
  rewrite started_app, Hs1 in Hst. simpl in Hst.
  destruct (is_saving s1) eqn:F.
  - destruct (Hbusy eq_refl) as [_ ->]. now elim Hst.
  - split; [congruence|].
    destruct (_save_queue s1) as [|[k t] q] eqn:Q.
    + destruct (save_trigger_spec delay s1)
        as (s3 & ev3 & H3 & _ & _ & _ & He & _).
      rewrite H2 in H3. injection H3 as <- <-.
      destruct (He Q) as [_ ->]. now elim Hst.
    + now destruct (Hidle eq_refl k t q eq_refl).
Qed.

(** The thread [save] starts is for the first file name of the queue. *)
Lemma save_starts_head delay filetype next_task s s' ev fname task :
  save delay filetype next_task s = Returned (s', ev) ->
  In (fname, task) (started ev) ->
  exists q, _save_queue s' = (fname, task) :: q.
Proof.
  unfold save. intros H Hin.
  destruct (save_enqueue filetype next_task s) as [[s1 ev1]|e] eqn:E1;
    [|discriminate].
  assert (Hs1 : started ev1 = []).
  { unfold save_enqueue in E1.
    destruct (negb next_task); [|injection E1 as <- <-; reflexivity].
    destruct (FileName.getattr (filename s) filetype);
      [|injection E1 as <- <-; reflexivity].
    destruct (negb (queue_mem s0 (_save_queue s)));
      [|injection E1 as <- <-; reflexivity].
    destruct (Preset.getattr (user s) filetype); [|discriminate].
    injection E1 as <- <-; reflexivity. }
  destruct (save_trigger_spec delay s1)
    as (s2 & ev2 & H2 & Hq & _ & _ & He & Hbusy & Hidle).
  rewrite H2 in H. injection H as <- <-.
  rewrite started_app, Hs1 in Hin. simpl in Hin.
  destruct (_save_queue s1) as [|[k t] q] eqn:Q.
  - destruct (He eq_refl) as [_ ->]. destruct Hin.
  - destruct (is_saving s1) eqn:F.
    + destruct (Hbusy eq_refl) as [_ ->]. destruct Hin.
    + destruct (Hidle eq_refl k t q eq_refl) as [_ ->].
      simpl in Hin. destruct Hin as [Hin|[]].
      injection Hin as <- <-. exists q. rewrite Hq.
      now destruct t.
Qed.

(** ** The saving thread *)

Lemma delay_loop_spec n : forall s,
  (Z.to_nat (_save_delay s) <= n)%nat ->
  delay_loop n s
  = (if (0 <? _save_delay s)%Z then set_save_delay s 0 else s,
     repeat (EvSleep 10) (Z.to_nat (_save_delay s))).
Proof.
  induction n as [|n IH]; intros s Hn; simpl.
  - destruct (Z.ltb_spec 0 (_save_delay s)) as [Hpos|Hle]; [lia|].
    replace (Z.to_nat (_save_delay s)) with 0%nat by lia. reflexivity.
  - destruct (Z.ltb_spec 0 (_save_delay s)) as [Hpos|Hle].
    + rewrite IH by (simpl; lia). simpl.
      replace (Z.to_nat (_save_delay s))
        with (S (Z.to_nat (_save_delay s - 1))) by lia.
      simpl. destruct (Z.ltb_spec 0 (_save_delay s - 1)); [reflexivity|].
      replace (_save_delay s - 1)%Z with 0%Z by lia. reflexivity.
    + replace (Z.to_nat (_save_delay s)) with 0%nat by lia. reflexivity.
Qed.

Lemma delay_wait_spec s :
  delay_wait s
  = (if (0 <? _save_delay s)%Z then set_save_delay s 0 else s,
     repeat (EvSleep 10) (Z.to_nat (_save_delay s))).
Proof. apply delay_loop_spec. lia. Qed.

(** The loop is left with its condition false: the bound on the number of
    iterations was not what stopped it. *)
Lemma delay_wait_exits s : (_save_delay (fst (delay_wait s)) <= 0)%Z.
Proof.
  rewrite delay_wait_spec.
  destruct (Z.ltb_spec 0 (_save_delay s)); simpl; lia.
Qed.

Lemma delay_wait_events s :
  snd (delay_wait s) = repeat (EvSleep 10) (Z.to_nat (_save_delay s)).
Proof. now rewrite delay_wait_spec. Qed.

Lemma delay_wait_keeps s :
  _save_queue (fst (delay_wait s)) = _save_queue s
  /\ is_saving (fst (delay_wait s)) = is_saving s
  /\ filename (fst (delay_wait s)) = filename s
  /\ maximum_saving_attempts (fst (delay_wait s)) = maximum_saving_attempts s.
Proof.
  rewrite delay_wait_spec.
  destruct (0 <? _save_delay s)%Z; simpl; repeat split.
Qed.

Lemma attempt_loop_all_fail verify dict_user fname fpath :
  (forall k, verify k = false) ->
  forall n call attempts,
    (0 <= attempts)%Z -> (Z.to_nat attempts <= n)%nat ->
    attempt_loop n verify call attempts dict_user fname fpath
    = (0%Z, failed_attempts (Z.to_nat attempts) attempts dict_user fname fpath).
Proof.
  intros Hv. induction n as [|n IH]; intros call attempts H0 Hn; simpl.
  - assert (attempts = 0%Z) as -> by lia. reflexivity.
  - destruct (Z.ltb_spec 0 attempts) as [Hpos|Hle].
    + rewrite Hv, IH by lia.
      replace (Z.to_nat attempts) with (S (Z.to_nat (attempts - 1))) by lia.
      reflexivity.
    + assert (attempts = 0%Z) as -> by lia. reflexivity.
Qed.

Lemma attempt_all_first_ok verify attempts dict_user fname fpath :
  verify 0%nat = true -> (0 < attempts)%Z ->
  attempt_all verify attempts dict_user fname fpath
  = (attempts,
     [EvSaveJson dict_user fname fpath;
      EvVerifyJson dict_user fname fpath true]).
Proof.
  intros Hv Hpos. unfold attempt_all.
  destruct (Z.to_nat attempts) as [|n] eqn:E; [lia|]. simpl.
  destruct (Z.ltb_spec 0 attempts); [|lia]. now rewrite Hv.
Qed.

Lemma max_attempts_of_ge3 s : (3 <= max_attempts_of s)%Z.
Proof. unfold max_attempts_of. lia. Qed.

(** The trace of a cycle whose every verification fails. *)
Lemma saving_cycle_all_fail verify timer M fname fpath dict_user :
  (forall k, verify k = false) -> (0 < M)%Z ->
  saving_cycle verify timer M fname fpath dict_user
  = [EvCreateBackup fname fpath]
    ++ failed_attempts (Z.to_nat M) M dict_user fname fpath
    ++ [EvRestoreBackup fname fpath;
        EvLogInfo MSG_RESULT
          [AStr fname; AStr "failed saving"; AInt timer; AInt M; AInt 0];
        EvDeleteBackup fname fpath].
Proof.
  intros Hv HM. unfold saving_cycle, attempt_all.
  rewrite attempt_loop_all_fail by (assumption || lia). simpl.
  rewrite Z.sub_0_r. reflexivity.
Qed.

(** The trace of a cycle whose first verification succeeds. *)
Lemma saving_cycle_first_ok verify timer M fname fpath dict_user :
  verify 0%nat = true -> (0 < M)%Z ->
  saving_cycle verify timer M fname fpath dict_user
  = [EvCreateBackup fname fpath;
     EvSaveJson dict_user fname fpath;
     EvVerifyJson dict_user fname fpath true;
     EvLogInfo MSG_RESULT
       [AStr fname; AStr "saved"; AInt timer; AInt 0; AInt M];
     EvDeleteBackup fname fpath].
Proof.
  intros Hv HM. unfold saving_cycle.
  rewrite attempt_all_first_ok by assumption.
  destruct (Z.ltb_spec 0 M); [|lia]. simpl. now rewrite Z.sub_diag.
Qed.

Lemma saving_unfold verify timer fname fpath dict_user self :
  __saving verify timer fname fpath dict_user self
  = (fst (saving_finish fname (fst (delay_wait self))),
     snd (delay_wait self)
     ++ saving_cycle verify timer (max_attempts_of self) fname fpath dict_user
     ++ snd (saving_finish fname (fst (delay_wait self)))).
Proof.
  unfold __saving. destruct (delay_wait self) as [s1 ev1]. simpl.
  destruct (saving_finish fname s1) as [s2 ev2]. reflexivity.
Qed.

(** What the last three statements of the thread do. *)
Lemma saving_finish_spec fname s :
  let popped := queue_pop fname (_save_queue s) in
  let s' := fst (saving_finish fname s) in
  let ev := snd (saving_finish fname s) in
  _save_queue s' = popped
  /\ filename s' = filename s
  /\ (popped = [] -> is_saving s' = false /\ ev = [])
  /\ (forall k t q, popped = (k, t) :: q ->
        is_saving s' = true /\ _save_delay s' = 0%Z
        /\ ev = [EvThreadStart k (fst t) (snd t)]).
Proof.
  unfold saving_finish. simpl.
  destruct (queue_pop fname (_save_queue s)) as [|[k t] q] eqn:E.
  - simpl. repeat split; intros; congruence.
  - rewrite save_next_task.
    destruct (save_trigger_spec 0
                (set_is_saving (set_save_queue s ((k, t) :: q)) false))
      as (s2 & ev2 & H2 & Hq & Hf & Hd & _ & _ & Hidle).
    rewrite H2. simpl in *.
    destruct (Hidle eq_refl k t q eq_refl) as [Hfl Hev].
    repeat split; try assumption; try discriminate.
    + apply Hd. discriminate.
    + injection H as <- <- <-. exact Hev.
Qed.

Lemma count_writes_app a b :
  count_writes (a ++ b) = (count_writes a + count_writes b)%nat.
Proof. unfold count_writes. now rewrite filter_app, length_app. Qed.

Lemma count_backups_app a b :
  count_backups (a ++ b) = (count_backups a + count_backups b)%nat.
Proof. unfold count_backups. now rewrite filter_app, length_app. Qed.

Lemma count_writes_sleeps n : count_writes (repeat (EvSleep 10) n) = 0%nat.
Proof. induction n; [reflexivity | exact IHn]. Qed.

Lemma count_backups_sleeps n : count_backups (repeat (EvSleep 10) n) = 0%nat.
Proof. induction n; [reflexivity | exact IHn]. Qed.

Lemma count_writes_failed n : forall a d fname fpath,
  count_writes (failed_attempts n a d fname fpath) = n.
Proof.
  induction n as [|n IH]; intros; simpl; [reflexivity|].
  unfold count_writes in *. simpl. now rewrite IH.
Qed.

(** The last statements of the thread call no file primitive. *)
Lemma saving_finish_events fname s :
  snd (saving_finish fname s) = []
  \/ exists k fpath d, snd (saving_finish fname s) = [EvThreadStart k fpath d].
Proof.
  destruct (saving_finish_spec fname s) as (_ & _ & He & Hne).
  destruct (queue_pop fname (_save_queue s)) as [|[k t] q].
  - left. now apply He.
  - right. exists k, (fst t), (snd t). now apply (Hne k t q).
Qed.

(** ** Traces and the disk *)

Lemma disk_run_app {Disk Content} (io : FilePrimitives Disk Content) a b d :
  disk_run io (a ++ b) d = disk_run io b (disk_run io a d).
Proof. unfold disk_run. apply fold_left_app. Qed.

Lemma disk_run_sleeps {Disk Content} (io : FilePrimitives Disk Content) n d :
  disk_run io (repeat (EvSleep 10) n) d = d.
Proof. induction n; [reflexivity | exact IHn]. Qed.

Lemma disk_run_finish {Disk Content} (io : FilePrimitives Disk Content)
      fname s d :
  disk_run io (snd (saving_finish fname s)) d = d.
Proof.
  destruct (saving_finish_events fname s) as [->|(k & fp & dd & ->)];
    reflexivity.
Qed.

Lemma disk_run_failed_keeps_backup {Disk Content}
      (io : FilePrimitives Disk Content) fname fpath dict_user :
  honors_contract io ->
  forall n a d,
    read_backup io fname fpath
      (disk_run io (failed_attempts n a dict_user fname fpath) d)
    = read_backup io fname fpath d.
Proof.
  intros Hio. induction n as [|n IH]; intros a d; [reflexivity|].
  simpl. unfold disk_run in *. simpl. rewrite IH.
  apply (save_keeps_backup io Hio).
Qed.

Module SimpleDiskFacts.
Import SimpleDisk.

Lemma lookup_remove_same k d : lookup k (remove k d) = None.
Proof.
  induction d as [|[k' v] d IH]; simpl; [reflexivity|].
  destruct (k' =? k) eqn:E; simpl; [exact IH|]. now rewrite E.
Qed.

Lemma lookup_remove_other k k' d :
  k' <> k -> lookup k (remove k' d) = lookup k d.
Proof.
  intros Hne. induction d as [|[k0 v] d IH]; simpl; [reflexivity|].
  destruct (String.eqb_spec k0 k') as [->|Hne0]; simpl.
  - apply String.eqb_neq in Hne. now rewrite Hne.
  - destruct (k0 =? k); [reflexivity | exact IH].
Qed.

Lemma lookup_put_same k v d : lookup k (put k v d) = v.
Proof.
  destruct v as [c|]; simpl.
  - now rewrite String.eqb_refl.
  - apply lookup_remove_same.
Qed.

Lemma lookup_put_other k k' v d :
  k' <> k -> lookup k (put k' v d) = lookup k d.
Proof.
  intros Hne. destruct v as [c|]; simpl.
  - apply String.eqb_neq in Hne. rewrite Hne.
    apply lookup_remove_other. now apply String.eqb_neq.
  - now apply lookup_remove_other.
Qed.

Lemma length_append a b :
  String.length (a ++ b)%string = (String.length a + String.length b)%nat.
Proof. induction a; simpl; [reflexivity | now rewrite IHa]. Qed.

Lemma bak_not_target fname fpath : bak fname fpath <> target fname fpath.
Proof.
  unfold bak, target. intros H.
  apply (f_equal String.length) in H.
  rewrite !length_append in H. simpl in H. lia.
Qed.

(** The model keeps the contract the engine relies on. *)
Lemma io_honors_contract : honors_contract io.
Proof.
  constructor; intros; unfold io;
    cbn [read_file read_backup create_backup_file save_json_file
         restore_backup_file delete_backup_file].
  - apply lookup_put_same.
  - apply lookup_put_other. apply not_eq_sym, bak_not_target.
  - apply lookup_put_same.
  - apply lookup_put_other. apply bak_not_target.
Qed.
End SimpleDiskFacts.

(** ** Failed saves *)

(** The trace of a thread whose every verification fails. *)
Lemma saving_all_fail_trace verify timer fname fpath dict_user self :
  (forall k, verify k = false) ->
  snd (__saving verify timer fname fpath dict_user self)
  = repeat (EvSleep 10) (Z.to_nat (_save_delay self))
    ++ ([EvCreateBackup fname fpath]
        ++ failed_attempts (Z.to_nat (max_attempts_of self))
             (max_attempts_of self) dict_user fname fpath
        ++ [EvRestoreBackup fname fpath;
            EvLogInfo MSG_RESULT
              [AStr fname; AStr "failed saving"; AInt timer;
               AInt (max_attempts_of self); AInt 0];
            EvDeleteBackup fname fpath])
    ++ snd (saving_finish fname (fst (delay_wait self))).
Proof.
  intros Hv. rewrite saving_unfold. simpl.
  rewrite delay_wait_spec at 1. simpl.
  rewrite saving_cycle_all_fail; [reflexivity | assumption |].
  pose proof (max_attempts_of_ge3 self). lia.
Qed.

(** C4.  For every configured [maximum_saving_attempts = m], when every
    verification fails the thread calls [save_json_file] exactly
    [max(m, 3)] times, sleeps 50 ms after each failed verification, then
    calls [restore_backup_file], logs the result and calls
    [delete_backup_file]; with [m = 3] there are exactly three writes and
    the log line reads "failed saving" with 3 attempts used and 0 left. *)
Theorem C4_failed_attempts :
  forall m verify timer fname fpath dict_user self,
    maximum_saving_attempts self = m ->
    (forall k, verify k = false) ->
    let M := Z.max m 3 in
    let ev := snd (__saving verify timer fname fpath dict_user self) in
    let cycle :=
      [EvCreateBackup fname fpath]
      ++ failed_attempts (Z.to_nat M) M dict_user fname fpath
      ++ [EvRestoreBackup fname fpath;
          EvLogInfo MSG_RESULT
            [AStr fname; AStr "failed saving"; AInt timer; AInt M; AInt 0];
          EvDeleteBackup fname fpath] in
    ev = repeat (EvSleep 10) (Z.to_nat (_save_delay self))
         ++ cycle
         ++ snd (saving_finish fname (fst (delay_wait self)))
    /\ count_writes ev = Z.to_nat M
    /\ (m = 3%Z ->
        cycle =
        [EvCreateBackup fname fpath;
         EvSaveJson dict_user fname fpath;
         EvVerifyJson dict_user fname fpath false;
         EvLogError MSG_ATTEMPTS_LEFT [AInt 2];
         EvSleep 50;
         EvSaveJson dict_user fname fpath;
         EvVerifyJson dict_user fname fpath false;
         EvLogError MSG_ATTEMPTS_LEFT [AInt 1];
         EvSleep 50;
         EvSaveJson dict_user fname fpath;
         EvVerifyJson dict_user fname fpath false;
         EvLogError MSG_ATTEMPTS_LEFT [AInt 0];
         EvSleep 50;
         EvRestoreBackup fname fpath;
         EvLogInfo MSG_RESULT
           [AStr fname; AStr "failed saving"; AInt timer; AInt 3; AInt 0];
         EvDeleteBackup fname fpath]).
Proof.
  intros m verify timer fname fpath dict_user self Hm Hv M ev cycle.
  assert (HM : max_attempts_of self = M)
    by (unfold max_attempts_of; now rewrite Hm).
  assert (Hev : ev = repeat (EvSleep 10) (Z.to_nat (_save_delay self))
                     ++ cycle
                     ++ snd (saving_finish fname (fst (delay_wait self)))).
  { subst ev cycle. rewrite saving_all_fail_trace by assumption.
    now rewrite HM. }
  split; [exact Hev|]. split.
  - rewrite Hev. subst cycle.
    rewrite !count_writes_app, count_writes_sleeps, count_writes_failed.
    destruct (saving_finish_events fname (fst (delay_wait self)))
      as [->|(k & fp & dd & ->)]; unfold count_writes; simpl; lia.
  - intros ->. reflexivity.
Qed.

(** C4 at a sample input: three attempts configured, every verification
    fails. *)
Lemma C4_failed_attempts_witness :
  count_writes (snd (__saving no 7 "config.json" "global/" (Some 1%nat) ex_busy))
  = 3%nat.
Proof.
  exact (proj1 (proj2 (C4_failed_attempts 3 no 7 "config.json" "global/"
                         (Some 1%nat) ex_busy eq_refl (fun _ => eq_refl)))).
Defined.

(** C1.  When [verify_json_file] answers false at every attempt, the thread
    calls [restore_backup_file] on the target after its last write and
    before it finishes; with file primitives that keep their contract, the
    content of the target after the run is its content before the run. *)
Theorem C1_failed_save_restores :
  forall (Disk Content : Type) (io : FilePrimitives Disk Content)
         verify timer fname fpath dict_user self disk,
    honors_contract io ->
    (forall k, verify k = false) ->
    let ev := snd (__saving verify timer fname fpath dict_user self) in
    (exists pre post,
        ev = pre ++ EvRestoreBackup fname fpath :: post
        /\ In (EvCreateBackup fname fpath) pre
        /\ count_writes post = 0%nat
        /\ In (EvDeleteBackup fname fpath) post)
    /\ read_file io fname fpath (disk_run io ev disk)
       = read_file io fname fpath disk.
Proof.
  intros Disk Content io verify timer fname fpath dict_user self disk
         Hio Hv ev.
  pose proof (saving_all_fail_trace verify timer fname fpath dict_user self Hv)
    as Hev.
  fold ev in Hev. split.
  - exists (repeat (EvSleep 10) (Z.to_nat (_save_delay self))
            ++ [EvCreateBackup fname fpath]
            ++ failed_attempts (Z.to_nat (max_attempts_of self))
                 (max_attempts_of self) dict_user fname fpath).
    eexists. split; [|split; [|split]].
    + rewrite Hev. rewrite <- !app_assoc. simpl. reflexivity.
    + apply in_or_app. right. left. reflexivity.
    + destruct (saving_finish_events fname (fst (delay_wait self)))
        as [->|(k & fp & dd & ->)]; reflexivity.
    + right. left. reflexivity.
  - rewrite Hev, !disk_run_app, disk_run_finish, disk_run_sleeps.
    unfold disk_run at 1. simpl.
    rewrite (delete_keeps_file io Hio), (restore_replaces io Hio).
    rewrite disk_run_failed_keeps_backup by exact Hio.
    unfold disk_run. simpl. apply (backup_captures io Hio).
Qed.

(** C1 at a sample input: [config.json] holds "old" before a save whose
    verifications all fail, and holds "old" after it. *)
Lemma C1_failed_save_restores_witness :
  let disk := [("global/config.json", "old")] in
  let ev := snd (__saving no 7 "config.json" "global/" (Some 1%nat) ex_busy) in
  SimpleDisk.lookup "global/config.json" (disk_run SimpleDisk.io ev disk)
  = Some "old".
Proof.
  exact (proj2 (C1_failed_save_restores
                  SimpleDisk.t string SimpleDisk.io no 7 "config.json"
                  "global/" (Some 1%nat) ex_busy
                  [("global/config.json", "old")]
                  SimpleDiskFacts.io_honors_contract (fun _ => eq_refl))).
Defined.

(** ** A successful save *)

(** C7 as the code has it.  On an idle engine, [save(0)] for the category
    [setting] starts one thread; with the first verification succeeding the
    thread makes the backup, writes once, verifies once and deletes the
    backup, leaving the queue empty and [is_saving] false.  The log line
    reads "saved" with 0 attempts used ([max_attempts - attempts]) and
    [max_attempts] attempts left. *)
Theorem C7_save_setting_now :
  forall verify timer self,
    _save_queue self = [] ->
    is_saving self = false ->
    verify 0%nat = true ->
    let fname := FileName.setting (filename self) in
    let fpath := FilePath.settings (path self) in
    let dict_user := Preset.setting (user self) in
    exists self1 self2,
      save 0 "setting" false self
      = Returned (self1, [EvThreadStart fname fpath dict_user])
      /\ __saving verify timer fname fpath dict_user self1
         = (self2,
            [EvCreateBackup fname fpath;
             EvSaveJson dict_user fname fpath;
             EvVerifyJson dict_user fname fpath true;
             EvLogInfo MSG_RESULT
               [AStr fname; AStr "saved"; AInt timer; AInt 0;
                AInt (max_attempts_of self)];
             EvDeleteBackup fname fpath])
      /\ _save_queue self2 = []
      /\ is_saving self2 = false.
Proof.
  intros verify timer self Hq Hf Hv fname fpath dict_user.
  subst fname fpath dict_user.
  assert (Hsave : exists self1,
             save 0 "setting" false self
             = Returned (self1,
                         [EvThreadStart (FileName.setting (filename self))
                            (FilePath.settings (path self))
                            (Preset.setting (user self))])
             /\ _save_delay self1 = 0%Z
             /\ _save_queue self1
                = [(FileName.setting (filename self),
                    (FilePath.settings (path self),
                     Preset.setting (user self)))]
             /\ max_attempts_of self1 = max_attempts_of self).
  { unfold save, save_enqueue. simpl. rewrite Hq. simpl.
    erewrite save_trigger_starts; [| simpl; reflexivity | exact Hf].
    eexists. split; [reflexivity|]. repeat split. }
  destruct Hsave as (self1 & Hsave & Hd1 & Hq1 & Hm1).
  exists self1. eexists. split; [exact Hsave|].
  rewrite saving_unfold, delay_wait_spec, Hd1, Hm1. simpl.
  rewrite saving_cycle_first_ok;
    [| assumption | pose proof (max_attempts_of_ge3 self); lia].
  unfold saving_finish. simpl. rewrite Hq1. simpl.
  rewrite String.eqb_refl. simpl. repeat split.
Qed.

Lemma C7_save_setting_now_witness :
  exists self1 self2,
    save 0 "setting" false ex_cfg
    = Returned (self1, [EvThreadStart "default.json" "settings/" (Some 2%nat)])
    /\ __saving yes 12 "default.json" "settings/" (Some 2%nat) self1
       = (self2,
          [EvCreateBackup "default.json" "settings/";
           EvSaveJson (Some 2%nat) "default.json" "settings/";
           EvVerifyJson (Some 2%nat) "default.json" "settings/" true;
           EvLogInfo MSG_RESULT
             [AStr "default.json"; AStr "saved"; AInt 12; AInt 0; AInt 3];
           EvDeleteBackup "default.json" "settings/"])
    /\ _save_queue self2 = []
    /\ is_saving self2 = false.
Proof.
  exact (C7_save_setting_now yes 12 ex_cfg eq_refl eq_refl eq_refl).
Defined.

(** C7 as stated fails: with three attempts configured and the first
    verification succeeding, the log line carries 0 and 3, and no line with
    1 attempt used out of 3 is logged. *)
Lemma C7_log_counterexample :
  exists self1 self2 ev,
    save 0 "setting" false ex_cfg
    = Returned (self1, [EvThreadStart "default.json" "settings/" (Some 2%nat)])
    /\ __saving yes 12 "default.json" "settings/" (Some 2%nat) self1
       = (self2, ev)
    /\ In (EvLogInfo MSG_RESULT
             [AStr "default.json"; AStr "saved"; AInt 12; AInt 0; AInt 3]) ev
    /\ ~ In (EvLogInfo MSG_RESULT
               [AStr "default.json"; AStr "saved"; AInt 12; AInt 1; AInt 3]) ev.
Proof.
  do 3 eexists. split; [reflexivity|]. split; [reflexivity|]. split.
  - simpl. tauto.
  - simpl. intros H.
    repeat (destruct H as [H|H]; [discriminate H|]). exact H.
Qed.

(** ** Requests with an unknown file type *)

(** C6 as the code has it.  For every file type for which
    [getattr(self.filename, filetype, None)] is [None] (the name is no slot
    of [FileName] and no attribute of its class or of [object]), [save]
    logs the error, raises nothing and leaves the queue as it was.  With an empty queue nothing else changes.  With a non-empty
    queue the call goes on to the trigger: the delay is overwritten, and if
    [is_saving] was false it is set and a thread is started for the first
    file name of the queue. *)
Theorem C6_invalid_file_type :
  forall delay filetype self,
    FileName.getattr (filename self) filetype = None ->
    exists self' ev,
      save delay filetype false self
      = Returned (self', EvLogError MSG_INVALID_FILE_TYPE [] :: ev)
      /\ _save_queue self' = _save_queue self
      /\ (_save_queue self = [] -> self' = self /\ ev = [])
      /\ (_save_queue self <> [] ->
          _save_delay self' = delay /\ is_saving self' = true)
      /\ (is_saving self = true -> ev = [])
      /\ (is_saving self = false -> forall k t q,
            _save_queue self = (k, t) :: q ->
            ev = [EvThreadStart k (fst t) (snd t)]).
Proof.
  intros delay filetype self Hnone.
  destruct (save_trigger_spec delay self)
    as (s' & ev & H & Hq & _ & Hd & He & Hbusy & Hidle).
  exists s', ev. unfold save, save_enqueue. simpl. rewrite Hnone, H.
  split; [reflexivity|]. split; [exact Hq|]. split; [exact He|].
  split; [|split].
  - intros Hne. split; [now apply Hd|].
    destruct (is_saving self) eqn:F; [now apply Hbusy|].
    destruct (_save_queue self) as [|[k t] q] eqn:Q; [congruence|].
    now destruct (Hidle eq_refl k t q eq_refl).
  - intros F. now apply Hbusy.
  - intros F k t q Q. now destruct (Hidle F k t q Q).
Qed.

Lemma C6_invalid_file_type_witness :
  exists self' ev,
    save 5 "widget" false ex_busy
    = Returned (self', EvLogError MSG_INVALID_FILE_TYPE [] :: ev)
    /\ _save_queue self' = _save_queue ex_busy.
Proof.
  destruct (C6_invalid_file_type 5 "widget" ex_busy eq_refl)
    as (self' & ev & H & Hq & _).
  exists self', ev. split; [exact H | exact Hq].
Defined.

(** C6 as stated fails three times.  With a task waiting, a request for
    the unknown type [widget] overwrites the delay counter.  For
    [last_setting], which is a slot of [FileName] but not a category, the
    call raises [AttributeError] instead of logging.  And for [__doc__],
    which is no category either, [getattr] finds the doc strings of the
    two classes: nothing is logged, a task is queued under the key
    ["File name"] and a thread is started for it. *)
Lemma C6_state_change_counterexample :
  ~ In "widget" known_categories
  /\ ~ In "last_setting" known_categories
  /\ ~ In "__doc__" known_categories
  /\ (exists self',
        save 5 "widget" false ex_busy
        = Returned (self', [EvLogError MSG_INVALID_FILE_TYPE []])
        /\ _save_delay ex_busy = 66%Z
        /\ _save_delay self' = 5%Z)
  /\ save 66 "last_setting" false ex_cfg = Raised "AttributeError"
  /\ (exists self' task,
        save 66 "__doc__" false ex_cfg
        = Returned (self', [EvThreadStart "File name" "settings/" task])
        /\ queue_keys (_save_queue self') = ["File name"]
        /\ is_saving self' = true).
Proof.
  split; [|split; [|split; [|split; [|split]]]].
  - simpl. intros H. repeat (destruct H as [H|H]; [discriminate H|]). exact H.
  - simpl. intros H. repeat (destruct H as [H|H]; [discriminate H|]). exact H.
  - simpl. intros H. repeat (destruct H as [H|H]; [discriminate H|]). exact H.
  - eexists. split; [reflexivity|]. split; reflexivity.
  - reflexivity.
  - do 2 eexists. split; [vm_compute; reflexivity|]. split; reflexivity.
Qed.

(** ** Draining the queue *)

Lemma started_sleeps n : started (repeat (EvSleep 10) n) = [].
Proof. induction n; [reflexivity | exact IHn]. Qed.

Lemma started_attempt_loop verify dict_user fname fpath n :
  forall call a,
    started (snd (attempt_loop n verify call a dict_user fname fpath)) = [].
Proof.
  induction n as [|n IH]; intros call a; simpl.
  - destruct (0 <? a)%Z; reflexivity.
  - destruct (0 <? a)%Z; [|reflexivity].
    destruct (verify call); [reflexivity|].
    specialize (IH (S call) (a - 1)%Z).
    destruct (attempt_loop n verify (S call) (a - 1) dict_user fname fpath).
    exact IH.
Qed.

Lemma started_saving_cycle verify timer M fname fpath dict_user :
  started (saving_cycle verify timer M fname fpath dict_user) = [].
Proof.
  unfold saving_cycle, attempt_all.
  pose proof (started_attempt_loop verify dict_user fname fpath
                (Z.to_nat M) 0 M) as H.
  destruct (attempt_loop (Z.to_nat M) verify 0 M dict_user fname fpath)
    as [a ev]. simpl in H.
  destruct (0 <? a)%Z; simpl; rewrite !started_app, H; reflexivity.
Qed.

(** What one run of the thread leaves behind: its file name is out of the
    queue; then either the queue is empty, the flag is down and no thread
    was started, or the flag is up again and one thread was started for
    the new first file name. *)
Lemma saving_outcome verify timer fname fpath dict_user self :
  let r := __saving verify timer fname fpath dict_user self in
  let popped := queue_pop fname (_save_queue self) in
  _save_queue (fst r) = popped
  /\ filename (fst r) = filename self
  /\ (popped = [] -> is_saving (fst r) = false /\ started (snd r) = [])
  /\ (forall k t q, popped = (k, t) :: q ->
        is_saving (fst r) = true /\ started (snd r) = [(k, t)]).
Proof.
  simpl. rewrite saving_unfold. simpl.
  rewrite !started_app, started_saving_cycle, delay_wait_events.
  rewrite started_sleeps. simpl.
  destruct (saving_finish_spec fname (fst (delay_wait self)))
    as (Hq & Hf & He & Hne).
  destruct (delay_wait_keeps self) as (Kq & _ & Kf & _).
  rewrite Kq in *.
  split; [exact Hq|]. split; [congruence|]. split.
  - intros E. destruct (He E) as [H1 H2]. now rewrite H2.
  - intros k t q E. destruct (Hne k t q E) as (H1 & _ & H2).
    rewrite H2. destruct t. split; [exact H1 | reflexivity].
Qed.

Lemma run_threads_nil n verifies timers r self :
  run_threads n verifies timers r [] self = Some (self, []).
Proof. destruct n; reflexivity. Qed.

(** ** Coalescing of requests *)

(** The first request for a file name that is not queued appends its task,
    captured from the state at that call. *)
Lemma save_enqueues delay filetype fname s s' ev :
  FileName.getattr (filename s) filetype = Some fname ->
  queue_mem fname (_save_queue s) = false ->
  save delay filetype false s = Returned (s', ev) ->
  exists dd,
    Preset.getattr (user s) filetype = Some dd
    /\ _save_queue s'
       = _save_queue s
         ++ [(fname,
              (if filetype =? "config" then FilePath.config (path s)
               else FilePath.settings (path s), dd))]
    /\ filename s' = filename s
    /\ (is_saving s = true -> is_saving s' = true /\ ev = [])
    /\ (is_saving s = false -> _save_queue s = [] ->
        is_saving s' = true
        /\ ev = [EvThreadStart fname
                   (if filetype =? "config" then FilePath.config (path s)
                    else FilePath.settings (path s)) dd]).
Proof.
  intros Hg Hm H. unfold save, save_enqueue in H. simpl in H.
  rewrite Hg, Hm in H. simpl in H.
  destruct (Preset.getattr (user s) filetype) as [dd|]; [|discriminate].
  exists dd. split; [reflexivity|].
  rewrite queue_set_fresh in H by exact Hm.
  match type of H with
  | match save_trigger ?d ?s1 with _ => _ end = _ =>
      destruct (save_trigger_spec d s1)
        as (s2 & ev2 & H2 & Hq & Hf & _ & _ & Hbusy & Hidle);
      rewrite H2 in H
  end.
  injection H as <- <-. simpl in *.
  split; [exact Hq|]. split; [exact Hf|]. split.
  - exact Hbusy.
  - intros F Q. rewrite Q in Hidle. simpl in Hidle.
    exact (Hidle F _ _ _ eq_refl).
Qed.

(** A request for a file name already queued leaves the queue alone. *)
Lemma save_coalesces delay filetype fname s s' ev :
  FileName.getattr (filename s) filetype = Some fname ->
  queue_mem fname (_save_queue s) = true ->
  save delay filetype false s = Returned (s', ev) ->
  _save_queue s' = _save_queue s
  /\ filename s' = filename s
  /\ (is_saving s = true -> is_saving s' = true /\ ev = []).
Proof.
  intros Hg Hm H. unfold save, save_enqueue in H. simpl in H.
  rewrite Hg, Hm in H. simpl in H.
  destruct (save_trigger_spec delay s)
    as (s2 & ev2 & H2 & Hq & Hf & _ & _ & Hbusy & _).
  rewrite H2 in H. injection H as <- <-. simpl.
  split; [exact Hq|]. split; [exact Hf|]. exact Hbusy.
Qed.

Lemma count_backups_attempt_loop verify dict_user fname fpath n :
  forall call a,
    count_backups
      (snd (attempt_loop n verify call a dict_user fname fpath)) = 0%nat.
Proof.
  induction n as [|n IH]; intros call a; simpl.
  - destruct (0 <? a)%Z; reflexivity.
  - destruct (0 <? a)%Z; [|reflexivity].
    destruct (verify call); [reflexivity|].
    specialize (IH (S call) (a - 1)%Z).
    destruct (attempt_loop n verify (S call) (a - 1) dict_user fname fpath).
    exact IH.
Qed.

(** A thread makes exactly one backup, whatever the verifications answer. *)
Lemma count_backups_saving verify timer fname fpath dict_user self :
  count_backups (snd (__saving verify timer fname fpath dict_user self))
  = 1%nat.
Proof.
  rewrite saving_unfold. simpl.
  rewrite !count_backups_app, delay_wait_events, count_backups_sleeps.
  assert (Hfin : count_backups
                   (snd (saving_finish fname (fst (delay_wait self)))) = 0%nat).
  { destruct (saving_finish_events fname (fst (delay_wait self)))
      as [->|(k & fp & dd & ->)]; reflexivity. }
  rewrite Hfin. unfold saving_cycle, attempt_all.
  pose proof (count_backups_attempt_loop verify dict_user fname fpath
                (Z.to_nat (max_attempts_of self)) 0 (max_attempts_of self))
    as H.
  destruct (attempt_loop (Z.to_nat (max_attempts_of self)) verify 0
              (max_attempts_of self) dict_user fname fpath) as [a ev].
  simpl in H. cbv beta iota.
  destruct (0 <? a)%Z; cbv beta iota;
    rewrite !count_backups_app, H; reflexivity.
Qed.

(** A thread whose first verification succeeds writes exactly once. *)
Lemma count_writes_saving_ok verify timer fname fpath dict_user self :
  verify 0%nat = true ->
  count_writes (snd (__saving verify timer fname fpath dict_user self))
  = 1%nat.
Proof.
  intros Hv. rewrite saving_unfold. simpl.
  rewrite !count_writes_app, delay_wait_events, count_writes_sleeps.
  rewrite saving_cycle_first_ok;
    [| assumption | pose proof (max_attempts_of_ge3 self); lia].
  destruct (saving_finish_events fname (fst (delay_wait self)))
    as [->|(k & fp & dd & ->)]; reflexivity.
Qed.

Lemma keeps_engine_entry fname a b :
  keeps_engine a b -> keeps_entry fname a b.
Proof.
  intros (Hf & Hq & _). unfold keeps_entry. rewrite Hq. repeat split; auto.
Qed.

Lemma ex_burst :
  burst keeps_engine "setting" ex_cfg
        (([EvThreadStart "default.json" "settings/" (Some 2%nat)] ++ [])
         ++ [])
        ex_after_burst.
Proof.
  pose (s1 := set_is_saving
                (set_save_delay
                   (set_save_queue ex_cfg
                      [("default.json", ("settings/", Some 2%nat))]) 66)
                true).
  pose (s2 := set_save_delay (ex_edit 42%nat s1) 66).
  apply (burst_next keeps_engine "setting" 66 ex_cfg _ s2 (ex_edit 43%nat s2) []
                    ex_after_burst).
  - apply (burst_next keeps_engine "setting" 66 ex_cfg _ s1 (ex_edit 42%nat s1) []
                      s2).
    + apply burst_first with (delay := 66%Z). reflexivity.
    + repeat split.
    + reflexivity.
  - repeat split.
  - reflexivity.
Qed.

(** ** Interleavings *)

Lemma sys_run_app a b sys :
  sys_run (a ++ b) sys
  = match sys_run a sys with
    | Some sys' => sys_run b sys'
    | None => None
    end.
Proof.
  revert sys. induction a as [|x a IH]; intros sys; simpl; [reflexivity|].
  destruct (sys_do x sys); [apply IH | reflexivity].
Qed.

Lemma reachable_trans a b c : reachable a b -> reachable b c -> reachable a c.
Proof.
  intros [x Hx] [y Hy]. exists (x ++ y). now rewrite sys_run_app, Hx.
Qed.

(** C9.  A state is reachable in which [is_saving] is false while the queue
    is not empty: after requests for [config] and [classes], the thread of
    [config] has cleared the flag (line 412) and has not yet chained to
    [classes] (line 415), whose task is still queued and unwritten; a
    caller polling [is_saving] sees false there.  The pending task is
    written only later. *)
Theorem C9_flag_down_while_pending :
  exists st st',
    reachable (sys_init ex_cfg) st
    /\ is_saving (cfg st) = false
    /\ wait_is_over st = true
    /\ _save_queue (cfg st) = [("classes.json", ("settings/", Some 3%nat))]
    /\ map pc (threads st) = [L415]
    /\ ~ In (EvSaveJson (Some 3%nat) "classes.json" "settings/") (trace st)
    /\ reachable st st'
    /\ In (EvSaveJson (Some 3%nat) "classes.json" "settings/") (trace st').
Proof.
  do 2 eexists.
  split; [exists window_schedule; vm_compute; reflexivity|].
  split; [reflexivity|]. split; [reflexivity|]. split; [reflexivity|].
  split; [reflexivity|].
  split; [|split; [exists window_rest; vm_compute; reflexivity|]].
  - simpl. intros H. repeat (destruct H as [H|H]; [discriminate H|]). exact H.
  - simpl. tauto.
Qed.

(** C3 fails on this schedule.  Requests for the distinct categories
    [config], [classes] and [setting]: the request for [setting] arrives
    while the thread of [config] stands between the test of the flag
    (line 367) and its assignment (line 368).  Both the UI thread and that
    thread then start a thread for [classes.json]; the two are saving at
    the same time, each made its backup and is about to write. *)
Theorem C3_two_threads_saving :
  exists st a b,
    reachable (sys_init ex_cfg) st
    /\ nth_error (threads st) 1 = Some a
    /\ nth_error (threads st) 2 = Some b
    /\ pc a = L387 /\ pc b = L387
    /\ in_saving (pc a) = true /\ in_saving (pc b) = true
    /\ t_filename a = "classes.json" /\ t_filename b = "classes.json"
    /\ count_backups (trace st) = 3%nat.
Proof.
  do 3 eexists.
  split; [exists race_schedule; vm_compute; reflexivity|].
  repeat split.
Qed.

(** ** The debounce window *)

Lemma thread_run_add verify timer a : forall b s th,
  thread_run (a + b) verify timer s th
  = let '(s1, th1, ev1) := thread_run a verify timer s th in
    let '(s2, th2, ev2) := thread_run b verify timer s1 th1 in
    (s2, th2, ev1 ++ ev2).
Proof.
  induction a as [|a IH]; intros b s th; simpl.
  - destruct (thread_run b verify timer s th) as [[s2 th2] ev2]. reflexivity.
  - destruct (worker_step verify timer s th) as [[s0 th0] ev0].
    rewrite IH.
    destruct (thread_run a verify timer s0 th0) as [[s1 th1] ev1].
    destruct (thread_run b verify timer s1 th1) as [[s2 th2] ev2].
    now rewrite app_assoc.
Qed.

Lemma waits_add verify timer a b s th s1 th1 ev1 :
  waits a verify timer s th ->
  thread_run a verify timer s th = (s1, th1, ev1) ->
  waits b verify timer s1 th1 ->
  waits (a + b) verify timer s th.
Proof.
  intros Ha Hrun Hb m Hm.
  destruct (Nat.lt_ge_cases m a) as [Hlt|Hge]; [now apply Ha|].
  replace m with (a + (m - a))%nat by lia.
  rewrite thread_run_add, Hrun.
  specialize (Hb (m - a)%nat ltac:(lia)).
  destruct (thread_run (m - a) verify timer s1 th1) as [[s2 th2] ev2].
  exact Hb.
Qed.

(** From the loop test with [d] ticks on the counter: [d] sleeps of 10 ms,
    the counter at zero, and only then line 384. *)
Lemma delay_ticks verify timer d : forall s th,
  pc th = L379 ->
  _save_delay s = Z.of_nat d ->
  exists s',
    thread_run (4 * d + 1) verify timer s th
    = (s', goto L384 th, repeat (EvSleep 10) d)
    /\ s' = match d with O => s | S _ => set_save_delay s 0 end
    /\ _save_delay s' = 0%Z
    /\ waits (4 * d + 1) verify timer s th.
Proof.
  induction d as [|d IH]; intros s th Hpc Hd.
  - exists s. simpl. unfold worker_step. rewrite Hpc, Hd. simpl.
    repeat split; try assumption.
    intros m Hm. assert (m = 0%nat) as -> by lia. simpl. now rewrite Hpc.
  - assert (H4 : thread_run 4 verify timer s th
                 = (set_save_delay s (Z.of_nat d), goto L379 th,
                    [EvSleep 10])).
    { simpl. unfold worker_step at 1. rewrite Hpc, Hd.
      destruct (Z.ltb_spec 0 (Z.of_nat (S d))); [|lia].
      unfold worker_step. simpl. rewrite Hd.
      replace (Z.of_nat (S d) - 1)%Z with (Z.of_nat d) by lia.
      reflexivity. }
    destruct (IH (set_save_delay s (Z.of_nat d)) (goto L379 th))
      as (s' & Hrun & Hs' & H0 & Hw); [reflexivity | reflexivity |].
    exists s'. replace (4 * S d + 1)%nat with (4 + (4 * d + 1))%nat by lia.
    split; [rewrite thread_run_add, H4, Hrun; reflexivity|].
    split; [rewrite Hs'; destruct d; reflexivity|].
    split; [assumption|].
    eapply waits_add; [| exact H4 | exact Hw].
    intros m Hm.
    destruct m as [|[|[|[|m]]]]; [| | | | lia]; simpl.
    + now rewrite Hpc.
    + unfold worker_step. rewrite Hpc, Hd.
      destruct (Z.ltb_spec 0 (Z.of_nat (S d))); [reflexivity | lia].
    + unfold worker_step at 1. rewrite Hpc, Hd.
      destruct (Z.ltb_spec 0 (Z.of_nat (S d))); [reflexivity | lia].
    + unfold worker_step at 1. rewrite Hpc, Hd.
      destruct (Z.ltb_spec 0 (Z.of_nat (S d))); [reflexivity | lia].
Qed.

(** An accepted request leaves the counter at its delay. *)
Lemma save_refreshes_delay delay filetype self self' ev :
  FileName.getattr (filename self) filetype <> None ->
  save delay filetype false self = Returned (self', ev) ->
  _save_delay self' = delay.
Proof.
  intros Hg H.
  destruct (FileName.getattr (filename self) filetype) as [fname|] eqn:G;
    [clear Hg | congruence].
  unfold save, save_enqueue in H. simpl in H. rewrite G in H.
  destruct (queue_mem fname (_save_queue self)) eqn:M; simpl in H.
  - destruct (save_trigger_spec delay self)
      as (s2 & ev2 & H2 & _ & _ & Hd & _).
    rewrite H2 in H. injection H as <- <-. apply Hd.
    intros E. rewrite E in M. discriminate.
  - destruct (Preset.getattr (user self) filetype) as [dd|]; [|discriminate].
    match type of H with
    | match save_trigger ?d ?s1 with _ => _ end = _ =>
        destruct (save_trigger_spec d s1) as (s2 & ev2 & H2 & _ & _ & Hd & _);
        rewrite H2 in H
    end.
    injection H as <- <-. apply Hd. simpl.
    rewrite queue_set_fresh by exact M.
    destruct (_save_queue self); discriminate.
Qed.

(** A request that arrives between two statements of a thread waiting in
    the delay loop restarts the wait: the thread leaves the loop for the
    backup (line 384) only with the counter at or below zero, after the
    ticks the request asked for: exactly [delay] sleeps of 10 ms when the
    request found it at the loop test, otherwise [delay] or [delay + 1],
    the tick in flight included.  The value the counter had before the
    request plays no part. *)
Lemma restart_between_statements :
  forall delay filetype self self' ev th verify timer,
    (0 <= delay)%Z ->
    FileName.getattr (filename self) filetype <> None ->
    save delay filetype false self = Returned (self', ev) ->
    in_delay_loop (pc th) = true ->
    between_statements (pc th) = true ->
    _save_delay self' = delay
    /\ exists n k s'' th',
        thread_run n verify timer self' th
        = (s'', th', repeat (EvSleep 10) k)
        /\ pc th' = L384
        /\ (_save_delay s'' <= 0)%Z
        /\ (delay <= Z.of_nat k <= delay + 1)%Z
        /\ (pc th = L379 -> Z.of_nat k = delay /\ _save_delay s'' = 0%Z)
        /\ waits n verify timer self' th.
Proof.
  intros delay filetype self self' ev th verify timer Hpos Hg Hsave Hloop
         Hbetween.
  pose proof (save_refreshes_delay delay filetype self self' ev Hg Hsave)
    as Hd.
  split; [exact Hd|].
  destruct (pc th) eqn:Hpc; try discriminate Hloop; try discriminate Hbetween.
  - (* at the loop test *)
    destruct (delay_ticks verify timer (Z.to_nat delay) self' th Hpc)
      as (s'' & Hrun & _ & H0 & Hw); [lia|].
    exists (4 * Z.to_nat delay + 1)%nat, (Z.to_nat delay), s'', (goto L384 th).
    split; [exact Hrun|]. split; [reflexivity|].
    repeat split; try lia; assumption.
  - (* about to decrement *)
    assert (H3 : thread_run 3 verify timer self' th
                 = (set_save_delay self' (delay - 1), goto L379 th,
                    [EvSleep 10])).
    { simpl. unfold worker_step. rewrite Hpc. simpl. now rewrite Hd. }
    assert (Hw3 : waits 3 verify timer self' th).
    { intros m Hm. destruct m as [|[|[|m]]]; [| | | lia]; simpl.
      - now rewrite Hpc.
      - unfold worker_step. now rewrite Hpc.
      - unfold worker_step. now rewrite Hpc. }
    destruct (Z.eq_dec delay 0) as [->|Hne].
    + exists 4%nat, 1%nat, (set_save_delay self' (0 - 1)), (goto L384 th).
      split.
      { change 4%nat with (3 + 1)%nat. rewrite thread_run_add, H3.
        reflexivity. }
      split; [reflexivity|]. split; [simpl; lia|]. split; [lia|].
      split; [discriminate|].
      change 4%nat with (3 + 1)%nat.
      eapply waits_add; [exact Hw3 | exact H3 |].
      intros m Hm. assert (m = 0%nat) as -> by lia. reflexivity.
    + destruct (delay_ticks verify timer (Z.to_nat (delay - 1))
                  (set_save_delay self' (delay - 1)) (goto L379 th))
        as (s'' & Hrun & _ & H0 & Hw); [reflexivity | simpl; lia |].
      exists (3 + (4 * Z.to_nat (delay - 1) + 1))%nat,
        (1 + Z.to_nat (delay - 1))%nat, s'', (goto L384 th).
      split; [rewrite thread_run_add, H3, Hrun; reflexivity|].
      split; [reflexivity|]. split; [lia|]. split; [lia|].
      split; [discriminate|].
      eapply waits_add; [exact Hw3 | exact H3 | exact Hw].
  - (* asleep *)
    assert (H1 : thread_run 1 verify timer self' th
                 = (self', goto L379 th, [EvSleep 10])).
    { simpl. unfold worker_step. now rewrite Hpc. }
    assert (Hw1 : waits 1 verify timer self' th).
    { intros m Hm. assert (m = 0%nat) as -> by lia. simpl. now rewrite Hpc. }
    destruct (delay_ticks verify timer (Z.to_nat delay) self' (goto L379 th))
      as (s'' & Hrun & _ & H0 & Hw); [reflexivity | lia |].
    exists (1 + (4 * Z.to_nat delay + 1))%nat, (1 + Z.to_nat delay)%nat,
      s'', (goto L384 th).
    split; [rewrite thread_run_add, H1, Hrun; reflexivity|].
    split; [reflexivity|]. split; [lia|]. split; [lia|].
    split; [discriminate|].
    eapply waits_add; [exact Hw1 | exact H1 | exact Hw].
Qed.

(** A thread waits with 66 ticks on the counter when a request with delay
    2 arrives at the loop test. *)
Example restart_between_statements_sample :
  exists self',
    save 2 "config" false ex_busy = Returned (self', [])
    /\ _save_delay self' = 2%Z
    /\ exists n k s'' th',
        thread_run n yes 0 self'
          (goto L379 (thread_start ("config.json", ("global/", Some 1%nat))))
        = (s'', th', repeat (EvSleep 10) k)
        /\ pc th' = L384
        /\ Z.of_nat k = 2%Z.
Proof.
  eexists. split; [reflexivity|].
  destruct (restart_between_statements 2 "config" ex_busy _ []
              (goto L379 (thread_start ("config.json", ("global/", Some 1%nat))))
              yes 0 ltac:(lia) ltac:(discriminate) eq_refl eq_refl eq_refl)
    as (Hd & n & k & s'' & th' & Hrun & Hpc & _ & _ & Hk & _).
  split; [exact Hd|].
  exists n, k, s'', th'. split; [exact Hrun|]. split; [exact Hpc|].
  exact (proj1 (Hk eq_refl)).
Qed.

(** C8 fails on this schedule.  A request for [config] with delay 2 starts
    the thread; the thread tests the counter and, in line 380, reads it
    and subtracts one.  Before it writes the result back, a second request
    for the pending [config] arrives with delay 66: it is accepted and the
    counter is 66.  The thread then writes its stale 1 over it.  The wait
    is not restarted: the backup is made after two sleeps of 10 ms in all,
    one of them after the second request, where the claim promises 66. *)
Theorem C8_restart_lost :
  exists st1 st2 st2' st3 th,
    reachable (sys_init ex_cfg) st1
    /\ nth_error (threads st1) 0 = Some th
    /\ pc th = L380_store 1
    /\ _save_delay (cfg st1) = 2
    /\ sys_do (Request 66 "config") st1 = Some st2
    /\ _save_delay (cfg st2) = 66
    /\ _save_queue (cfg st2) = _save_queue (cfg st1)
    /\ sys_do (Run 0 yes 0) st2 = Some st2'
    /\ _save_delay (cfg st2') = 1
    /\ sys_run (repeat (Run 0 yes 0) 7) st2' = Some st3
    /\ trace st3
       = [EvThreadStart "config.json" "global/" (Some 1%nat);
          EvSleep 10; EvSleep 10;
          EvCreateBackup "config.json" "global/"].
Proof.
  do 5 eexists.
  split; [exists lost_restart_schedule; vm_compute; reflexivity|].
  do 9 (split; [vm_compute; reflexivity|]).
  vm_compute. reflexivity.
Qed.

(** ** The preset list *)

Lemma insert_desc_perm x l : Permutation (x :: l) (insert_desc x l).
Proof.
  induction l as [|y l IH]; simpl; [reflexivity|].
  destruct (entry_ltb x y); [|reflexivity].
  rewrite perm_swap. now constructor.
Qed.

Lemma sorted_reverse_perm l : Permutation l (sorted_reverse l).
Proof.
  induction l as [|x l IH]; simpl; [constructor|].
  rewrite <- insert_desc_perm. now constructor.
Qed.

Lemma entry_ltb_newer x y : entry_ltb x y = true -> newer_first y x.
Proof.
  unfold entry_ltb, newer_first. intros H.
  apply orb_true_iff in H as [H|H].
  - apply Z.ltb_lt in H. lia.
  - apply andb_true_iff in H as [H _]. apply Z.eqb_eq in H. lia.
Qed.

Lemma entry_ltb_older x y : entry_ltb x y = false -> newer_first x y.
Proof.
  unfold entry_ltb, newer_first. intros H.
  apply orb_false_iff in H as [H _]. apply Z.ltb_ge in H. exact H.
Qed.

Lemma insert_desc_sorted x l :
  StronglySorted newer_first l -> StronglySorted newer_first (insert_desc x l).
Proof.
  induction l as [|y l IH]; simpl; intros Hs.
  - repeat constructor.
  - inversion Hs as [|? ? Hs' Hall]; subst.
    destruct (entry_ltb x y) eqn:E.
    + constructor; [now apply IH|].
      apply Forall_forall. intros z Hz.
      apply (Permutation_in _ (Permutation_sym (insert_desc_perm x l))) in Hz.
      destruct Hz as [<-|Hz].
      * now apply entry_ltb_newer.
      * rewrite Forall_forall in Hall. now apply Hall.
    + constructor; [exact Hs|].
      apply entry_ltb_older in E. constructor; [exact E|].
      rewrite Forall_forall in *. intros z Hz.
      specialize (Hall z Hz). unfold newer_first in *. lia.
Qed.

Lemma sorted_reverse_sorted l : StronglySorted newer_first (sorted_reverse l).
Proof.
  induction l as [|x l IH]; simpl; [constructor|].
  now apply insert_desc_sorted.
Qed.

Lemma filter_perm {A} (f : A -> bool) l l' :
  Permutation l l' -> Permutation (filter f l) (filter f l').
Proof.
  induction 1 as [|x l l' _ IH|x y l|l l' l'' _ IH1 _ IH2]; simpl.
  - constructor.
  - destruct (f x); [now constructor | exact IH].
  - destruct (f x), (f y); try reflexivity. apply perm_swap.
  - now transitivity (filter f l').
Qed.

Lemma filter_sorted (f : Entry -> bool) l :
  StronglySorted newer_first l -> StronglySorted newer_first (filter f l).
Proof.
  induction 1 as [|x l Hs IH Hall]; simpl; [constructor|].
  destruct (f x); [|exact IH].
  constructor; [exact IH|].
  rewrite Forall_forall in *. intros z Hz.
  apply filter_In in Hz as [Hz _]. now apply Hall.
Qed.

(** ** The two views of the saving thread agree *)

(** The delay loop, statement by statement, is [delay_wait]. *)
Lemma thread_run_delay verify timer s th :
  pc th = L379 ->
  exists n,
    thread_run n verify timer s th
    = (fst (delay_wait s), goto L384 th, snd (delay_wait s)).
Proof.
  intros Hpc. rewrite delay_wait_spec. simpl.
  destruct (Z.ltb_spec 0 (_save_delay s)) as [Hpos|Hle].
  - destruct (delay_ticks verify timer (Z.to_nat (_save_delay s)) s th Hpc)
      as (s' & Hrun & Hs' & _); [lia|].
    exists (4 * Z.to_nat (_save_delay s) + 1)%nat. rewrite Hrun, Hs'.
    destruct (Z.to_nat (_save_delay s)) eqn:E; [lia | reflexivity].
  - exists 1%nat. simpl. unfold worker_step. rewrite Hpc.
    destruct (Z.ltb_spec 0 (_save_delay s)); [lia|].
    replace (Z.to_nat (_save_delay s)) with 0%nat by lia. reflexivity.
Qed.

(** The attempts, statement by statement, are [attempt_loop]. *)
Lemma thread_run_attempts verify timer s fn fp d M st te nf n :
  forall c a,
    (Z.to_nat a <= n)%nat ->
    exists k c',
      thread_run k verify timer s (mkThread L386 fn fp d a M st te c nf)
      = (s,
         mkThread L393 fn fp d (fst (attempt_loop n verify c a d fn fp))
                  M st te c' nf,
         snd (attempt_loop n verify c a d fn fp)).
Proof.
  induction n as [|n IH]; intros c a Hn.
  - exists 1%nat, c. simpl. unfold worker_step. simpl.
    destruct (Z.ltb_spec 0 a); [lia | reflexivity].
  - simpl. destruct (0 <? a)%Z eqn:A.
    + destruct (verify c) eqn:V.
      * exists 3%nat, (S c). simpl. unfold worker_step. simpl.
        rewrite A. simpl. rewrite V. reflexivity.
      * destruct (IH (S c) (a - 1)%Z) as (k & c' & Hrun);
          [apply Z.ltb_lt in A; lia|].
        exists (6 + k)%nat, c'. rewrite thread_run_add.
        assert (H6 : thread_run 6 verify timer s
                       (mkThread L386 fn fp d a M st te c nf)
                     = (s, mkThread L386 fn fp d (a - 1) M st te (S c) nf,
                        failed_attempt d fn fp (a - 1))).
        { simpl. unfold worker_step. simpl.
          rewrite A. simpl. rewrite V. reflexivity. }
        rewrite H6, Hrun.
        destruct (attempt_loop n verify (S c) (a - 1) d fn fp) as [a' ev'].
        reflexivity.
    + exists 1%nat, c. simpl. unfold worker_step. simpl.
      rewrite A. reflexivity.
Qed.

(** From the clock reading to the log line. *)
Lemma thread_run_result verify timer s fn fp d a M st te c nf :
  exists n,
    thread_run n verify timer s (mkThread L393 fn fp d a M st te c nf)
    = (s,
       mkThread L401 fn fp d a M
                (if (0 <? a)%Z then "saved" else "failed saving") timer c nf,
       if (0 <? a)%Z then [] else [EvRestoreBackup fn fp]).
Proof.
  destruct (0 <? a)%Z eqn:A.
  - exists 3%nat. simpl. unfold worker_step. simpl. now rewrite A.
  - exists 4%nat. simpl. unfold worker_step. simpl. now rewrite A.
Qed.

(** From the log line to the statement that clears the flag. *)
Lemma thread_run_cleanup verify timer s fn fp d a M st te c nf :
  thread_run 4 verify timer s (mkThread L401 fn fp d a M st te c nf)
  = (set_is_saving (set_save_queue s (queue_pop fn (_save_queue s))) false,
     mkThread L415 fn fp d a M st te c nf,
     [EvLogInfo MSG_RESULT [AStr fn; AStr st; AInt te; AInt (M - a); AInt a];
      EvDeleteBackup fn fp]).
Proof. reflexivity. Qed.

(** The last statement and the chained call. *)
Lemma thread_run_chain verify timer s fn fp d a M st te c nf :
  is_saving s = false ->
  exists n th',
    thread_run n verify timer s (mkThread L415 fn fp d a M st te c nf)
    = (match _save_queue s with
       | [] => s
       | _ :: _ => set_is_saving (set_save_delay s 0) true
       end,
       th',
       match _save_queue s with
       | [] => []
       | (k, (kp, kd)) :: _ => [EvThreadStart k kp kd]
       end)
    /\ pc th' = Finished.
Proof.
  intros F. destruct (_save_queue s) as [|[k [kp kd]] q] eqn:Q.
  - exists 1%nat. eexists. simpl. unfold worker_step. simpl. rewrite Q.
    split; reflexivity.
  - exists 7%nat. eexists. simpl. unfold worker_step.
    repeat (simpl; rewrite ?Q, ?F, ?String.eqb_refl).
    split; reflexivity.
Qed.

(** From the clock reading to the end of the thread. *)
Lemma thread_run_finish verify timer s fn fp d a M st te c nf :
  exists n th',
    thread_run n verify timer s (mkThread L393 fn fp d a M st te c nf)
    = (fst (saving_finish fn s), th',
       (if (0 <? a)%Z then [] else [EvRestoreBackup fn fp])
       ++ [EvLogInfo MSG_RESULT
             [AStr fn;
              AStr (if (0 <? a)%Z then "saved" else "failed saving");
              AInt timer; AInt (M - a); AInt a]]
       ++ [EvDeleteBackup fn fp]
       ++ snd (saving_finish fn s))
    /\ pc th' = Finished.
Proof.
  destruct (thread_run_result verify timer s fn fp d a M st te c nf)
    as (n1 & H1).
  set (s1 := set_is_saving
               (set_save_queue s (queue_pop fn (_save_queue s))) false).
  destruct (thread_run_chain verify timer s1 fn fp d a M
              (if (0 <? a)%Z then "saved" else "failed saving") timer c nf
              eq_refl)
    as (n3 & th' & H3 & Hpc).
  exists (n1 + (4 + n3))%nat, th'. split; [|exact Hpc].
  rewrite thread_run_add, H1, thread_run_add, thread_run_cleanup.
  fold s1. rewrite H3.
  unfold saving_finish. rewrite save_next_task. unfold save_trigger.
  subst s1. simpl.
  destruct (queue_pop fn (_save_queue s)) as [|[k [kp kd]] q]; simpl.
  - reflexivity.
  - rewrite String.eqb_refl. reflexivity.
Qed.

(** Run alone from its first statement, the thread ends, and has done to
    the engine and asked of its collaborators what [__saving] says. *)
Theorem thread_run_saving verify timer fname fpath dict_user self :
  exists n th',
    thread_run n verify timer self
               (thread_start (fname, (fpath, dict_user)))
    = (fst (__saving verify timer fname fpath dict_user self), th',
       snd (__saving verify timer fname fpath dict_user self))
    /\ pc th' = Finished.
Proof.
  set (M := max_attempts_of self).
  destruct (thread_run_delay verify timer self
              (mkThread L379 fname fpath dict_user M M "" 0 0 "") eq_refl)
    as (n1 & H1).
  destruct (thread_run_attempts verify timer (fst (delay_wait self))
              fname fpath dict_user M "" 0%Z "" (Z.to_nat M) 0%nat M
              (Nat.le_refl _))
    as (n2 & c' & H2).
  destruct (thread_run_finish verify timer (fst (delay_wait self))
              fname fpath dict_user
              (fst (attempt_loop (Z.to_nat M) verify 0 M dict_user fname fpath))
              M "" 0%Z c' "")
    as (n3 & th' & H3 & Hpc).
  exists (1 + (n1 + (2 + (n2 + n3))))%nat, th'. split; [|exact Hpc].
  rewrite thread_run_add.
  assert (H0 : thread_run 1 verify timer self
                 (thread_start (fname, (fpath, dict_user)))
               = (self, mkThread L379 fname fpath dict_user M M "" 0 0 "", []))
    by reflexivity.
  rewrite H0, thread_run_add, H1, thread_run_add.
  assert (H384 : thread_run 2 verify timer (fst (delay_wait self))
                   (goto L384 (mkThread L379 fname fpath dict_user M M "" 0 0 ""))
                 = (fst (delay_wait self),
                    mkThread L386 fname fpath dict_user M M "" 0 0 "",
                    [EvCreateBackup fname fpath]))
    by reflexivity.
  rewrite H384, thread_run_add, H2, H3.
  rewrite saving_unfold. fold M. simpl.
  unfold saving_cycle, attempt_all.
  destruct (attempt_loop (Z.to_nat M) verify 0 M dict_user fname fpath)
    as [a ev]. simpl.
  destruct (0 <? a)%Z; simpl; rewrite <- ?app_assoc; reflexivity.
Qed.

(** ** Exclusion when calls of [save] are not interleaved *)

Lemma saving_threads_app a b :
  saving_threads (a ++ b) = saving_threads a ++ saving_threads b.
Proof. apply filter_app. Qed.

Lemma saving_threads_started tasks :
  saving_threads (map thread_start tasks) = map thread_start tasks.
Proof.
  induction tasks as [|[k [fp d]] tasks IH]; simpl; [reflexivity|].
  f_equal. exact IH.
Qed.

Lemma saving_threads_replace i th th' : forall ths,
  nth_error ths i = Some th ->
  (List.length (saving_threads (replace_nth i th' ths))
   + (if in_saving (pc th) then 1 else 0)
   = List.length (saving_threads ths)
     + (if in_saving (pc th') then 1 else 0))%nat.
Proof.
  induction i as [|i IH]; intros [|x ths] H; simpl in *; try discriminate.
  - injection H as ->.
    destruct (in_saving (pc th)), (in_saving (pc th')); simpl; lia.
  - specialize (IH ths H).
    destruct (in_saving (pc x)); simpl; lia.
Qed.

Lemma no_chained_replace i th' : forall ths,
  Forall (fun th => in_chained_call (pc th) = false) ths ->
  in_chained_call (pc th') = false ->
  Forall (fun th => in_chained_call (pc th) = false) (replace_nth i th' ths).
Proof.
  induction i as [|i IH]; intros [|x ths] H H'; simpl; try constructor;
    inversion H; subst; auto.
Qed.

(** What one step of a thread does to the flag and to the pool. *)
Lemma worker_step_atomic_effect verify timer s th s' th' ev :
  in_chained_call (pc th) = false ->
  worker_step_atomic verify timer s th = (s', th', ev) ->
  in_chained_call (pc th') = false
  /\ if in_saving (pc th) then
       started ev = []
       /\ ((in_saving (pc th') = true /\ is_saving s' = is_saving s)
           \/ (in_saving (pc th') = false /\ is_saving s' = false))
     else
       in_saving (pc th') = false
       /\ ((started ev = [] /\ is_saving s' = is_saving s)
           \/ (is_saving s = false /\ is_saving s' = true
               /\ List.length (started ev) = 1%nat)).
Proof.
  intros Hc H. unfold worker_step_atomic, worker_step in H.
  destruct (pc th) eqn:P; try discriminate Hc; simpl in *;
    repeat match type of H with
           | context [if ?c then _ else _] => destruct c
           | context [match _save_queue ?x with _ => _ end] =>
               destruct (_save_queue x) as [|[? ?] ?]
           end;
    try (injection H as <- <- <-; simpl; rewrite ?P; simpl; auto 6; fail).
  rewrite save_next_task in H.
  destruct (save_trigger_spec 0 s)
    as (s2 & ev2 & H2 & _ & _ & _ & He & Hbusy & Hidle).
  rewrite H2 in H. injection H as <- <- <-. simpl.
  split; [reflexivity|]. split; [reflexivity|].
  destruct (is_saving s) eqn:F.
  - destruct (Hbusy eq_refl) as [F2 ->]. left. split; [reflexivity|exact F2].
  - destruct (_save_queue s) as [|[k t] q] eqn:Q.
    + destruct (He eq_refl) as [-> ->]. left. split; [reflexivity|exact F].
    + destruct (Hidle eq_refl k t q eq_refl) as [F2 ->].
      right. repeat split. exact F2.
Qed.

(** The outcome of a request, seen from the pool. *)
Lemma request_effect delay filetype s s' ev :
  save delay filetype false s = Returned (s', ev) ->
  (started ev = [] /\ is_saving s' = is_saving s)
  \/ (is_saving s = false /\ is_saving s' = true
      /\ List.length (started ev) = 1%nat).
Proof.
  intros H. destruct (started ev) as [|t l] eqn:St.
  - left. split; [reflexivity|].
    unfold save in H.
    destruct (save_enqueue filetype false s) as [[s1 ev1]|e] eqn:E1;
      [|discriminate].
    assert (F1 : is_saving s1 = is_saving s).
    { unfold save_enqueue in E1. simpl in E1.
      destruct (FileName.getattr (filename s) filetype);
        [|injection E1 as <- <-; reflexivity].
      destruct (negb (queue_mem s0 (_save_queue s)));
        [|injection E1 as <- <-; reflexivity].
      destruct (Preset.getattr (user s) filetype); [|discriminate].
      injection E1 as <- <-; reflexivity. }
    destruct (save_trigger_spec delay s1)
      as (s2 & ev2 & H2 & _ & _ & _ & He & Hbusy & Hidle).
    rewrite H2 in H. injection H as <- <-.
    rewrite started_app in St. apply app_eq_nil in St as [_ St2].
    destruct (is_saving s1) eqn:F.
    + destruct (Hbusy eq_refl) as [F2 _]. congruence.
    + destruct (_save_queue s1) as [|[k t] q] eqn:Q.
      * destruct (He eq_refl) as [-> _]. congruence.
      * destruct (Hidle eq_refl k t q eq_refl) as [_ ->]. discriminate St2.
  - right.
    destruct (save_starts_only_if_idle delay filetype false s s' ev H)
      as [F F']; [rewrite St; discriminate|].
    split; [exact F|]. split; [exact F'|].
    assert (Hhead : forall x, In x (started ev) ->
                              exists q, _save_queue s' = x :: q).
    { intros [k task] Hx.
      exact (save_starts_head delay filetype false s s' ev k task H Hx). }
    unfold save in H.
    destruct (save_enqueue filetype false s) as [[s1 ev1]|e] eqn:E1;
      [|discriminate].
    assert (S1 : started ev1 = []).
    { unfold save_enqueue in E1. simpl in E1.
      destruct (FileName.getattr (filename s) filetype);
        [|injection E1 as <- <-; reflexivity].
      destruct (negb (queue_mem s0 (_save_queue s)));
        [|injection E1 as <- <-; reflexivity].
      destruct (Preset.getattr (user s) filetype); [|discriminate].
      injection E1 as <- <-; reflexivity. }
    destruct (save_trigger_spec delay s1)
      as (s2 & ev2 & H2 & _ & _ & _ & He & Hbusy & Hidle).
    rewrite H2 in H. injection H as <- <-.
    rewrite started_app, S1 in St. simpl in St.
    destruct (is_saving s1) eqn:F1.
    + destruct (Hbusy eq_refl) as [_ ->]. discriminate St.
    + destruct (_save_queue s1) as [|[k1 t1] q1] eqn:Q.
      * destruct (He eq_refl) as [_ ->]. discriminate St.
      * destruct (Hidle eq_refl k1 t1 q1 eq_refl) as [_ ->].
        simpl in St. rewrite <- St. reflexivity.
Qed.

Lemma exclusive_step a sys sys' :
  Forall (fun th => in_chained_call (pc th) = false) (threads sys) ->
  exclusive sys ->
  sys_do_atomic a sys = Some sys' ->
  Forall (fun th => in_chained_call (pc th) = false) (threads sys')
  /\ exclusive sys'.
Proof.
  intros Hnc [Hone Hnone] H. destruct a as [delay filetype | i verify timer].
  - simpl in H.
    destruct (save delay filetype false (cfg sys)) as [[s' ev]|e] eqn:E;
      injection H as <-; [|split; [exact Hnc | split; assumption]].
    simpl. split.
    { apply Forall_app. split; [exact Hnc|].
      apply Forall_forall. intros th Hth. apply in_map_iff in Hth.
      destruct Hth as ([k [fp d]] & <- & _). reflexivity. }
    unfold exclusive. simpl.
    rewrite saving_threads_app, saving_threads_started, length_app,
      length_map.
    destruct (request_effect delay filetype (cfg sys) s' ev E)
      as [[St F]|(F & F' & St)].
    + rewrite St. simpl. rewrite app_nil_r, Nat.add_0_r.
      split; [exact Hone | intros F'; apply Hnone; congruence].
    + rewrite St, (Hnone F). simpl. split; [lia | congruence].
  - simpl in H.
    destruct (nth_error (threads sys) i) as [th|] eqn:N; [|discriminate].
    destruct (worker_step_atomic verify timer (cfg sys) th)
      as [[s' th'] ev] eqn:W.
    injection H as <-.
    assert (Hth : in_chained_call (pc th) = false).
    { rewrite Forall_forall in Hnc. apply Hnc.
      eapply nth_error_In; exact N. }
    destruct (worker_step_atomic_effect verify timer (cfg sys) th s' th' ev
                Hth W) as [Hth' Heff].
    pose proof (saving_threads_replace i th th' (threads sys) N) as Hlen.
    simpl. split.
    { apply Forall_app. split; [now apply no_chained_replace|].
      apply Forall_forall. intros x Hx. apply in_map_iff in Hx.
      destruct Hx as ([k [fp d]] & <- & _). reflexivity. }
    unfold exclusive. simpl.
    rewrite saving_threads_app, saving_threads_started, length_app,
      length_map.
    assert (Hnil : forall l : list Thread, List.length l = 0%nat -> l = [])
      by (intros [|? ?]; [reflexivity | discriminate]).
    destruct (in_saving (pc th)) eqn:A.
    + destruct Heff as [St [[A' F]|[A' F]]]; rewrite St, A' in *; simpl.
      * rewrite app_nil_r, Nat.add_0_r.
        split; [lia|]. intros F'. rewrite F in F'.
        rewrite (Hnone F') in Hlen. simpl in Hlen. apply Hnil. lia.
      * rewrite app_nil_r, Nat.add_0_r. split; [lia|].
        intros _. apply Hnil. lia.
    + destruct Heff as [A' [[St F]|(F & F' & St)]]; rewrite A' in *.
      * rewrite St. simpl. rewrite app_nil_r, Nat.add_0_r.
        split; [lia|]. intros F'. rewrite F in F'.
        apply Hnil. rewrite (Hnone F') in Hlen. simpl in Hlen. lia.
      * rewrite St. rewrite (Hnone F) in Hlen. simpl in Hlen.
        assert (E0 : saving_threads (replace_nth i th' (threads sys)) = [])
          by (apply Hnil; lia).
        rewrite E0. simpl. split; [lia | congruence].
Qed.

(** When no call of [save] is interleaved with another, at most one thread
    is saving at any time, and none while [is_saving] is false. *)
Theorem exclusive_when_calls_are_atomic self acts sys :
  is_saving self = false ->
  sys_run_atomic acts (sys_init self) = Some sys ->
  exclusive sys.
Proof.
  intros F H.
  assert (G : forall acts sys0 sys1,
             Forall (fun th => in_chained_call (pc th) = false) (threads sys0) ->
             exclusive sys0 ->
             sys_run_atomic acts sys0 = Some sys1 ->
             exclusive sys1).
  { clear. induction acts as [|a acts IH]; intros sys0 sys1 Hnc Hex Hrun.
    - injection Hrun as <-. exact Hex.
    - simpl in Hrun.
      destruct (sys_do_atomic a sys0) as [sys'|] eqn:E; [|discriminate].
      destruct (exclusive_step a sys0 sys' Hnc Hex E) as [Hnc' Hex'].
      exact (IH sys' sys1 Hnc' Hex' Hrun). }
  apply (G acts (sys_init self) sys); [constructor | | exact H].
  split; simpl; [lia | reflexivity].
Qed.

(** The chained call taken as one step is its six statements run without
    interruption. *)
Lemma chained_call_statements verify timer s th :
  pc th = L416 ->
  exists th',
    thread_run 6 verify timer s th
    = (fst (fst (worker_step_atomic verify timer s th)), th',
       snd (worker_step_atomic verify timer s th))
    /\ pc th' = Finished.
Proof.
  intros P. unfold worker_step_atomic. rewrite P, save_next_task.
  unfold save_trigger.
  destruct (_save_queue s) as [|[k [kp kd]] q] eqn:Q;
    [| destruct (is_saving s) eqn:F];
    eexists; simpl; unfold worker_step; rewrite P; simpl;
    rewrite ?Q; simpl; rewrite ?F; simpl; rewrite ?Q; simpl;
    rewrite ?String.eqb_refl; simpl;
    (split; [reflexivity | reflexivity]).
Qed.

(** * Further properties of the engine *)

(** ** Requests *)

(** What the trigger leaves: it only ever starts threads, and with a task
    waiting the flag is up. *)
Lemma save_trigger_after delay s s' ev :
  save_trigger delay s = Returned (s', ev) ->
  (forall e, In e ev -> exists k fp d, e = EvThreadStart k fp d)
  /\ (_save_queue s <> [] -> is_saving s' = true).
Proof.
  intros H.
  destruct (save_trigger_spec delay s)
    as (s2 & ev2 & H2 & _ & _ & _ & He & Hb & Hi).
  rewrite H2 in H. injection H as <- <-.
  destruct (is_saving s) eqn:F.
  - destruct (Hb eq_refl) as [F2 ->]. split; [intros e []|auto].
  - destruct (_save_queue s) as [|[k t] q] eqn:Q.
    + destruct (He eq_refl) as [-> ->]. split; [intros e [] | congruence].
    + destruct (Hi eq_refl k t q eq_refl) as [F2 ->].
      split; [|auto]. intros e [<-|[]]. eauto.
Qed.

(** X1.  For each of the seven categories [save] returns without raising
    and without logging an error.  The file name of the category is queued
    afterwards, the delay counter holds [delay] and the flag is up.  A file
    name not yet queued is appended behind the tasks already waiting, with
    [path.config] for the category [config] and [path.settings] for every
    other one; a file name already queued leaves the queue as it was. *)
Theorem X1_known_categories_accepted :
  forall delay filetype self,
    In filetype known_categories ->
    exists fname dd self' ev,
      FileName.getattr (filename self) filetype = Some fname
      /\ Preset.getattr (user self) filetype = Some dd
      /\ save delay filetype false self = Returned (self', ev)
      /\ (forall e, In e ev -> exists k fp d, e = EvThreadStart k fp d)
      /\ _save_delay self' = delay
      /\ is_saving self' = true
      /\ queue_mem fname (_save_queue self') = true
      /\ (queue_mem fname (_save_queue self) = false ->
          _save_queue self'
          = _save_queue self
            ++ [(fname,
                 (if filetype =? "config" then FilePath.config (path self)
                  else FilePath.settings (path self), dd))])
      /\ (queue_mem fname (_save_queue self) = true ->
          _save_queue self' = _save_queue self).
Proof.
  intros delay filetype self Hin.
  assert (Hattr : exists fname dd,
             FileName.getattr (filename self) filetype = Some fname
             /\ Preset.getattr (user self) filetype = Some dd).
  { simpl in Hin.
    repeat (destruct Hin as [<-|Hin]; [do 2 eexists; split; reflexivity|]).
    destruct Hin. }
  destruct Hattr as (fname & dd & Hf & Hp).
  exists fname, dd.
  set (fpath := if filetype =? "config" then FilePath.config (path self)
                else FilePath.settings (path self)).
  set (s1 := if queue_mem fname (_save_queue self) then self
             else set_save_queue self
                    (_save_queue self ++ [(fname, (fpath, dd))])).
  assert (Henq : save_enqueue filetype false self = Returned (s1, [])).
  { unfold save_enqueue. simpl. rewrite Hf, Hp. subst s1.
    destruct (queue_mem fname (_save_queue self)) eqn:M; simpl;
      [reflexivity|].
    now rewrite queue_set_fresh by exact M. }
  assert (Hne : _save_queue s1 <> []).
  { subst s1. destruct (queue_mem fname (_save_queue self)) eqn:M; simpl.
    - intros E. rewrite E in M. discriminate.
    - destruct (_save_queue self); discriminate. }
  destruct (save_trigger_spec delay s1)
    as (s2 & ev2 & H2 & Hq2 & _ & Hd2 & _).
  destruct (save_trigger_after delay s1 s2 ev2 H2) as [Hev Hflag].
  exists s2, ev2. split; [exact Hf|]. split; [exact Hp|].
  split; [unfold save; now rewrite Henq, H2|].
  split; [exact Hev|]. split; [now apply Hd2|]. split; [now apply Hflag|].
  rewrite Hq2. subst s1.
  destruct (queue_mem fname (_save_queue self)) eqn:M; simpl.
  - split; [exact M|]. split; [discriminate | reflexivity].
  - split.
    + apply queue_get_mem. rewrite queue_get_app_fresh by exact M.
      discriminate.
    + split; [reflexivity | discriminate].
Qed.

Lemma X1_known_categories_accepted_witness :
  exists self' ev,
    save 66 "brakes" false ex_busy = Returned (self', ev)
    /\ _save_queue self'
       = [("config.json", ("global/", Some 1%nat));
          ("brakes.json", ("settings/", Some 6%nat))].
Proof.
  destruct (X1_known_categories_accepted 66 "brakes" ex_busy)
    as (fname & dd & self' & ev & Hf & Hp & Hs & _ & _ & _ & _ & Hnew & _).
  { simpl. tauto. }
  exists self', ev. split; [exact Hs|].
  injection Hf as <-. injection Hp as <-.
  exact (Hnew eq_refl).
Defined.

(** A call of [save] leaves the queue alone or appends one new file name. *)
Lemma save_queue_grows delay filetype next_task s s' ev :
  save delay filetype next_task s = Returned (s', ev) ->
  _save_queue s' = _save_queue s
  \/ exists k v, queue_mem k (_save_queue s) = false
                 /\ _save_queue s' = _save_queue s ++ [(k, v)].
Proof.
  unfold save. intros H.
  destruct (save_enqueue filetype next_task s) as [[s1 ev1]|e] eqn:E1;
    [|discriminate].
  destruct (save_trigger_spec delay s1) as (s2 & ev2 & H2 & Hq & _).
  rewrite H2 in H. injection H as <- <-. rewrite Hq.
  unfold save_enqueue in E1.
  destruct (negb next_task); [|injection E1 as <- <-; now left].
  destruct (FileName.getattr (filename s) filetype) as [fname|];
    [|injection E1 as <- <-; now left].
  destruct (queue_mem fname (_save_queue s)) eqn:M; simpl in E1;
    [injection E1 as <- <-; now left|].
  destruct (Preset.getattr (user s) filetype) as [dd|]; [|discriminate].
  injection E1 as <- <-. simpl. right.
  rewrite queue_set_fresh by exact M. eauto.
Qed.

Lemma queue_get_app_old k q new t :
  queue_get k q = Some t -> queue_get k (q ++ new) = Some t.
Proof.
  induction q as [|[k' v] q IH]; simpl; [discriminate|].
  destruct (k' =? k); [trivial | exact IH].
Qed.

(** X2.  A call of [save], whatever its arguments, never drops, reorders
    or rewrites a waiting task: the queue afterwards is the queue before,
    followed by at most one new task; every file name queued before is
    still queued with the task it had; and file names that were distinct
    stay distinct. *)
Theorem X2_save_keeps_waiting_tasks :
  forall delay filetype next_task s s' ev,
    save delay filetype next_task s = Returned (s', ev) ->
    (exists new, _save_queue s' = _save_queue s ++ new
                 /\ (List.length new <= 1)%nat)
    /\ (forall k t, queue_get k (_save_queue s) = Some t ->
                    queue_get k (_save_queue s') = Some t)
    /\ (NoDup (queue_keys (_save_queue s)) ->
        NoDup (queue_keys (_save_queue s'))).
Proof.
  intros delay filetype next_task s s' ev H.
  destruct (save_queue_grows delay filetype next_task s s' ev H)
    as [E|(k & v & M & E)]; rewrite E.
  - split; [exists []; rewrite app_nil_r; split; [reflexivity | simpl; lia]|].
    split; auto.
  - split; [exists [(k, v)]; split; [reflexivity | simpl; lia]|].
    split.
    + intros k' t Hk. now apply queue_get_app_old.
    + intros Hnd. now apply queue_app_NoDup.
Qed.

Lemma X2_save_keeps_waiting_tasks_witness :
  exists self' ev,
    save 0 "heatmap" false ex_busy = Returned (self', ev)
    /\ queue_get "config.json" (_save_queue self')
       = Some ("global/", Some 1%nat).
Proof.
  do 2 eexists. split; [reflexivity|].
  exact (proj1 (proj2 (X2_save_keeps_waiting_tasks 0 "heatmap" false ex_busy
                         _ _ eq_refl)) "config.json" _ eq_refl).
Defined.

(** A statement of a saving thread leaves the queue alone or pops the
    thread's own file name. *)

(** X4.  One call of [save] starts at most one thread, and only when it
    found [is_saving] false; it has set the flag by the time it returns, and
    the thread is for the first file name of the queue, with the task
    stored there. *)
Theorem X4_save_start_discipline :
  forall delay filetype next_task s s' ev,
    save delay filetype next_task s = Returned (s', ev) ->
    (List.length (started ev) <= 1)%nat
    /\ (forall fname task, In (fname, task) (started ev) ->
          is_saving s = false
          /\ is_saving s' = true
          /\ exists q, _save_queue s' = (fname, task) :: q).
Proof.
  intros delay filetype next_task s s' ev H. split.
  - unfold save in H.
    destruct (save_enqueue filetype next_task s) as [[s1 ev1]|e] eqn:E1;
      [|discriminate].
    assert (S1 : started ev1 = []).
    { unfold save_enqueue in E1.
      destruct (negb next_task); [|injection E1 as <- <-; reflexivity].
      destruct (FileName.getattr (filename s) filetype);
        [|injection E1 as <- <-; reflexivity].
      destruct (negb (queue_mem s0 (_save_queue s)));
        [|injection E1 as <- <-; reflexivity].
      destruct (Preset.getattr (user s) filetype); [|discriminate].
      injection E1 as <- <-; reflexivity. }
    destruct (save_trigger_spec delay s1)
      as (s2 & ev2 & H2 & _ & _ & _ & He & Hb & Hi).
    rewrite H2 in H. injection H as <- <-.
    rewrite started_app, S1. simpl.
    destruct (is_saving s1) eqn:F.
    + destruct (Hb eq_refl) as [_ ->]. simpl. lia.
    + destruct (_save_queue s1) as [|[k t] q] eqn:Q.
      * destruct (He eq_refl) as [_ ->]. simpl. lia.
      * destruct (Hi eq_refl k t q eq_refl) as [_ ->]. simpl. lia.
  - intros fname task Hin.
    destruct (save_starts_only_if_idle delay filetype next_task s s' ev H)
      as [F F']; [intros E; rewrite E in Hin; destruct Hin|].
    split; [exact F|]. split; [exact F'|].
    exact (save_starts_head delay filetype next_task s s' ev fname task H Hin).
Qed.

Lemma X4_save_start_discipline_witness :
  exists s' ev,
    save 0 "classes" false ex_cfg = Returned (s', ev)
    /\ (List.length (started ev) <= 1)%nat.
Proof.
  do 2 eexists. split; [reflexivity|].
  exact (proj1 (X4_save_start_discipline 0 "classes" false ex_cfg _ _ eq_refl)).
Defined.

(** ** Attempts *)

Lemma failed_attempts_snoc k : forall a d fn fp,
  failed_attempts (S k) a d fn fp
  = failed_attempt d fn fp (a - 1) ++ failed_attempts k (a - 1) d fn fp.
Proof. reflexivity. Qed.

(** The attempts when the verification number [call + k] is the first to
    succeed. *)
Lemma attempt_loop_success_at verify d fn fp k :
  forall n call a,
    (forall j, (j < k)%nat -> verify (call + j)%nat = false) ->
    verify (call + k)%nat = true ->
    (Z.of_nat k < a)%Z ->
    (Z.to_nat a <= n)%nat ->
    attempt_loop n verify call a d fn fp
    = ((a - Z.of_nat k)%Z,
       failed_attempts k a d fn fp
       ++ [EvSaveJson d fn fp; EvVerifyJson d fn fp true]).
Proof.
  induction k as [|k IH]; intros n call a Hf Ht Hk Hn.
  - destruct n as [|n]; [lia|]. simpl.
    destruct (Z.ltb_spec 0 a); [|lia].
    rewrite Nat.add_0_r in Ht. rewrite Ht. simpl.
    now rewrite Z.sub_0_r.
  - destruct n as [|n]; [lia|]. simpl.
    destruct (Z.ltb_spec 0 a); [|lia].
    assert (V0 : verify call = false)
      by (rewrite <- (Nat.add_0_r call); apply Hf; lia).
    rewrite V0.
    rewrite (IH n (S call) (a - 1)%Z).
    + replace (a - 1 - Z.of_nat k)%Z with (a - Z.of_nat (S k))%Z by lia.
      reflexivity.
    + intros j Hj. replace (S call + j)%nat with (call + S j)%nat by lia.
      apply Hf. lia.
    + replace (S call + k)%nat with (call + S k)%nat by lia. exact Ht.
    + lia.
    + lia.
Qed.

(** X5.  When the verifications number 0 to [k - 1] fail and number [k]
    succeeds, with [k] below [max(maximum_saving_attempts, 3)], the thread
    makes the backup, goes through [k] failed rounds (write, verify, error
    log with the attempts left, 50 ms sleep), writes and verifies once
    more, logs "saved" with [k] as the first count and [max - k] as the
    second, and deletes the backup.  It never calls
    [restore_backup_file]. *)
Theorem X5_saved_after_retries :
  forall k verify timer fname fpath dict_user self,
    (forall j, (j < k)%nat -> verify j = false) ->
    verify k = true ->
    (Z.of_nat k < max_attempts_of self)%Z ->
    let M := max_attempts_of self in
    let ev := snd (__saving verify timer fname fpath dict_user self) in
    ev = repeat (EvSleep 10) (Z.to_nat (_save_delay self))
         ++ ([EvCreateBackup fname fpath]
             ++ failed_attempts k M dict_user fname fpath
             ++ [EvSaveJson dict_user fname fpath;
                 EvVerifyJson dict_user fname fpath true;
                 EvLogInfo MSG_RESULT
                   [AStr fname; AStr "saved"; AInt timer;
                    AInt (Z.of_nat k); AInt (M - Z.of_nat k)];
                 EvDeleteBackup fname fpath])
         ++ snd (saving_finish fname (fst (delay_wait self)))
    /\ count_writes ev = S k
    /\ ~ In (EvRestoreBackup fname fpath) ev.
Proof.
  intros k verify timer fname fpath dict_user self Hf Ht Hk M ev.
  assert (Hev : ev = repeat (EvSleep 10) (Z.to_nat (_save_delay self))
         ++ ([EvCreateBackup fname fpath]
             ++ failed_attempts k M dict_user fname fpath
             ++ [EvSaveJson dict_user fname fpath;
                 EvVerifyJson dict_user fname fpath true;
                 EvLogInfo MSG_RESULT
                   [AStr fname; AStr "saved"; AInt timer;
                    AInt (Z.of_nat k); AInt (M - Z.of_nat k)];
                 EvDeleteBackup fname fpath])
         ++ snd (saving_finish fname (fst (delay_wait self)))).
  { subst ev. rewrite saving_unfold. cbn [snd].
    rewrite delay_wait_events. f_equal. f_equal.
    unfold saving_cycle, attempt_all. fold M.
    rewrite (attempt_loop_success_at verify dict_user fname fpath k
               (Z.to_nat M) 0 M); try assumption; try lia.
    destruct (Z.ltb_spec 0 (M - Z.of_nat k)); [|lia].
    replace (M - (M - Z.of_nat k))%Z with (Z.of_nat k) by lia.
    cbn [app]. rewrite <- !app_assoc. reflexivity. }
  split; [exact Hev|]. split.
  - rewrite Hev, !count_writes_app, count_writes_sleeps, count_writes_failed.
    destruct (saving_finish_events fname (fst (delay_wait self)))
      as [->|(k' & fp & dd & ->)]; unfold count_writes; simpl; lia.
  - rewrite Hev. intros Hin.
    apply in_app_or in Hin as [Hin|Hin];
      [apply repeat_spec in Hin; discriminate|].
    apply in_app_or in Hin as [Hin|Hin].
    + apply in_app_or in Hin as [[Hin|[]]|Hin]; [discriminate|].
      apply in_app_or in Hin as [Hin|Hin].
      * clear -Hin. revert Hin. generalize M.
        induction k as [|k IH]; intros a Hin; [destruct Hin|].
        rewrite failed_attempts_snoc in Hin.
        apply in_app_or in Hin as [Hin|Hin]; [|exact (IH _ Hin)].
        simpl in Hin.
        repeat (destruct Hin as [Hin|Hin]; [discriminate|]). exact Hin.
      * simpl in Hin.
        repeat (destruct Hin as [Hin|Hin]; [discriminate|]). exact Hin.
    + destruct (saving_finish_events fname (fst (delay_wait self)))
        as [E|(k' & fp & dd & E)]; rewrite E in Hin; simpl in Hin.
      * exact Hin.
      * destruct Hin as [Hin|[]]. discriminate.
Qed.

Lemma X5_saved_after_retries_witness :
  count_writes
    (snd (__saving (fun j => Nat.eqb j 2) 40 "config.json" "global/"
                   (Some 1%nat) ex_busy))
  = 3%nat.
Proof.
  refine (proj1 (proj2 (X5_saved_after_retries 2 (fun j => Nat.eqb j 2) 40
                          "config.json" "global/" (Some 1%nat) ex_busy
                          _ eq_refl _))).
  - intros [|[|j]] Hj; [reflexivity | reflexivity | lia].
  - unfold max_attempts_of. simpl. lia.
Defined.

(** The attempt loop, whatever the verifications answer. *)
Lemma attempt_loop_any verify d fn fp n :
  forall call a,
    (0 <= a)%Z -> (Z.to_nat a <= n)%nat ->
    let r := attempt_loop n verify call a d fn fp in
    (0 <= fst r <= a)%Z
    /\ count_writes (snd r)
       = (Z.to_nat (a - fst r) + (if (0 <? fst r)%Z then 1 else 0))%nat
    /\ (fst r = 0%Z <->
        forall j, (j < Z.to_nat a)%nat -> verify (call + j)%nat = false)
    /\ Forall (fun e => is_attempt_event e = true) (snd r).
Proof.
  induction n as [|n IH]; intros call a H0 Hn; simpl.
  - assert (a = 0%Z) as -> by lia. simpl.
    repeat split; intros; try lia; try constructor.
  - destruct (Z.ltb_spec 0 a) as [Hpos|Hle].
    + destruct (verify call) eqn:V; simpl.
      * destruct (Z.ltb_spec 0 a); [|lia].
        rewrite Z.sub_diag. split; [lia|]. split; [reflexivity|]. split.
        -- split; [lia|]. intros Hall.
           specialize (Hall 0%nat ltac:(lia)).
           rewrite Nat.add_0_r in Hall. congruence.
        -- repeat constructor.
      * specialize (IH (S call) (a - 1)%Z ltac:(lia) ltac:(lia)).
        destruct (attempt_loop n verify (S call) (a - 1) d fn fp)
          as [a' ev']. simpl in *.
        destruct IH as (Hb & Hw & Hz & Hall).
        split; [lia|]. split; [|split].
        -- unfold count_writes in *. simpl. rewrite Hw.
           replace (Z.to_nat (a - a')) with (S (Z.to_nat (a - 1 - a')))
             by lia.
           reflexivity.
        -- rewrite Hz. split.
           ++ intros Hall' j Hj. destruct j as [|j].
              ** now rewrite Nat.add_0_r.
              ** replace (call + S j)%nat with (S (call + j)) by lia.
                 apply Hall'. lia.
           ++ intros Hall' j Hj.
              replace (S (call + j)) with (call + S j)%nat by lia.
              apply Hall'. lia.
        -- repeat constructor. exact Hall.
    + assert (a = 0%Z) as -> by lia. simpl.
      repeat split; intros; try lia; try constructor.
Qed.

Lemma filter_attempt_events ev :
  Forall (fun e => is_attempt_event e = true) ev ->
  Forall (fun e => is_write e = true
                   \/ exists dd fn fp b, e = EvVerifyJson dd fn fp b)
         (filter is_file_event ev).
Proof.
  induction 1 as [|e ev He _ IH]; simpl; [constructor|].
  destruct e; simpl in *; try discriminate; try exact IH;
    constructor; eauto 6.
Qed.

(** X6.  Whatever the verifications answer, a run of the saving thread
    makes its backup before any other file call and deletes the backup as
    its last file call, with only writes and verifications in between and
    [restore_backup_file] just before the deletion when it restores.  The
    log line carries [max - a] and [a], where [a] is the number of attempts
    left: the thread wrote [max - a] times when [a = 0] and [max - a + 1]
    times otherwise, so between 1 and [max] times.  It restores exactly when
    [a = 0], that is exactly when the first [max] verifications all
    fail. *)
Theorem X6_cycle_shape :
  forall verify timer fname fpath dict_user self,
    let M := max_attempts_of self in
    let ev := snd (__saving verify timer fname fpath dict_user self) in
    exists a mid,
      (0 <= a <= M)%Z
      /\ filter is_file_event ev
         = EvCreateBackup fname fpath
           :: mid
           ++ (if (0 <? a)%Z then [] else [EvRestoreBackup fname fpath])
           ++ [EvDeleteBackup fname fpath]
      /\ Forall (fun e => is_write e = true
                          \/ exists dd fn fp b, e = EvVerifyJson dd fn fp b)
                mid
      /\ In (EvLogInfo MSG_RESULT
               [AStr fname;
                AStr (if (0 <? a)%Z then "saved" else "failed saving");
                AInt timer; AInt (M - a); AInt a]) ev
      /\ count_writes ev
         = (Z.to_nat (M - a) + (if (0 <? a)%Z then 1 else 0))%nat
      /\ (1 <= count_writes ev <= Z.to_nat M)%nat
      /\ (a = 0%Z <->
          forall j, (j < Z.to_nat M)%nat -> verify j = false).
Proof.
  intros verify timer fname fpath dict_user self M ev.
  pose proof (max_attempts_of_ge3 self) as HM. fold M in HM.
  pose proof (attempt_loop_any verify dict_user fname fpath (Z.to_nat M)
                0 M ltac:(lia) ltac:(lia)) as Hloop.
  destruct (attempt_loop (Z.to_nat M) verify 0 M dict_user fname fpath)
    as [a att] eqn:Eloop.
  simpl in Hloop. destruct Hloop as (Hb & Hw & Hz & Hall).
  assert (Hev : ev = repeat (EvSleep 10) (Z.to_nat (_save_delay self))
                     ++ ([EvCreateBackup fname fpath]
                         ++ att
                         ++ (if (0 <? a)%Z then []
                             else [EvRestoreBackup fname fpath])
                         ++ [EvLogInfo MSG_RESULT
                               [AStr fname;
                                AStr (if (0 <? a)%Z then "saved"
                                      else "failed saving");
                                AInt timer; AInt (M - a); AInt a]]
                         ++ [EvDeleteBackup fname fpath])
                     ++ snd (saving_finish fname (fst (delay_wait self)))).
  { subst ev. rewrite saving_unfold. cbn [snd].
    rewrite delay_wait_events. f_equal. f_equal.
    unfold saving_cycle, attempt_all. fold M. rewrite Eloop.
    destruct (0 <? a)%Z; reflexivity. }
  assert (Hsl : forall n, filter is_file_event (repeat (EvSleep 10) n) = [])
    by (induction n; [reflexivity | assumption]).
  assert (Hfin : filter is_file_event
                   (snd (saving_finish fname (fst (delay_wait self)))) = []
                 /\ count_writes
                      (snd (saving_finish fname (fst (delay_wait self))))
                    = 0%nat).
  { destruct (saving_finish_events fname (fst (delay_wait self)))
      as [->|(k' & fp & dd & ->)]; split; reflexivity. }
  destruct Hfin as [Hfin Hfinw].
  assert (Hcw : count_writes ev
                = (Z.to_nat (M - a) + (if (0 <? a)%Z then 1 else 0))%nat).
  { rewrite Hev, !count_writes_app, count_writes_sleeps, Hfinw, Hw.
    destruct (0 <? a)%Z; unfold count_writes; simpl; lia. }
  exists a, (filter is_file_event att).
  split; [exact Hb|]. split; [|split; [|split; [|split; [|split]]]].
  - rewrite Hev, !filter_app, Hsl, Hfin. simpl.
    destruct (0 <? a)%Z; simpl; now rewrite app_nil_r.
  - now apply filter_attempt_events.
  - rewrite Hev. apply in_or_app. right. apply in_or_app. left.
    apply in_or_app. right. apply in_or_app. right.
    apply in_or_app. right. apply in_or_app. left. left. reflexivity.
  - exact Hcw.
  - rewrite Hcw. destruct (Z.ltb_spec 0 a); lia.
  - rewrite Hz. split; intros H j Hj.
    + exact (H j Hj).
    + exact (H j Hj).
Qed.

(** ** No task is left without a thread *)

Lemma save_result_flag delay filetype next_task s s' ev :
  save delay filetype next_task s = Returned (s', ev) ->
  _save_queue s' <> [] -> is_saving s' = true.
Proof.
  unfold save. intros H Hne.
  destruct (save_enqueue filetype next_task s) as [[s1 ev1]|e]; [|discriminate].
  destruct (save_trigger_spec delay s1) as (s2 & ev2 & H2 & Hq & _).
  destruct (save_trigger_after delay s1 s2 ev2 H2) as [_ Hflag].
  rewrite H2 in H. injection H as <- <-. apply Hflag. congruence.
Qed.

Lemma existsb_replace_keep {A} (P : A -> bool) i x x' : forall l,
  nth_error l i = Some x -> P x = false ->
  existsb P l = true -> existsb P (replace_nth i x' l) = true.
Proof.
  induction i as [|i IH]; intros [|y l] H Hx He; simpl in *; try discriminate.
  - injection H as ->. rewrite Hx in He. simpl in He. rewrite He.
    apply orb_true_r.
  - apply orb_true_iff in He as [He|He]; [now rewrite He|].
    rewrite (IH l H Hx He). apply orb_true_r.
Qed.

Lemma existsb_replace_new {A} (P : A -> bool) i x x' : forall l,
  nth_error l i = Some x -> P x' = true ->
  existsb P (replace_nth i x' l) = true.
Proof.
  induction i as [|i IH]; intros [|y l] H Hx; simpl in *; try discriminate.
  - now rewrite Hx.
  - rewrite (IH l H Hx). apply orb_true_r.
Qed.

Lemma saving_thread_listed i th ths :
  nth_error ths i = Some th -> in_saving (pc th) = true ->
  saving_threads ths <> [].
Proof.
  intros H A E. apply nth_error_In in H.
  assert (Hin : In th (saving_threads ths))
    by (apply filter_In; split; assumption).
  rewrite E in Hin. destruct Hin.
Qed.

(** A thread past [self.is_saving = False]: its statements leave the queue
    alone, and with a task waiting it stays on its way to the chained call
    or leaves the flag up. *)
Lemma worker_step_atomic_tail verify timer s th s' th' ev :
  in_chained_call (pc th) = false ->
  in_saving (pc th) = false ->
  worker_step_atomic verify timer s th = (s', th', ev) ->
  _save_queue s' = _save_queue s
  /\ (is_tail (pc th) = true -> _save_queue s <> [] ->
      is_saving s' = true \/ is_tail (pc th') = true).
Proof.
  intros Hc Hs H. unfold worker_step_atomic, worker_step in H.
  destruct (pc th) eqn:P; try discriminate Hc; try discriminate Hs;
    simpl in H.
  - destruct (_save_queue s) as [|[k t] q] eqn:Q; injection H as <- <- <-;
      (split; [exact Q|]); intros _ Hne; [congruence | now right].
  - destruct (save_next_task_spec 0 "setting" s) as (s2 & ev2 & H2 & Hq).
    pose proof (save_result_flag 0 "setting" true s s2 ev2 H2) as Hflag.
    rewrite H2 in H. injection H as <- <- <-.
    split; [exact Hq|]. intros _ Hne. left. apply Hflag. congruence.
  - injection H as <- <- <-. split; [reflexivity|]. discriminate.
  - injection H as <- <- <-. split; [reflexivity|]. discriminate.
Qed.

(** A saving thread stays saving until it clears the flag, and is then on
    its way to the chained call. *)
Lemma worker_step_atomic_saving verify timer s th s' th' ev :
  in_saving (pc th) = true ->
  worker_step_atomic verify timer s th = (s', th', ev) ->
  in_saving (pc th') = true \/ is_tail (pc th') = true.
Proof.
  intros Hs H.
  assert (E : th' = snd (fst (worker_step_atomic verify timer s th)))
    by now rewrite H.
  rewrite E. clear H E. unfold worker_step_atomic, worker_step.
  destruct (pc th); try discriminate Hs; simpl; auto;
    try destruct (0 <? _save_delay s)%Z;
    try destruct (0 <? attempts th)%Z;
    try destruct (verify (verify_calls th));
    simpl; auto.
Qed.

Lemma handled_step a sys sys' :
  Forall (fun th => in_chained_call (pc th) = false) (threads sys) ->
  exclusive sys ->
  handled sys ->
  sys_do_atomic a sys = Some sys' ->
  handled sys'.
Proof.
  intros Hnc [Hone Hnone] [Hb Hc] H.
  destruct a as [delay filetype | i verify timer]; simpl in H.
  - destruct (save delay filetype false (cfg sys)) as [[s' ev]|e] eqn:E;
      injection H as <-; [|split; assumption].
    unfold handled. simpl. split.
    + intros F'.
      rewrite saving_threads_app, saving_threads_started.
      destruct (request_effect delay filetype (cfg sys) s' ev E)
        as [[St F]|(F & _ & St)].
      * rewrite St. simpl. rewrite app_nil_r. apply Hb. congruence.
      * destruct (started ev); [discriminate|].
        intros E0. apply app_eq_nil in E0 as [_ E0]. discriminate.
    + intros Hne. left.
      exact (save_result_flag delay filetype false (cfg sys) s' ev E Hne).
  - destruct (nth_error (threads sys) i) as [th|] eqn:N; [|discriminate].
    destruct (worker_step_atomic verify timer (cfg sys) th)
      as [[s' th'] ev] eqn:W.
    injection H as <-.
    assert (Hth : in_chained_call (pc th) = false).
    { rewrite Forall_forall in Hnc. apply Hnc.
      eapply nth_error_In; exact N. }
    destruct (worker_step_atomic_effect verify timer (cfg sys) th s' th' ev
                Hth W) as [_ Heff].
    pose proof (saving_threads_replace i th th' (threads sys) N) as Hlen.
    assert (Hnil : forall l : list Thread, l <> [] -> List.length l <> 0%nat)
      by (intros [|? ?]; [congruence | discriminate]).
    assert (Hnil' : forall l : list Thread, List.length l <> 0%nat -> l <> [])
      by (intros [|? ?]; [simpl; congruence | discriminate]).
    unfold handled. simpl.
    rewrite saving_threads_app, saving_threads_started, existsb_app.
    destruct (in_saving (pc th)) eqn:A.
    + assert (F : is_saving (cfg sys) = true).
      { destruct (is_saving (cfg sys)) eqn:F; [reflexivity|].
        exfalso. exact (saving_thread_listed i th _ N A (Hnone eq_refl)). }
      destruct Heff as [St [[A' F']|[A' F']]]; rewrite St; simpl;
        rewrite app_nil_r.
      * rewrite A' in Hlen. split.
        -- intros _. apply Hnil'. pose proof (Hnil _ (Hb F)). lia.
        -- intros _. left. congruence.
      * split; [congruence|]. intros _. right.
        destruct (worker_step_atomic_saving verify timer (cfg sys) th s' th'
                    ev A W) as [A''|T]; [congruence|].
        rewrite (existsb_replace_new _ i th th' _ N T). reflexivity.
    + destruct (worker_step_atomic_tail verify timer (cfg sys) th s' th' ev
                  Hth A W) as [Q Htail].
      destruct Heff as [A' [[St F']|(F & F' & St)]]; rewrite A' in Hlen.
      * rewrite St. simpl. rewrite app_nil_r. split.
        -- intros F''. apply Hnil'. rewrite F' in F''.
           pose proof (Hnil _ (Hb F'')). lia.
        -- rewrite Q. intros Hne.
           destruct (Hc Hne) as [F|T]; [left; congruence|].
           destruct (is_tail (pc th)) eqn:T0.
           ++ destruct (Htail eq_refl Hne) as [F|T']; [now left|].
              right. rewrite (existsb_replace_new _ i th th' _ N T').
              reflexivity.
           ++ right. rewrite (existsb_replace_keep _ i th th' _ N T0 T).
              reflexivity.
      * split; [|intros _; now left].
        intros _ E0. apply app_eq_nil in E0 as [_ E0].
        destruct (started ev); [discriminate | discriminate E0].
Qed.

(** X7.  Start from an engine with nothing queued and the flag down, and
    let no call of [save] be interleaved with another.  Then at every
    moment at most one thread is saving and none while [is_saving] is
    false; while [is_saving] is true exactly one thread is saving; and
    whenever a task waits in the queue some thread is saving or is on its
    way to the chained call, so no task is left behind. *)
Theorem X7_no_task_left_behind :
  forall self acts sys,
    is_saving self = false ->
    _save_queue self = [] ->
    sys_run_atomic acts (sys_init self) = Some sys ->
    exclusive sys
    /\ (is_saving (cfg sys) = true ->
        List.length (saving_threads (threads sys)) = 1%nat)
    /\ (_save_queue (cfg sys) <> [] ->
        exists th, In th (threads sys)
                   /\ (in_saving (pc th) = true \/ is_tail (pc th) = true)).
Proof.
  intros self acts sys F Q H.
  assert (G : forall acts sys0 sys1,
             Forall (fun th => in_chained_call (pc th) = false) (threads sys0) ->
             exclusive sys0 -> handled sys0 ->
             sys_run_atomic acts sys0 = Some sys1 ->
             exclusive sys1 /\ handled sys1).
  { clear. induction acts as [|a acts IH]; intros sys0 sys1 Hnc Hex Hh Hrun.
    - injection Hrun as <-. split; assumption.
    - simpl in Hrun.
      destruct (sys_do_atomic a sys0) as [sys'|] eqn:E; [|discriminate].
      destruct (exclusive_step a sys0 sys' Hnc Hex E) as [Hnc' Hex'].
      pose proof (handled_step a sys0 sys' Hnc Hex Hh E) as Hh'.
      exact (IH sys' sys1 Hnc' Hex' Hh' Hrun). }
  destruct (G acts (sys_init self) sys) as [Hex [Hb Hc]];
    [constructor | split; simpl; [lia | reflexivity] | | exact H |].
  { split; simpl; [congruence | congruence]. }
  split; [exact Hex|]. split.
  - intros F'. destruct Hex as [Hone _]. specialize (Hb F').
    destruct (saving_threads (threads sys)) as [|x [|y l]];
      [congruence | reflexivity | simpl in Hone; lia].
  - intros Hne. destruct (Hc Hne) as [F'|T].
    + specialize (Hb F').
      destruct (saving_threads (threads sys)) as [|x l] eqn:E; [congruence|].
      assert (Hin : In x (saving_threads (threads sys)))
        by (rewrite E; now left).
      apply filter_In in Hin as [Hin A]. exists x. auto.
    + apply existsb_exists in T as (th & Hin & T). exists th. auto.
Qed.

Lemma X7_no_task_left_behind_witness :
  exists sys,
    sys_run_atomic
      ([Request 0 "config"; Request 66 "classes"] ++ repeat (Run 0 yes 0) 14)
      (sys_init ex_cfg) = Some sys
    /\ exclusive sys.
Proof.
  eexists. split; [vm_compute; reflexivity|].
  refine (proj1 (X7_no_task_left_behind ex_cfg
                   ([Request 0 "config"; Request 66 "classes"]
                    ++ repeat (Run 0 yes 0) 14) _ eq_refl eq_refl _)).
  vm_compute. reflexivity.
Defined.

(** ** The flag left up *)

Lemma save_when_flagged delay filetype next_task s s' ev :
  is_saving s = true ->
  save delay filetype next_task s = Returned (s', ev) ->
  is_saving s' = true
  /\ filter is_file_event ev = []
  /\ started ev = [].
Proof.
  unfold save, save_enqueue, save_trigger. intros F H.
  destruct (negb next_task);
    [destruct (FileName.getattr (filename s) filetype) as [fname|];
     [destruct (negb (queue_mem fname (_save_queue s)));
      [destruct (Preset.getattr (user s) filetype); [|discriminate]|]|]|];
    simpl in H;
    match type of H with
    | context [match ?q with [] => _ | _ :: _ => _ end] =>
        destruct q as [|[k t] q']
    end; simpl in H; rewrite ?F in H; simpl in H;
    injection H as <- <-; simpl; auto.
Qed.

Lemma replace_nth_same {A} i (x : A) : forall l,
  nth_error l i = Some x -> replace_nth i x l = l.
Proof.
  induction i as [|i IH]; intros [|y l] H; simpl in *; try discriminate.
  - now injection H as ->.
  - now rewrite IH.
Qed.

Lemma stuck_step a sys sys' :
  is_saving (cfg sys) = true ->
  forallb (fun th => dead (pc th)) (threads sys) = true ->
  sys_do a sys = Some sys' ->
  is_saving (cfg sys') = true
  /\ threads sys' = threads sys
  /\ filter is_file_event (trace sys') = filter is_file_event (trace sys)
  /\ started (trace sys') = started (trace sys).
Proof.
  intros F D H. destruct a as [delay filetype | i verify timer]; simpl in H.
  - destruct (save delay filetype false (cfg sys)) as [[s' ev]|e] eqn:E;
      injection H as <-; [|auto].
    destruct (save_when_flagged delay filetype false (cfg sys) s' ev F E)
      as (F' & Hf & Hs).
    simpl. rewrite filter_app, started_app, Hf, Hs. simpl.
    rewrite !app_nil_r. auto.
  - destruct (nth_error (threads sys) i) as [th|] eqn:N; [|discriminate].
    assert (Hd : dead (pc th) = true).
    { rewrite forallb_forall in D. apply D. eapply nth_error_In; exact N. }
    unfold worker_step in H.
    destruct (pc th); try discriminate Hd; injection H as <-; simpl;
      rewrite (replace_nth_same i th _ N), !app_nil_r; auto.
Qed.

(** X8.  Once [is_saving] is true while every thread has ended, nothing
    brings it down again: whatever is requested or scheduled afterwards,
    the flag stays up, no thread is started and no file primitive is
    called, so the tasks queued from then on are never written. *)
Theorem X8_flag_left_up :
  forall acts sys sys',
    is_saving (cfg sys) = true ->
    forallb (fun th => dead (pc th)) (threads sys) = true ->
    sys_run acts sys = Some sys' ->
    is_saving (cfg sys') = true
    /\ threads sys' = threads sys
    /\ filter is_file_event (trace sys') = filter is_file_event (trace sys)
    /\ started (trace sys') = started (trace sys).
Proof.
  induction acts as [|a acts IH]; intros sys sys' F D H; simpl in H.
  - injection H as <-. auto.
  - destruct (sys_do a sys) as [sys1|] eqn:E; [|discriminate].
    destruct (stuck_step a sys sys1 F D E) as (F1 & T1 & W1 & S1).
    rewrite <- T1 in D.
    destruct (IH sys1 sys' F1 D H) as (F2 & T2 & W2 & S2).
    repeat split; congruence.
Qed.

(** The schedule [stuck_schedule] leads an idle engine there; the requests
    made afterwards are queued and stay so. *)
Lemma X8_flag_left_up_witness :
  exists sys sys',
    sys_run stuck_schedule (sys_init ex_cfg) = Some sys
    /\ sys_run [Request 0 "setting"; Run 0 yes 0; Request 66 "brakes"] sys
       = Some sys'
    /\ queue_keys (_save_queue (cfg sys')) = ["default.json"; "brakes.json"]
    /\ is_saving (cfg sys') = true
    /\ started (trace sys') = started (trace sys).
Proof.
  do 2 eexists.
  split; [vm_compute; reflexivity|].
  split; [vm_compute; reflexivity|].
  split; [vm_compute; reflexivity|].
  match goal with
  | |- is_saving (cfg ?s') = true /\ started _ = started (trace ?s) =>
      pose proof (X8_flag_left_up
                    [Request 0 "setting"; Run 0 yes 0; Request 66 "brakes"]
                    s s' eq_refl eq_refl eq_refl) as (F & _ & _ & S)
  end.
  split; [exact F | exact S].
Defined.

(** ** Waiting for the flag with one task *)

Lemma queue_pop_only fname q :
  queue_keys q = [fname] -> queue_pop fname q = [].
Proof.
  destruct q as [|[k v] [|x q]]; simpl; try discriminate.
  intros H. injection H as ->. now rewrite String.eqb_refl.
Qed.

Lemma wait_inv_step fname fpath verify timer s th pre s' th' ev :
  wait_inv fname fpath s th pre ->
  worker_step verify timer s th = (s', th', ev) ->
  wait_inv fname fpath s' th' (pre ++ ev).
Proof.
  intros (Hn & Hp & H) W. unfold worker_step in W. unfold wait_inv.
  pose proof (max_attempts_of_ge3 s) as Hmax.
  destruct (pc th) eqn:P; try contradiction; simpl in W;
    repeat match goal with
           | H : _ /\ _ |- _ => destruct H
           end;
    repeat match type of W with
           | context [(0 <? _save_delay s)%Z] =>
               destruct (0 <? _save_delay s)%Z
           | context [(0 <? attempts th)%Z] =>
               destruct (Z.ltb_spec 0 (attempts th))
           | context [verify (verify_calls th)] =>
               destruct (verify (verify_calls th))
           | context [match _save_queue s with [] => _ | _ :: _ => _ end] =>
               destruct (_save_queue s) as [|[k t] q] eqn:Q
           end;
    try discriminate;
    injection W as <- <- <-; simpl;
    rewrite ?count_writes_app, ?app_nil_r, ?Hn, ?Hp, ?P;
    unfold count_writes in *; simpl;
    repeat split; auto; try lia;
    try (apply in_or_app; simpl; auto; fail);
    try (apply queue_pop_only; assumption).
Qed.

Lemma wait_inv_run fname fpath verify timer : forall n s th pre s' th' ev,
  wait_inv fname fpath s th pre ->
  thread_run n verify timer s th = (s', th', ev) ->
  wait_inv fname fpath s' th' (pre ++ ev).
Proof.
  induction n as [|n IH]; intros s th pre s' th' ev Hinv H; simpl in H.
  - injection H as <- <- <-. now rewrite app_nil_r.
  - destruct (worker_step verify timer s th) as [[s1 th1] ev1] eqn:W.
    destruct (thread_run n verify timer s1 th1) as [[s2 th2] ev2] eqn:R.
    injection H as <- <- <-. rewrite app_assoc.
    eapply IH; [|exact R].
    eapply wait_inv_step; [exact Hinv | exact W].
Qed.

Lemma save_idle_one delay filetype self s1 ev1 task :
  is_saving self = false ->
  _save_queue self = [] ->
  save delay filetype false self = Returned (s1, ev1) ->
  started ev1 = [task] ->
  is_saving s1 = true /\ _save_queue s1 = [task].
Proof.
  intros F Q H St. unfold save, save_enqueue in H. simpl in H.
  rewrite Q in H. simpl in H.
  destruct (FileName.getattr (filename self) filetype) as [fname|].
  - destruct (Preset.getattr (user self) filetype) as [d|]; [|discriminate].
    unfold save_trigger in H. simpl in H. rewrite F in H. simpl in H.
    rewrite String.eqb_refl in H. injection H as <- <-.
    simpl in St. injection St as <-. simpl. auto.
  - unfold save_trigger in H. simpl in H. rewrite Q in H.
    injection H as <- <-. discriminate St.
Qed.

(** X9.  With one task only, the flag tells the truth.  On an engine with
    an empty queue and no thread, let a call of [save] start the thread and
    let nothing else be requested.  Then after any number of statements of
    that thread, whoever finds [is_saving] false (as the loop
    [while cfg.is_saving] of the preset dialog does) finds the queue empty,
    the file written at least once and its backup deleted. *)
Theorem X9_flag_down_means_saved :
  forall self delay filetype s1 ev1 task n verify timer s th ev,
    is_saving self = false ->
    _save_queue self = [] ->
    save delay filetype false self = Returned (s1, ev1) ->
    started ev1 = [task] ->
    thread_run n verify timer s1 (thread_start task) = (s, th, ev) ->
    is_saving s = false ->
    _save_queue s = []
    /\ (1 <= count_writes ev)%nat
    /\ In (EvDeleteBackup (fst task) (fst (snd task))) ev.
Proof.
  intros self delay filetype s1 ev1 [fname [fpath d]] n verify timer s th ev
         F Q H St R Fdown.
  destruct (save_idle_one delay filetype self s1 ev1 _ F Q H St) as [F1 Q1].
  assert (Hinv : wait_inv fname fpath s1 (thread_start (fname, (fpath, d))) []).
  { unfold wait_inv. simpl. rewrite Q1. simpl. auto. }
  pose proof (wait_inv_run fname fpath verify timer n _ _ _ _ _ _ Hinv R)
    as (_ & _ & Hfin).
  simpl in Hfin. simpl.
  destruct (pc th); try contradiction;
    repeat match goal with
           | H : _ /\ _ |- _ => destruct H
           end;
    try congruence; auto.
Qed.

Lemma X9_flag_down_means_saved_witness :
  exists s1 ev1 s th ev,
    save 0 "setting" false ex_cfg = Returned (s1, ev1)
    /\ thread_run 14 yes 0 s1
                  (thread_start ("default.json", ("settings/", Some 2%nat)))
       = (s, th, ev)
    /\ _save_queue s = []
    /\ (1 <= count_writes ev)%nat.
Proof.
  do 5 eexists.
  split; [vm_compute; reflexivity|].
  split; [vm_compute; reflexivity|].
  match goal with
  | |- _save_queue ?s = [] /\ (1 <= count_writes ?ev)%nat =>
      assert (R : exists s1 ev1 th,
                 save 0 "setting" false ex_cfg = Returned (s1, ev1)
                 /\ started ev1 = [("default.json", ("settings/", Some 2%nat))]
                 /\ thread_run 14 yes 0 s1
                      (thread_start
                         ("default.json", ("settings/", Some 2%nat)))
                    = (s, th, ev))
  end.
  { do 3 eexists. split; [vm_compute; reflexivity|].
    split; vm_compute; reflexivity. }
  destruct R as (s1 & ev1 & th & H1 & H2 & H3).
  destruct (X9_flag_down_means_saved ex_cfg 0 "setting" s1 ev1 _ 14 yes 0
              _ th _ eq_refl eq_refl H1 H2 H3 eq_refl) as (Hq & Hw & _).
  split; [exact Hq | exact Hw].
Defined.

(** * Further properties of the preset list *)

(** ** The order of the directory listing does not matter *)

Lemma ascii_compare_lt_trans a b c :
  Ascii.compare a b = Lt -> Ascii.compare b c = Lt -> Ascii.compare a c = Lt.
Proof.
  unfold Ascii.compare. rewrite !N.compare_lt_iff. lia.
Qed.

Lemma string_compare_lt_trans : forall a b c,
  String.compare a b = Lt -> String.compare b c = Lt ->
  String.compare a c = Lt.
Proof.
  induction a as [|x a IH]; intros [|y b] [|z c]; simpl; try congruence.
  destruct (Ascii.compare x y) eqn:Exy; try discriminate;
    destruct (Ascii.compare y z) eqn:Eyz; try discriminate; intros H1 H2.
  - apply Ascii.compare_eq_iff in Exy, Eyz. subst.
    assert (E : Ascii.compare z z = Eq)
      by (unfold Ascii.compare; apply N.compare_refl).
    rewrite E. now apply IH with b.
  - apply Ascii.compare_eq_iff in Exy. subst. now rewrite Eyz.
  - apply Ascii.compare_eq_iff in Eyz. subst. now rewrite Exy.
  - now rewrite (ascii_compare_lt_trans x y z Exy Eyz).
Qed.

Lemma string_ltb_total a b :
  String.ltb a b = false -> String.ltb b a = false -> a = b.
Proof.
  unfold String.ltb. rewrite (String.compare_antisym b a).
  destruct (String.compare a b) eqn:E; simpl; try discriminate.
  intros _ _. now apply String.compare_eq_iff.
Qed.

Lemma string_ltb_trans a b c :
  String.ltb a b = true -> String.ltb b c = true -> String.ltb a c = true.
Proof.
  unfold String.ltb.
  destruct (String.compare a b) eqn:E1; try discriminate.
  destruct (String.compare b c) eqn:E2; try discriminate.
  now rewrite (string_compare_lt_trans a b c E1 E2).
Qed.

Lemma string_ltb_asym a b : String.ltb a b = true -> String.ltb b a = false.
Proof.
  unfold String.ltb. rewrite (String.compare_antisym b a).
  destruct (String.compare a b); simpl; congruence.
Qed.

Lemma entry_ltb_asym a b : entry_ltb a b = true -> entry_ltb b a = false.
Proof.
  unfold entry_ltb. intros H.
  apply orb_true_iff in H as [H|H].
  - apply Z.ltb_lt in H. apply orb_false_iff. split.
    + apply Z.ltb_ge. lia.
    + apply andb_false_iff. left. apply Z.eqb_neq. lia.
  - apply andb_true_iff in H as [H1 H2]. apply Z.eqb_eq in H1.
    apply orb_false_iff. split.
    + apply Z.ltb_ge. lia.
    + apply andb_false_iff. right. now apply string_ltb_asym.
Qed.

Lemma not_below_antisym a b : not_below a b -> not_below b a -> a = b.
Proof.
  unfold not_below, entry_ltb. destruct a as [ta na], b as [tb nb]. simpl.
  intros H1 H2.
  apply orb_false_iff in H1 as [H1 H1'], H2 as [H2 H2'].
  apply Z.ltb_ge in H1, H2. assert (E : ta = tb) by lia. subst tb.
  rewrite Z.eqb_refl in H1', H2'. simpl in H1', H2'.
  now rewrite (string_ltb_total na nb H1' H2').
Qed.

Lemma not_below_trans a b c : not_below a b -> not_below b c -> not_below a c.
Proof.
  unfold not_below, entry_ltb. destruct a as [ta na], b as [tb nb], c as [tc nc].
  simpl. intros H1 H2.
  apply orb_false_iff in H1 as [H1 H1'], H2 as [H2 H2'].
  apply Z.ltb_ge in H1, H2.
  apply orb_false_iff. split; [apply Z.ltb_ge; lia|].
  apply andb_false_iff.
  destruct (Z.eqb_spec ta tc) as [E|N]; [right | now left].
  subst tc. assert (E : tb = ta) by lia. subst tb.
  rewrite Z.eqb_refl in H1', H2'. simpl in H1', H2'.
  destruct (String.ltb na nc) eqn:L; [|reflexivity].
  destruct (String.ltb nb na) eqn:L'.
  - now rewrite (string_ltb_trans nb na nc L' L) in H2'.
  - rewrite (string_ltb_total na nb H1' L') in L. congruence.
Qed.

Lemma insert_desc_ordered x l :
  StronglySorted not_below l -> StronglySorted not_below (insert_desc x l).
Proof.
  induction 1 as [|y l Hs IH Hall]; simpl.
  - repeat constructor.
  - destruct (entry_ltb x y) eqn:E.
    + constructor; [exact IH|].
      rewrite <- (insert_desc_perm x l). constructor; [|exact Hall].
      now apply entry_ltb_asym.
    + constructor; [now constructor|].
      constructor; [exact E|].
      eapply Forall_impl; [|exact Hall].
      intros z Hz. now apply not_below_trans with y.
Qed.

Lemma sorted_reverse_ordered l : StronglySorted not_below (sorted_reverse l).
Proof.
  induction l as [|x l IH]; simpl; [constructor|].
  now apply insert_desc_ordered.
Qed.

Lemma ordered_unique : forall l1 l2 : list Entry,
  StronglySorted not_below l1 -> StronglySorted not_below l2 ->
  Permutation l1 l2 -> l1 = l2.
Proof.
  induction l1 as [|x l1 IH]; intros l2 H1 H2 P.
  - apply Permutation_nil in P. now subst.
  - destruct l2 as [|y l2];
      [apply Permutation_sym, Permutation_nil in P; discriminate|].
    inversion H1 as [|? ? Hs1 Ha1]; subst.
    inversion H2 as [|? ? Hs2 Ha2]; subst.
    assert (E : x = y).
    { assert (Hx : In x (y :: l2))
        by (eapply Permutation_in; [exact P | now left]).
      assert (Hy : In y (x :: l1))
        by (eapply Permutation_in;
            [apply Permutation_sym; exact P | now left]).
      destruct Hx as [->|Hx]; [reflexivity|].
      destruct Hy as [->|Hy]; [reflexivity|].
      rewrite Forall_forall in Ha1, Ha2.
      apply not_below_antisym; [now apply Ha1 | now apply Ha2]. }
    subst y. f_equal. apply IH; try assumption.
    now apply Permutation_cons_inv with x.
Qed.

(** X10.  [os.listdir] promises no order, and none is needed: two listings
    of the same files give the same preset list. *)
Theorem X10_listing_order_irrelevant :
  forall (allowed_filename : string -> bool) (dir dir' : list (string * Z)),
    Permutation dir dir' ->
    preset_list allowed_filename dir = preset_list allowed_filename dir'.
Proof.
  intros allowed dir dir' P.
  unfold preset_list, valid_cfg_list.
  assert (E : sorted_reverse (gen_cfg_list dir)
              = sorted_reverse (gen_cfg_list dir')).
  { apply ordered_unique; try apply sorted_reverse_ordered.
    rewrite <- !sorted_reverse_perm. unfold gen_cfg_list.
    apply Permutation_map. now apply filter_perm. }
  now rewrite E.
Qed.

Lemma X10_listing_order_irrelevant_witness :
  preset_list ex_allowed ex_dir = preset_list ex_allowed (rev ex_dir).
Proof.
  apply (X10_listing_order_irrelevant ex_allowed ex_dir (rev ex_dir)).
  apply Permutation_rev.
Defined.

(** ** What the list holds *)

Lemma preset_list_cases allowed dir :
  let l := filter (fun e : Entry => allowed (snd e))
                  (sorted_reverse (gen_cfg_list dir)) in
  (l = [] /\ preset_list allowed dir = ["default"])
  \/ (l <> [] /\ preset_list allowed dir = map snd l).
Proof.
  intros l. unfold preset_list, valid_cfg_list. fold l.
  destruct l as [|e l']; [left | right]; split; try reflexivity.
  discriminate.
Qed.

Lemma valid_entries allowed dir (e : Entry) :
  In e (filter (fun e : Entry => allowed (snd e))
               (sorted_reverse (gen_cfg_list dir)))
  <-> exists f, In f dir /\ is_preset allowed f = true
                /\ e = (snd f, strip_ext (fst f)).
Proof.
  rewrite filter_In. unfold is_preset. split.
  - intros [Hin Ha].
    apply (Permutation_in _ (Permutation_sym (sorted_reverse_perm _))) in Hin.
    unfold gen_cfg_list in Hin. apply in_map_iff in Hin as (f & <- & Hf).
    apply filter_In in Hf as [Hf He]. exists f. simpl in Ha.
    now rewrite He, Ha.
  - intros (f & Hin & Hp & ->). apply andb_true_iff in Hp as [He Ha].
    split; [|exact Ha].
    apply (Permutation_in _ (sorted_reverse_perm _)).
    unfold gen_cfg_list.
    apply (in_map (fun f => (snd f, strip_ext (fst f)))).
    apply filter_In. now split.
Qed.

Lemma preset_list_none allowed dir :
  forallb (fun f => negb (is_preset allowed f)) dir = true ->
  preset_list allowed dir = ["default"].
Proof.
  intros Hnone.
  destruct (preset_list_cases allowed dir) as [[_ E]|[Hne _]]; [exact E|].
  exfalso.
  destruct (filter (fun e : Entry => allowed (snd e))
                   (sorted_reverse (gen_cfg_list dir))) as [|e l] eqn:El;
    [now apply Hne|].
  assert (Hin : In e (e :: l)) by now left.
  rewrite <- El in Hin. apply valid_entries in Hin as (f & Hf & Hp & _).
  rewrite forallb_forall in Hnone. specialize (Hnone f Hf).
  rewrite Hp in Hnone. discriminate.
Qed.

Lemma preset_list_complete allowed dir f :
  In f dir -> is_preset allowed f = true ->
  In (strip_ext (fst f)) (preset_list allowed dir).
Proof.
  intros Hin Hp.
  assert (He : In (snd f, strip_ext (fst f))
                  (filter (fun e : Entry => allowed (snd e))
                          (sorted_reverse (gen_cfg_list dir))))
    by (apply valid_entries; exists f; auto).
  destruct (preset_list_cases allowed dir) as [[E _]|[_ E]].
  - rewrite E in He. destruct He.
  - rewrite E. now apply (in_map snd) in He.
Qed.

(** The first name of the list, when a preset exists, is that of a preset
    no other is newer than. *)
Lemma preset_list_head allowed dir :
  existsb (is_preset allowed) dir = true ->
  exists f rest,
    In f dir /\ is_preset allowed f = true
    /\ preset_list allowed dir = strip_ext (fst f) :: rest
    /\ forall g, In g dir -> is_preset allowed g = true -> snd g <= snd f.
Proof.
  intros Hsome. apply existsb_exists in Hsome as (f0 & Hin0 & Hp0).
  pose proof (valid_entries allowed dir) as Hval.
  assert (Hs : StronglySorted newer_first
                 (filter (fun e : Entry => allowed (snd e))
                         (sorted_reverse (gen_cfg_list dir))))
    by apply filter_sorted, sorted_reverse_sorted.
  destruct (preset_list_cases allowed dir) as [[E _]|[_ E]].
  - exfalso.
    assert (H : In (snd f0, strip_ext (fst f0))
                   (filter (fun e : Entry => allowed (snd e))
                           (sorted_reverse (gen_cfg_list dir))))
      by (apply Hval; exists f0; auto).
    rewrite E in H. destruct H.
  - destruct (filter (fun e : Entry => allowed (snd e))
                     (sorted_reverse (gen_cfg_list dir))) as [|e l] eqn:El.
    { exfalso.
      destruct (proj2 (Hval (snd f0, strip_ext (fst f0)))).
      exists f0; auto. }
    destruct (proj1 (Hval e) (or_introl eq_refl)) as (f & Hf & Hp & He).
    exists f, (map snd l). split; [exact Hf|]. split; [exact Hp|].
    split; [rewrite E, He; reflexivity|].
    intros g Hg Hpg.
    assert (Hin : In (snd g, strip_ext (fst g)) (e :: l))
      by (apply Hval; exists g; auto).
    inversion Hs as [|? ? _ Hall]; subst.
    destruct Hin as [Hin|Hin].
    + assert (Eg : snd g = snd f) by congruence. lia.
    + rewrite Forall_forall in Hall. specialize (Hall _ Hin).
      unfold newer_first in Hall. simpl in Hall. exact Hall.
Qed.

(** X11.  [update_path] never fails on [self.preset_list[0]].  When the
    settings folder stays the same it keeps the preset file name; when the
    folder changes, the name becomes [default.json] if the new folder holds
    no preset, and otherwise the name (with [.json]) of a preset of the new
    folder that no other preset there is newer than. *)
Theorem X11_update_path :
  forall (allowed_filename : string -> bool) (abspath : string -> string)
         (listdir : string -> list (string * Z)) new_path self,
    let dir := listdir (FilePath.settings new_path) in
    exists self',
      update_path allowed_filename abspath listdir new_path self
      = Returned self'
      /\ path self' = new_path
      /\ _save_queue self' = _save_queue self
      /\ is_saving self' = is_saving self
      /\ (abspath (FilePath.settings new_path)
          = abspath (FilePath.settings (path self)) ->
          filename self' = filename self)
      /\ (abspath (FilePath.settings new_path)
          <> abspath (FilePath.settings (path self)) ->
          (forallb (fun f => negb (is_preset allowed_filename f)) dir = true ->
           FileName.setting (filename self') = "default.json")
          /\ (existsb (is_preset allowed_filename) dir = true ->
              exists f,
                In f dir /\ is_preset allowed_filename f = true
                /\ FileName.setting (filename self')
                   = (strip_ext (fst f) ++ ".json")%string
                /\ forall g, In g dir ->
                             is_preset allowed_filename g = true ->
                             snd g <= snd f)).
Proof.
  intros allowed abspath listdir new_path self dir.
  unfold update_path. simpl.
  destruct (String.eqb_spec (abspath (FilePath.settings new_path))
                            (abspath (FilePath.settings (path self))))
    as [E|N]; simpl.
  - eexists. split; [reflexivity|]. simpl.
    repeat (split; [auto; fail|]). intros C. now destruct (C E).
  - fold dir.
    destruct (preset_list allowed dir) as [|name rest] eqn:El.
    { exfalso.
      destruct (preset_list_cases allowed dir) as [[_ E]|[Hne E]];
        rewrite El in E; [discriminate|].
      symmetry in E. apply map_eq_nil in E. now apply Hne. }
    eexists. split; [reflexivity|]. simpl.
    do 3 (split; [reflexivity|]).
    split; [intros C; now destruct (N C)|]. intros _. split.
    + intros Hnone. rewrite (preset_list_none allowed dir Hnone) in El.
      now injection El as <- _.
    + intros Hsome.
      destruct (preset_list_head allowed dir Hsome)
        as (f & rest' & Hf & Hp & Hl & Hnew).
      rewrite El in Hl. injection Hl as -> _.
      exists f. auto.
Qed.

(** * The preset dialog *)

(** ** Strings *)

Lemma lower_append a b : lower (a ++ b)%string = (lower a ++ lower b)%string.
Proof. induction a as [|c a IH]; simpl; [reflexivity | now rewrite IH]. Qed.

Lemma string_length_append a b :
  String.length (a ++ b)%string = (String.length a + String.length b)%nat.
Proof. induction a as [|c a IH]; simpl; [reflexivity | now rewrite IH]. Qed.

Lemma length_lower a : String.length (lower a) = String.length a.
Proof. induction a as [|c a IH]; simpl; [reflexivity | now rewrite IH]. Qed.

Lemma substring_0_all b : substring 0 (String.length b) b = b.
Proof. induction b as [|c b IH]; simpl; [reflexivity | now rewrite IH]. Qed.

Lemma substring_0_append a b :
  substring 0 (String.length a) (a ++ b)%string = a.
Proof.
  induction a as [|c a IH]; simpl; [now destruct b | now rewrite IH].
Qed.

Lemma substring_skip_append a b :
  substring (String.length a) (String.length b) (a ++ b)%string = b.
Proof.
  induction a as [|c a IH]; simpl; [apply substring_0_all | exact IH].
Qed.

Lemma endswith_append a suffix : endswith suffix (a ++ suffix)%string = true.
Proof.
  unfold endswith. rewrite string_length_append.
  replace (String.length a + String.length suffix - String.length suffix)%nat
    with (String.length a) by lia.
  rewrite substring_skip_append, String.eqb_refl.
  apply andb_true_iff. split; [apply Nat.leb_le; lia | reflexivity].
Qed.

Lemma strip_ext_json a : strip_ext (a ++ ".json")%string = a.
Proof.
  unfold strip_ext. rewrite string_length_append. simpl.
  replace (String.length a + 5 - 5)%nat with (String.length a) by lia.
  apply substring_0_append.
Qed.

Lemma append_json_inj a b : (a ++ ".json")%string = (b ++ ".json")%string -> a = b.
Proof.
  intros H. rewrite <- (strip_ext_json a), <- (strip_ext_json b).
  now rewrite H.
Qed.

(** The file a name entered in the dialog stands for is a preset. *)
Lemma entered_is_preset allowed entered z :
  allowed entered = true ->
  is_preset allowed ((entered ++ ".json")%string, z) = true.
Proof.
  intros Ha. unfold is_preset. simpl.
  rewrite lower_append. change (lower ".json") with ".json".
  now rewrite endswith_append, strip_ext_json, Ha.
Qed.

(** ** The check for an existing preset *)

Lemma name_free allowed dir entered :
  existsb (fun preset => lower entered =? lower preset)
          (preset_list allowed dir) = false ->
  forall p, In p (preset_list allowed dir) -> lower entered <> lower p.
Proof.
  intros H p Hp E.
  assert (Ht : existsb (fun preset => lower entered =? lower preset)
                       (preset_list allowed dir) = true).
  { apply existsb_exists. exists p. split; [exact Hp|].
    now apply String.eqb_eq. }
  congruence.
Qed.

Lemma saving_copies_or_renames allowed dir fresh mode self filepath entered
      source self' ev src dst :
  CreatePreset_saving allowed dir fresh mode self filepath entered source
  = Returned (self', ev) ->
  In (UiCopy src dst) ev \/ In (UiRename src dst) ev ->
  existsb (fun preset => lower entered =? lower preset)
          (preset_list allowed dir) = false
  /\ src = (filepath ++ source)%string
  /\ dst = (filepath ++ entered ++ ".json")%string
  /\ _save_queue self' = _save_queue self
  /\ is_saving self' = is_saving self.
Proof.
  unfold CreatePreset_saving. intros H Hin.
  destruct (existsb _ (preset_list allowed dir)) eqn:Ex.
  { injection H as <- <-. simpl in Hin.
    destruct Hin as [[C|[]]|[C|[]]]; discriminate C. }
  split; [reflexivity|].
  destruct (mode =? "duplicate").
  { injection H as <- <-. simpl in Hin.
    destruct Hin as [[C|[C|[C|[]]]]|[C|[C|[C|[]]]]]; try discriminate C.
    injection C as <- <-. repeat split; auto. }
  destruct (mode =? "rename").
  - destruct (String.eqb_spec (FileName.setting (filename self)) source)
      as [E|N]; injection H as <- <-; simpl in Hin;
      destruct Hin as [[C|[C|[C|[]]]]|[C|[C|[C|[]]]]]; try discriminate C;
      injection C as <- <-; repeat split; auto.
  - destruct (save 0 "setting" false _) as [[s ev']|e]; [|discriminate].
    injection H as <- <-. exfalso.
    destruct Hin as [Hin|Hin]; apply in_app_or in Hin as [Hin|Hin];
      try (apply in_map_iff in Hin as (x & C & _); discriminate C);
      simpl in Hin; destruct Hin as [C|[C|[C|[]]]]; discriminate C.
Qed.

(** X12.  The dialog overwrites no preset.  Whenever it copies or renames
    a file, the target is the entered name with [.json] in the settings
    folder, no file of the folder bears that name, and no preset of the
    folder has the entered name in any letter case. *)
Theorem X12_no_preset_overwritten :
  forall (allowed_filename : string -> bool)
         (strip_filename_extension : string -> string -> string)
         dir fresh edit_mode source_filename text self self' ev src dst,
    creating allowed_filename strip_filename_extension dir fresh edit_mode
             source_filename text self = Returned (self', ev) ->
    In (UiCopy src dst) ev \/ In (UiRename src dst) ev ->
    let entered_filename := strip_filename_extension text ".json" in
    src = (FilePath.settings (path self) ++ source_filename)%string
    /\ dst = (FilePath.settings (path self) ++ entered_filename ++ ".json")%string
    /\ ~ In (entered_filename ++ ".json")%string (map fst dir)
    /\ forall f, In f dir -> is_preset allowed_filename f = true ->
                 lower (strip_ext (fst f)) <> lower entered_filename.
Proof.
  intros allowed strip dir fresh mode source text self self' ev src dst H Hin
         entered.
  unfold creating in H. fold entered in H.
  destruct (allowed entered) eqn:Ha.
  - destruct (saving_copies_or_renames _ _ _ _ _ _ _ _ _ _ _ _ H Hin)
      as (Hfree & Hsrc & Hdst & _).
    pose proof (name_free allowed dir entered Hfree) as Hno.
    assert (Hp : forall f, In f dir -> is_preset allowed f = true ->
                           lower (strip_ext (fst f)) <> lower entered).
    { intros f Hf Hpf E. apply (Hno (strip_ext (fst f))).
      - now apply preset_list_complete.
      - now symmetry. }
    repeat split; auto.
    intros Hex. apply in_map_iff in Hex as ([name z] & E & Hf).
    simpl in E. subst name.
    apply (Hp _ Hf (entered_is_preset allowed entered z Ha)).
    simpl. now rewrite strip_ext_json.
  - injection H as <- <-. simpl in Hin.
    destruct Hin as [[C|[]]|[C|[]]]; discriminate C.
Qed.

Lemma X12_no_preset_overwritten_witness :
  ~ In "copy.json" (map fst ex_dir).
Proof.
  refine (proj1 (proj2 (proj2
            (X12_no_preset_overwritten ex_allowed ex_strip ex_dir 9%nat
               "duplicate" "race.json" "copy.json" ex_cfg ex_cfg
               [UiCopy "settings/race.json" "settings/copy.json";
                UiRefreshList; UiAccept]
               "settings/race.json" "settings/copy.json" _ _)))).
  - vm_compute. reflexivity.
  - left. simpl. auto.
Defined.

(** X13.  In a folder without presets the list shows ["default"], and the
    dialog takes that name for an existing preset: entering [default], in
    any letter case, only gives the warning, whatever the mode. *)
Theorem X13_default_refused_in_empty_folder :
  forall (allowed_filename : string -> bool)
         (strip_filename_extension : string -> string -> string)
         dir fresh edit_mode source_filename text self,
    allowed_filename (strip_filename_extension text ".json") = true ->
    forallb (fun f => negb (is_preset allowed_filename f)) dir = true ->
    lower (strip_filename_extension text ".json") = "default" ->
    creating allowed_filename strip_filename_extension dir fresh edit_mode
             source_filename text self
    = Returned (self, [UiWarning "Error" "Preset already exists."]).
Proof.
  intros allowed strip dir fresh mode source text self Ha Hnone Hl.
  unfold creating, CreatePreset_saving. rewrite Ha.
  rewrite (preset_list_none allowed dir Hnone). simpl.
  rewrite Hl. reflexivity.
Qed.

Lemma X13_default_refused_in_empty_folder_witness :
  creating ex_allowed ex_strip [("notes.txt", 99)] 9%nat "" "" "Default.json"
           ex_cfg
  = Returned (ex_cfg, [UiWarning "Error" "Preset already exists."]).
Proof.
  apply (X13_default_refused_in_empty_folder ex_allowed ex_strip
           [("notes.txt", 99)] 9%nat "" "" "Default.json" ex_cfg);
    vm_compute; reflexivity.
Defined.

(** X14.  After a rename of a listed preset, [cfg.filename.setting] does
    not name the file that is gone: it follows the renamed file when that
    was the loaded one and is left alone otherwise.  The save engine is not
    touched. *)
Theorem X14_rename_keeps_loaded_name :
  forall (allowed_filename : string -> bool)
         (strip_filename_extension : string -> string -> string)
         dir fresh preset text self self' ev src dst,
    In preset (preset_list allowed_filename dir) ->
    creating allowed_filename strip_filename_extension dir fresh "rename"
             (preset ++ ".json")%string text self = Returned (self', ev) ->
    In (UiRename src dst) ev ->
    FileName.setting (filename self') <> (preset ++ ".json")%string
    /\ (FileName.setting (filename self) = (preset ++ ".json")%string ->
        FileName.setting (filename self')
        = (strip_filename_extension text ".json" ++ ".json")%string)
    /\ (FileName.setting (filename self) <> (preset ++ ".json")%string ->
        FileName.setting (filename self') = FileName.setting (filename self))
    /\ _save_queue self' = _save_queue self
    /\ is_saving self' = is_saving self.
Proof.
  intros allowed strip dir fresh preset text self self' ev src dst Hp H Hin.
  unfold creating in H.
  destruct (allowed (strip text ".json")); cycle 1.
  { injection H as <- <-. simpl in Hin. destruct Hin as [C|[]]. discriminate C. }
  assert (Hmode : CreatePreset_saving allowed dir fresh "rename" self
                    (FilePath.settings (path self)) (strip text ".json")
                    (preset ++ ".json")%string = Returned (self', ev))
    by exact H.
  destruct (saving_copies_or_renames _ _ _ _ _ _ _ _ _ _ _ _ H
              (or_intror Hin))
    as (Hfree & _ & _ & Hq & Hf).
  assert (Hne : (strip text ".json" ++ ".json")%string
                <> (preset ++ ".json")%string).
  { intros E. apply append_json_inj in E.
    apply (name_free allowed dir _ Hfree preset Hp). now rewrite E. }
  unfold CreatePreset_saving in Hmode. rewrite Hfree in Hmode.
  simpl in Hmode.
  destruct (String.eqb_spec (FileName.setting (filename self))
                            (preset ++ ".json")%string) as [E|N];
    injection Hmode as <- <-; simpl; repeat split; auto; try congruence.
Qed.

Lemma X14_rename_keeps_loaded_name_witness :
  FileName.setting
    (filename (set_filename_setting ex_cfg "sprint.json")) <> "default.json".
Proof.
  refine (proj1 (X14_rename_keeps_loaded_name ex_allowed ex_strip ex_dir 9%nat
                   "default" "sprint" ex_cfg
                   (set_filename_setting ex_cfg "sprint.json")
                   [UiRename "settings/default.json" "settings/sprint.json";
                    UiReloadPreset; UiAccept]
                   "settings/default.json" "settings/sprint.json" _ _ _)).
  - vm_compute. auto.
  - vm_compute. reflexivity.
  - simpl. auto.
Defined.

(** X15.  Creating a preset on an engine at rest, under a name that no
    listed preset bears in any letter case, the names being ASCII (so that
    Python's [lower] folds what [lower] folds here): the dialog makes the
    new name the loaded one and starts the one thread, which is to write
    the dictionary [cfg.create] has just made to the new file in the
    settings folder, at once; then it waits for the flag. *)
Theorem X15_create_saves_new_preset :
  forall (allowed_filename : string -> bool)
         (strip_filename_extension : string -> string -> string)
         dir fresh edit_mode source_filename text self,
    let entered_filename := strip_filename_extension text ".json" in
    let new_filename := (entered_filename ++ ".json")%string in
    let settings := FilePath.settings (path self) in
    allowed_filename entered_filename = true ->
    is_ascii entered_filename = true ->
    forallb is_ascii (preset_list allowed_filename dir) = true ->
    existsb (fun preset => lower entered_filename =? lower preset)
            (preset_list allowed_filename dir) = false ->
    (edit_mode =? "duplicate") = false ->
    (edit_mode =? "rename") = false ->
    is_saving self = false ->
    _save_queue self = [] ->
    exists self',
      creating allowed_filename strip_filename_extension dir fresh edit_mode
               source_filename text self
      = Returned (self',
                  [UiEngine (EvThreadStart new_filename settings (Some fresh));
                   UiWaitSaving; UiRefreshList; UiAccept])
      /\ FileName.setting (filename self') = new_filename
      /\ Preset.setting (user self') = Some fresh
      /\ _save_queue self' = [(new_filename, (settings, Some fresh))]
      /\ is_saving self' = true
      /\ _save_delay self' = 0.
Proof.
  intros allowed strip dir fresh mode source text self entered new_filename
         settings Ha _ _ Hfree Hd Hr F Q.
  unfold creating, CreatePreset_saving. fold entered.
  rewrite Ha, Hfree, Hd, Hr.
  unfold save, save_enqueue, save_trigger. simpl.
  rewrite Q. simpl. rewrite F. simpl. rewrite String.eqb_refl.
  eexists. split; [reflexivity|]. simpl. auto.
Qed.

Lemma X15_create_saves_new_preset_witness :
  exists self',
    creating ex_allowed ex_strip ex_dir 9%nat "" "" "sprint" ex_cfg
    = Returned (self',
                [UiEngine (EvThreadStart "sprint.json" "settings/"
                                         (Some 9%nat));
                 UiWaitSaving; UiRefreshList; UiAccept])
    /\ FileName.setting (filename self') = "sprint.json".
Proof.
  destruct (X15_create_saves_new_preset ex_allowed ex_strip ex_dir 9%nat
              "" "" "sprint" ex_cfg eq_refl eq_refl eq_refl eq_refl eq_refl
              eq_refl eq_refl eq_refl) as (self' & H & Hn & _).
  exists self'. split; [exact H | exact Hn].
Defined.

(** * The primary preset tags *)

Lemma save_trigger_path delay s s' ev :
  save_trigger delay s = Returned (s', ev) -> path s' = path s.
Proof.
  unfold save_trigger. intros H.
  destruct (_save_queue s) as [|[k [fp dd]] q] eqn:Q;
    [now injection H as <- _|].
  simpl in H. rewrite Q in H. simpl in H. rewrite String.eqb_refl in H.
  destruct (is_saving s); simpl in H; now injection H as <- _.
Qed.

Lemma save_config_queued delay self :
  exists self' ev,
    save delay "config" false self = Returned (self', ev)
    /\ queue_mem (FileName.config (filename self)) (_save_queue self') = true
    /\ path self' = path self
    /\ filename self' = filename self.
Proof.
  set (fname := FileName.config (filename self)).
  set (task := (FilePath.config (path self), Preset.config (user self))).
  set (s1 := if queue_mem fname (_save_queue self) then self
             else set_save_queue self (_save_queue self ++ [(fname, task)])).
  assert (Henq : save_enqueue "config" false self = Returned (s1, [])).
  { unfold save_enqueue. simpl. fold fname. subst s1.
    destruct (queue_mem fname (_save_queue self)) eqn:M; simpl;
      [reflexivity|].
    now rewrite queue_set_fresh by exact M. }
  assert (Hmem : queue_mem fname (_save_queue s1) = true).
  { subst s1. destruct (queue_mem fname (_save_queue self)) eqn:M; simpl;
      [exact M|].
    apply queue_get_mem. rewrite queue_get_app_fresh by exact M.
    discriminate. }
  assert (Hp : path s1 = path self /\ filename s1 = filename self).
  { subst s1. destruct (queue_mem fname (_save_queue self)); auto. }
  destruct (save_trigger_spec delay s1) as (s2 & ev2 & H2 & Hq2 & Hf2 & _).
  exists s2, ev2. split; [unfold save; now rewrite Henq, H2|].
  split; [now rewrite Hq2|].
  destruct Hp as [Hp1 Hp2]. split; [|congruence].
  rewrite <- Hp1. exact (save_trigger_path delay s1 s2 ev2 H2).
Qed.

Lemma dict_get_set k v d : dict_get k (dict_set k v d) = v.
Proof.
  induction d as [|[k' v'] d IH]; simpl.
  - now rewrite String.eqb_refl.
  - destruct (String.eqb_spec k' k) as [E|N]; simpl.
    + now rewrite String.eqb_refl.
    + destruct (String.eqb_spec k' k); [contradiction | exact IH].
Qed.

Lemma dict_get_set_other k k0 v d :
  k0 <> k -> dict_get k0 (dict_set k v d) = dict_get k0 d.
Proof.
  intros N. induction d as [|[k' v'] d IH]; simpl.
  - destruct (String.eqb_spec k k0); [now subst | reflexivity].
  - destruct (String.eqb_spec k' k) as [E|N']; simpl.
    + subst k'. destruct (String.eqb_spec k k0); [now subst | reflexivity].
    + destruct (String.eqb_spec k' k0); [reflexivity | exact IH].
Qed.

Lemma dict_set_in k v d : In (k, v) (dict_set k v d).
Proof.
  induction d as [|[k' v'] d IH]; simpl; [now left|].
  destruct (k' =? k); [now left | now right].
Qed.

Lemma dict_set_keys k v d :
  In k (map fst d) -> map fst (dict_set k v d) = map fst d.
Proof.
  induction d as [|[k' v'] d IH]; simpl; [intros []|].
  destruct (String.eqb_spec k' k) as [E|N]; simpl.
  - now subst.
  - intros [E|Hin]; [contradiction|]. now rewrite IH.
Qed.

Lemma tag_shown sim preset d :
  In (sim, preset) d -> In (sim, sim =? "RF2") (PrimaryPresetTag preset d).
Proof.
  intros Hin. unfold PrimaryPresetTag.
  apply (in_map (fun e : string * string => (fst e, fst e =? "RF2"))
                _ (sim, preset)).
  apply filter_In. split; [exact Hin|]. simpl. apply String.eqb_refl.
Qed.

Lemma clear_tags_keys selected d :
  map fst (fst (clear_tags selected d)) = map fst d.
Proof.
  induction d as [|[sim primary] d IH]; simpl; [reflexivity|].
  destruct (clear_tags selected d) as [r found]. simpl in IH.
  destruct (selected =? primary); simpl; now rewrite IH.
Qed.

Lemma clear_tags_gone selected d :
  selected <> "" -> PrimaryPresetTag selected (fst (clear_tags selected d)) = [].
Proof.
  intros Hne. unfold PrimaryPresetTag.
  induction d as [|[sim primary] d IH]; simpl; [reflexivity|].
  destruct (clear_tags selected d) as [r found]. simpl in IH.
  destruct (String.eqb_spec selected primary) as [E|N]; simpl.
  - destruct (String.eqb_spec selected ""); [contradiction | exact IH].
  - destruct (String.eqb_spec selected primary); [contradiction | exact IH].
Qed.

Lemma clear_tags_others selected d q :
  q <> selected -> q <> "" ->
  PrimaryPresetTag q (fst (clear_tags selected d)) = PrimaryPresetTag q d.
Proof.
  intros Hq Hne. unfold PrimaryPresetTag.
  induction d as [|[sim primary] d IH]; simpl; [reflexivity|].
  destruct (clear_tags selected d) as [r found]. simpl in IH.
  destruct (String.eqb_spec selected primary) as [E|N]; simpl.
  - subst primary.
    destruct (String.eqb_spec q ""); [contradiction|].
    destruct (String.eqb_spec q selected); [contradiction | exact IH].
  - destruct (q =? primary); simpl; now rewrite IH.
Qed.

Lemma clear_tags_found selected d :
  (snd (clear_tags selected d) = false ->
   PrimaryPresetTag selected d = [] /\ fst (clear_tags selected d) = d)
  /\ (snd (clear_tags selected d) = true ->
      PrimaryPresetTag selected d <> []).
Proof.
  unfold PrimaryPresetTag.
  induction d as [|[sim primary] d IH]; simpl; [split; [auto | discriminate]|].
  destruct (clear_tags selected d) as [r found]. simpl in IH.
  destruct IH as [IH1 IH2].
  destruct (selected =? primary); simpl; split; try discriminate.
  - intros F. destruct (IH1 F) as [H1 H2]. split; [exact H1 | now rewrite H2].
  - exact IH2.
Qed.

(** X16.  "Clear Primary Tag" on a preset with a name: afterwards the
    preset carries no tag, the tags of the other presets and the sims
    known are as before, nothing at all happens when the preset had no
    tag, and otherwise the global configuration is queued for saving and
    the list refreshed. *)
Theorem X16_clear_primary_tag :
  forall selected_preset_name delete_yes file_exists d self,
    selected_preset_name <> "" ->
    exists self' d' ev,
      open_context_menu true (Some "Clear Primary Tag") selected_preset_name
                        delete_yes file_exists d self
      = Returned (self', d', ev)
      /\ PrimaryPresetTag selected_preset_name d' = []
      /\ map fst d' = map fst d
      /\ (forall q, q <> selected_preset_name -> q <> "" ->
                    PrimaryPresetTag q d' = PrimaryPresetTag q d)
      /\ (PrimaryPresetTag selected_preset_name d = [] ->
          self' = self /\ d' = d /\ ev = [])
      /\ (PrimaryPresetTag selected_preset_name d <> [] ->
          queue_mem (FileName.config (filename self)) (_save_queue self')
          = true
          /\ In UiRefreshList ev).
Proof.
  intros selected delete_yes file_exists d self Hne.
  unfold open_context_menu. simpl.
  pose proof (clear_tags_gone selected d Hne) as Hgone.
  pose proof (clear_tags_keys selected d) as Hkeys.
  pose proof (clear_tags_others selected d) as Hoth.
  pose proof (clear_tags_found selected d) as [Hno Hyes].
  destruct (clear_tags selected d) as [d' found]. simpl in *.
  destruct found.
  - unfold save_config_refresh.
    destruct (save_config_queued 66 self) as (s' & ev & Hs & Hm & _).
    rewrite Hs. exists s', d', (map UiEngine ev ++ [UiRefreshList]).
    split; [reflexivity|]. do 3 (split; [assumption|]). split.
    + intros E. now destruct (Hyes eq_refl).
    + intros _. split; [exact Hm|]. apply in_or_app. right. now left.
  - destruct (Hno eq_refl) as [Hnone Hsame].
    exists self, d', []. split; [reflexivity|].
    do 3 (split; [assumption|]). split.
    + intros _. auto.
    + intros C. contradiction.
Qed.

Lemma X16_clear_primary_tag_witness :
  exists self' ev,
    open_context_menu true (Some "Clear Primary Tag") "race" false false
                      ex_tags ex_cfg
    = Returned (self', [("LMU", ""); ("RF2", "")], ev)
    /\ PrimaryPresetTag "race" [("LMU", ""); ("RF2", "")] = [].
Proof.
  assert (Hne : "race" <> "") by discriminate.
  destruct (X16_clear_primary_tag "race" false false ex_tags ex_cfg Hne)
    as (self' & d' & ev & H & _).
  exists self', ev. split; [|reflexivity].
  rewrite H. f_equal. f_equal. f_equal.
  vm_compute in H. now injection H as _ <- _.
Defined.

(** X17.  "Set Primary for LMU" and "Set Primary for RF2": the sim gets
    the selected preset, the other sims keep theirs, the preset shows the
    tag of the sim (in the second colour for RF2), the global
    configuration is queued for saving, and [get_primary_preset_name]
    answers with the preset's file name exactly when the name is allowed
    and the file exists. *)
Theorem X17_set_primary_preset :
  forall (allowed_filename : string -> bool) (path_exists : string -> bool)
         sim_name selected_preset_name delete_yes file_exists d self,
    sim_name = "LMU" \/ sim_name = "RF2" ->
    exists self' d' ev,
      open_context_menu true (Some ("Set Primary for " ++ sim_name)%string)
                        selected_preset_name delete_yes file_exists d self
      = Returned (self', d', ev)
      /\ dict_get sim_name d' = selected_preset_name
      /\ (forall other, other <> sim_name ->
                        dict_get other d' = dict_get other d)
      /\ In (sim_name, sim_name =? "RF2")
            (PrimaryPresetTag selected_preset_name d')
      /\ queue_mem (FileName.config (filename self)) (_save_queue self') = true
      /\ In UiRefreshList ev
      /\ get_primary_preset_name allowed_filename path_exists d' self' sim_name
         = (if allowed_filename selected_preset_name
               && path_exists (FilePath.settings (path self)
                               ++ selected_preset_name ++ ".json")%string
            then (selected_preset_name ++ ".json")%string
            else "").
Proof.
  intros allowed path_exists sim selected delete_yes file_exists d self Hsim.
  assert (H : open_context_menu true
                (Some ("Set Primary for " ++ sim)%string) selected
                delete_yes file_exists d self
              = save_config_refresh (dict_set sim selected d) self)
    by (destruct Hsim as [-> | ->]; reflexivity).
  rewrite H. unfold save_config_refresh.
  destruct (save_config_queued 66 self) as (s' & ev & Hs & Hm & Hp & _).
  rewrite Hs. exists s', (dict_set sim selected d),
                (map UiEngine ev ++ [UiRefreshList]).
  split; [reflexivity|].
  split; [apply dict_get_set|].
  split; [intros other Ho; now apply dict_get_set_other|].
  split; [apply tag_shown, dict_set_in|].
  split; [exact Hm|].
  split; [apply in_or_app; right; now left|].
  unfold get_primary_preset_name. rewrite dict_get_set, Hp.
  destruct (allowed selected); simpl; reflexivity.
Qed.

Lemma X17_set_primary_preset_witness :
  exists self' ev,
    open_context_menu true (Some "Set Primary for RF2") "Quali" false false
                      ex_tags ex_cfg
    = Returned (self', [("LMU", "race"); ("RF2", "Quali")], ev)
    /\ In ("RF2", true)
          (PrimaryPresetTag "Quali" [("LMU", "race"); ("RF2", "Quali")]).
Proof.
  destruct (X17_set_primary_preset ex_allowed (fun _ => true) "RF2" "Quali"
              false false ex_tags ex_cfg (or_intror eq_refl))
    as (self' & d' & ev & H & _).
  change ("Set Primary for " ++ "RF2")%string with "Set Primary for RF2" in H.
  exists self', ev. split; [|simpl; auto].
  rewrite H. f_equal. f_equal. f_equal.
  vm_compute in H. now injection H as _ <- _.
Defined.

(** * The brake wear widget *)

Lemma length_lstrip_dot s :
  (String.length (lstrip_dot s) <= String.length s)%nat.
Proof.
  induction s as [|c s IH]; simpl; [lia|].
  destruct (Ascii.eqb c "."); simpl; lia.
Qed.

Lemma length_rstrip_dot s :
  (String.length (rstrip_dot s) <= String.length s)%nat.
Proof.
  induction s as [|c s IH]; simpl; [lia|].
  destruct (rstrip_dot s); [destruct (Ascii.eqb c ".")|]; simpl in *; lia.
Qed.

Lemma length_substring_0 n : forall s,
  (String.length (substring 0 n s) <= n)%nat.
Proof.
  induction n as [|n IH]; intros [|c s]; simpl; try lia.
  specialize (IH s). lia.
Qed.

Lemma lstrip_dot_head s :
  match lstrip_dot s with
  | EmptyString => True
  | String c _ => Ascii.eqb c "." = false
  end.
Proof.
  induction s as [|c s IH]; simpl; [exact I|].
  destruct (Ascii.eqb c ".") eqn:E; [exact IH | exact E].
Qed.

Lemma rstrip_dot_head s :
  match s with
  | EmptyString => True
  | String c _ =>
      Ascii.eqb c "." = false ->
      exists r, rstrip_dot s = String c r
  end.
Proof.
  destruct s as [|c s]; [exact I|]. intros E. simpl.
  destruct (rstrip_dot s); [rewrite E|]; eexists; reflexivity.
Qed.

Lemma substring_0_0 s : substring 0 0 s = "".
Proof. now destruct s. Qed.

Lemma no_dot_cons c s :
  no_dot (String c s) = true -> Ascii.eqb c "." = false /\ no_dot s = true.
Proof.
  simpl. destruct (Ascii.eqb c "."); simpl; [discriminate | auto].
Qed.

Ltac split_dots :=
  repeat match goal with
         | H : no_dot (String _ _) = true |- _ =>
             apply no_dot_cons in H; destruct H
         end.

(** X18.  The text of a brake value.  It never has more than four
    characters and never starts with a dot.  For a number rendered with
    two decimals: up to two characters before the point, the first four
    characters are shown as they are; with three, the integer part alone,
    the point cut off; with four or more, the first four characters of the
    integer part, so the rest of the number is lost. *)
Theorem X18_format_num :
  forall int_part frac,
    no_dot int_part = true ->
    no_dot frac = true ->
    int_part <> "" ->
    String.length frac = 2%nat ->
    let rendered := (int_part ++ "." ++ frac)%string in
    (String.length (format_num rendered) <= 4)%nat
    /\ (forall c r, format_num rendered = String c r ->
                    Ascii.eqb c "." = false)
    /\ ((String.length int_part <= 2)%nat ->
        format_num rendered = substring 0 4 rendered)
    /\ (String.length int_part = 3%nat -> format_num rendered = int_part)
    /\ ((4 <= String.length int_part)%nat ->
        format_num rendered = substring 0 4 int_part).
Proof.
  intros int_part frac Hi Hf Hne Hlen rendered.
  split; [|split; [|split; [|split]]].
  - unfold format_num, strip_dot.
    pose proof (length_rstrip_dot (lstrip_dot (substring 0 4 rendered))).
    pose proof (length_lstrip_dot (substring 0 4 rendered)).
    pose proof (length_substring_0 4 rendered). lia.
  - unfold format_num, strip_dot. intros c r E.
    pose proof (lstrip_dot_head (substring 0 4 rendered)) as Hh.
    pose proof (rstrip_dot_head (lstrip_dot (substring 0 4 rendered))) as Hr.
    destruct (lstrip_dot (substring 0 4 rendered)) as [|c' s'];
      [discriminate E|].
    destruct (Hr Hh) as (r' & Er). rewrite Er in E. now injection E as <- _.
  - intros Hl. subst rendered.
    destruct int_part as [|a [|b [|c s]]]; simpl in Hl; try lia;
      try contradiction;
      destruct frac as [|x [|y [|z t]]]; try discriminate Hlen;
      split_dots;
      unfold format_num, strip_dot; simpl;
      repeat match goal with
             | H : Ascii.eqb _ "." = false |- _ => rewrite H; simpl
             end; reflexivity.
  - intros Hl. subst rendered.
    destruct int_part as [|a [|b [|c [|e s]]]]; simpl in Hl; try lia.
    split_dots.
    unfold format_num, strip_dot. simpl.
    repeat match goal with
           | H : Ascii.eqb _ "." = false |- _ => rewrite H; simpl
           end.
    rewrite ?substring_0_0. simpl.
    repeat match goal with
           | H : Ascii.eqb _ "." = false |- _ => rewrite H; simpl
           end.
    reflexivity.
  - intros Hl. subst rendered.
    destruct int_part as [|a [|b [|c [|e s]]]]; simpl in Hl; try lia.
    split_dots.
    unfold format_num, strip_dot. simpl.
    repeat match goal with
           | H : Ascii.eqb _ "." = false |- _ => rewrite H; simpl
           end.
    rewrite ?substring_0_0. simpl.
    repeat match goal with
           | H : Ascii.eqb _ "." = false |- _ => rewrite H; simpl
           end.
    reflexivity.
Qed.

Lemma X18_format_num_witness :
  format_num "123.45" = "123" /\ format_num "12345.67" = "1234".
Proof.
  assert (H3 : "123" <> "") by discriminate.
  assert (H5 : "12345" <> "") by discriminate.
  split.
  - destruct (X18_format_num "123" "45" eq_refl eq_refl H3 eq_refl)
      as (_ & _ & _ & Hthree & _).
    exact (Hthree eq_refl).
  - destruct (X18_format_num "12345" "67" eq_refl eq_refl H5 eq_refl)
      as (_ & _ & _ & _ & Hmore).
    apply Hmore. simpl. lia.
Defined.

(** * The preset list and the file system *)

Lemma lower_length s : String.length (lower s) = String.length s.
Proof. induction s as [|c s IH]; simpl; [reflexivity | now rewrite IH]. Qed.

Lemma lower_substring : forall n m s,
  lower (substring n m s) = substring n m (lower s).
Proof.
  induction n as [|n IHn]; intros m s.
  - revert s. induction m as [|m IHm]; intros [|c s]; simpl; try reflexivity.
    now rewrite IHm.
  - destruct s as [|c s]; simpl; [reflexivity | apply IHn].
Qed.

(** A string is what comes before a position followed by what comes
    after. *)
Lemma substring_split : forall k s,
  (k <= String.length s)%nat ->
  s = (substring 0 k s ++ substring k (String.length s - k) s)%string.
Proof.
  induction k as [|k IH]; intros s Hk.
  - rewrite Nat.sub_0_r. rewrite substring_0_all.
    destruct s; reflexivity.
  - destruct s as [|c s]; simpl in Hk; [lia|].
    simpl. f_equal. apply IH. lia.
Qed.

(** What [_filename[:-5]] cuts off a name that passed line 319: its last
    five characters, which spell [.json] in some letter case. *)
Lemma strip_ext_extension name :
  endswith ".json" (lower name) = true ->
  exists ext,
    name = (strip_ext name ++ ext)%string
    /\ String.length ext = 5%nat
    /\ lower ext = ".json".
Proof.
  unfold endswith, strip_ext. rewrite lower_length. simpl String.length.
  intros H. apply andb_true_iff in H as [Hlen Hsuf].
  apply Nat.leb_le in Hlen. apply String.eqb_eq in Hsuf.
  exists (substring (String.length name - 5) 5 name).
  split; [|split].
  - pose proof (substring_split (String.length name - 5) name ltac:(lia))
      as H.
    replace (String.length name - (String.length name - 5))%nat with 5%nat
      in H by lia.
    exact H.
  - assert (G : forall n s, (n + 5 <= String.length s)%nat ->
                            String.length (substring n 5 s) = 5%nat).
    { induction n as [|n IHn]; intros s Hs.
      - destruct s as [|c1 [|c2 [|c3 [|c4 [|c5 s]]]]]; simpl in Hs; try lia.
        simpl. destruct s; reflexivity.
      - destruct s as [|c s]; simpl in Hs; [lia|]. simpl. apply IHn. lia. }
    apply G. lia.
  - now rewrite lower_substring.
Qed.

Lemma getmtimes_spec : forall l,
  if existsb unreadable l then getmtimes l = None
  else exists dir,
      getmtimes l = Some dir
      /\ map (fun f : string * Z => (fst f, Some (snd f))) dir
         = filter (fun f : string * option Z =>
                     endswith ".json" (lower (fst f))) l.
Proof.
  induction l as [|[name mtime] l IH]; simpl.
  - exists []. split; reflexivity.
  - unfold unreadable at 1. simpl.
    destruct (endswith ".json" (lower name)) eqn:E; simpl.
    + destruct mtime as [t|]; simpl.
      * destruct (existsb unreadable l).
        -- now rewrite IH.
        -- destruct IH as (dir & -> & Hd). exists ((name, t) :: dir).
           split; [reflexivity|]. simpl. now rewrite Hd.
      * reflexivity.
    + exact IH.
Qed.

(** C10 as the code has it.  When the folder cannot be listed, or the time
    stamp of one of its names ending with [.json] (in any letter case)
    cannot be read, the property raises [OSError].  Otherwise it returns a
    list that is not empty: with [dir] the names ending with [.json] and
    their time stamps, in the order listed, it is ["default"] when none of
    them has an allowed name, and else the allowed names in descending
    order of modification time, each without its last five characters,
    which spell [.json] in some letter case. *)
Theorem C10_preset_list_of_folder :
  forall (allowed_filename : string -> bool) (folder : Folder),
    match folder with
    | None => Setting_preset_list allowed_filename folder = Raised "OSError"
    | Some l =>
        if existsb unreadable l
        then Setting_preset_list allowed_filename folder = Raised "OSError"
        else
          exists dir pl,
            map (fun f : string * Z => (fst f, Some (snd f))) dir
            = filter (fun f : string * option Z =>
                        endswith ".json" (lower (fst f))) l
            /\ Setting_preset_list allowed_filename folder = Returned pl
            /\ pl <> []
            /\ (forall f, In f dir ->
                  exists ext,
                    fst f = (strip_ext (fst f) ++ ext)%string
                    /\ String.length ext = 5%nat
                    /\ lower ext = ".json")
            /\ (forallb (fun f => negb (allowed_filename (strip_ext (fst f))))
                        dir = true ->
                pl = ["default"])
            /\ (existsb (fun f => allowed_filename (strip_ext (fst f))) dir
                = true ->
                exists l' : list Entry,
                  Permutation l'
                    (map (fun f => (snd f, strip_ext (fst f)))
                         (filter (fun f => allowed_filename
                                             (strip_ext (fst f))) dir))
                  /\ StronglySorted newer_first l'
                  /\ pl = map snd l')
    end.
Proof.
  intros allowed [l|]; [|reflexivity].
  pose proof (getmtimes_spec l) as Hg. unfold Setting_preset_list.
  destruct (existsb unreadable l); [now rewrite Hg|].
  destruct Hg as (dir & -> & Hdir).
  assert (Hjson : forall f, In f dir ->
                            endswith ".json" (lower (fst f)) = true).
  { intros f Hf.
    assert (Hin : In (fst f, Some (snd f))
                     (filter (fun f : string * option Z =>
                                endswith ".json" (lower (fst f))) l)).
    { rewrite <- Hdir.
      apply (in_map (fun f : string * Z => (fst f, Some (snd f)))).
      exact Hf. }
    apply filter_In in Hin as [_ H]. exact H. }
  assert (Hpre : forall f, In f dir ->
                           is_preset allowed f
                           = allowed (strip_ext (fst f))).
  { intros f Hf. unfold is_preset. now rewrite (Hjson f Hf). }
  assert (Hfil : filter (is_preset allowed) dir
                 = filter (fun f => allowed (strip_ext (fst f))) dir).
  { clear - Hpre. induction dir as [|f dir IH]; [reflexivity|].
    simpl. rewrite (Hpre f (or_introl eq_refl)).
    rewrite IH; [reflexivity|]. intros g Hg. apply Hpre. now right. }
  exists dir, (preset_list allowed dir).
  split; [exact Hdir|]. split; [reflexivity|]. split; [|split; [|split]].
  - destruct (preset_list_cases allowed dir) as [[_ E]|[Hne E]]; rewrite E.
    + discriminate.
    + intros C. apply map_eq_nil in C. now apply Hne.
  - intros f Hf. apply strip_ext_extension. now apply Hjson.
  - intros Hnone. apply preset_list_none.
    rewrite forallb_forall in *. intros f Hf.
    rewrite (Hpre f Hf). now apply Hnone.
  - intros Hsome.
    apply existsb_exists in Hsome as (f0 & Hf0 & Ha0).
    exists (filter (fun e : Entry => allowed (snd e))
                   (sorted_reverse (gen_cfg_list dir))).
    split; [|split].
    + rewrite <- Hfil.
      rewrite <- (filter_perm _ _ _ (sorted_reverse_perm _)).
      unfold gen_cfg_list, is_preset. clear.
      induction dir as [|f dir IH]; simpl; [constructor|].
      destruct (endswith ".json" (lower (fst f))); simpl; [|exact IH].
      destruct (allowed (strip_ext (fst f))); [now constructor | exact IH].
    + apply filter_sorted, sorted_reverse_sorted.
    + destruct (preset_list_cases allowed dir) as [[E _]|[_ E]];
        [|exact E].
      exfalso.
      assert (Hin : In (snd f0, strip_ext (fst f0))
                       (filter (fun e : Entry => allowed (snd e))
                               (sorted_reverse (gen_cfg_list dir)))).
      { apply valid_entries. exists f0. rewrite (Hpre f0 Hf0). auto. }
      rewrite E in Hin. destruct Hin.
Qed.

(** C10 as stated fails where the file system does: with the folder
    missing, and with a preset whose file vanished after the listing,
    nothing is returned. *)
Lemma C10_oserror_counterexample :
  Setting_preset_list ex_allowed None = Raised "OSError"
  /\ Setting_preset_list ex_allowed
       (Some [("race.json", Some 10); ("gone.json", None)])
     = Raised "OSError"
  /\ Setting_preset_list ex_allowed
       (Some [("race.json", Some 10); ("notes.txt", None);
              ("Quali.JSON", Some 30)])
     = Returned ["Quali"; "race"].
Proof. repeat split. Qed.

(** * One cycle for each queued file *)

Lemma backups_app a b : backups (a ++ b) = backups a ++ backups b.
Proof. unfold backups. apply flat_map_app. Qed.

Lemma writes_of_app k a b :
  writes_of k (a ++ b) = (writes_of k a + writes_of k b)%nat.
Proof. unfold writes_of. now rewrite filter_app, length_app. Qed.

Lemma sleeps_files n k :
  backups (repeat (EvSleep 10) n) = []
  /\ writes_of k (repeat (EvSleep 10) n) = 0%nat.
Proof. induction n as [|n [IH1 IH2]]; split; auto. Qed.

(** The attempts write the thread's own file and no other, and make no
    backup. *)
Lemma attempt_loop_files verify d fn fp k n : forall call a,
  let ev := snd (attempt_loop n verify call a d fn fp) in
  backups ev = []
  /\ writes_of k ev = if fn =? k then count_writes ev else 0%nat.
Proof.
  induction n as [|n IH]; intros call a; simpl.
  - destruct (0 <? a)%Z; simpl; destruct (fn =? k); auto.
  - destruct (0 <? a)%Z; [|simpl; destruct (fn =? k); auto].
    destruct (verify call).
    + unfold writes_of, count_writes. simpl.
      destruct (fn =? k); auto.
    + specialize (IH (S call) (a - 1)%Z).
      destruct (attempt_loop n verify (S call) (a - 1) d fn fp) as [a' ev'].
      simpl in *. destruct IH as [IH1 IH2]. split; [exact IH1|].
      unfold writes_of, count_writes in *. simpl.
      destruct (fn =? k); simpl; now rewrite IH2.
Qed.

(** The calls of one run of the thread, in order. *)
Lemma saving_events verify timer fn fp d self :
  let M := max_attempts_of self in
  exists a att,
    attempt_loop (Z.to_nat M) verify 0 M d fn fp = (a, att)
    /\ snd (__saving verify timer fn fp d self)
       = repeat (EvSleep 10) (Z.to_nat (_save_delay self))
         ++ ([EvCreateBackup fn fp]
             ++ att
             ++ (if (0 <? a)%Z then [] else [EvRestoreBackup fn fp])
             ++ [EvLogInfo MSG_RESULT
                   [AStr fn;
                    AStr (if (0 <? a)%Z then "saved" else "failed saving");
                    AInt timer; AInt (M - a); AInt a]]
             ++ [EvDeleteBackup fn fp])
         ++ snd (saving_finish fn (fst (delay_wait self))).
Proof.
  intros M.
  destruct (attempt_loop (Z.to_nat M) verify 0 M d fn fp) as [a att] eqn:E.
  exists a, att. split; [reflexivity|].
  rewrite saving_unfold. cbn [snd]. rewrite delay_wait_events.
  f_equal. f_equal. unfold saving_cycle, attempt_all. fold M. rewrite E.
  destruct (0 <? a)%Z; reflexivity.
Qed.

(** One run of the thread: one backup, of its own file; writes of its own
    file only, at least one and at most [max_attempts]; one when the first
    verification succeeds, [max_attempts] when all fail. *)
Lemma saving_files verify timer fn fp d self :
  let M := max_attempts_of self in
  let ev := snd (__saving verify timer fn fp d self) in
  backups ev = [(fn, fp)]
  /\ (forall k, writes_of k ev = if fn =? k then count_writes ev else 0%nat)
  /\ (1 <= count_writes ev <= Z.to_nat M)%nat
  /\ (verify 0%nat = true -> count_writes ev = 1%nat)
  /\ ((forall j, (j < Z.to_nat M)%nat -> verify j = false) ->
      count_writes ev = Z.to_nat M).
Proof.
  intros M ev.
  pose proof (max_attempts_of_ge3 self) as HM. fold M in HM.
  destruct (saving_events verify timer fn fp d self) as (a & att & E & Hev).
  fold M in E, Hev. fold ev in Hev.
  pose proof (attempt_loop_any verify d fn fp (Z.to_nat M) 0 M
                ltac:(lia) ltac:(lia)) as Hany.
  rewrite E in Hany. simpl in Hany. destruct Hany as (Hb & Hw & Hz & _).
  assert (Hfin : forall k,
             backups (snd (saving_finish fn (fst (delay_wait self)))) = []
             /\ writes_of k (snd (saving_finish fn (fst (delay_wait self))))
                = 0%nat
             /\ count_writes (snd (saving_finish fn (fst (delay_wait self))))
                = 0%nat).
  { intros k.
    destruct (saving_finish_events fn (fst (delay_wait self)))
      as [->|(k' & fp' & dd & ->)]; repeat split. }
  assert (Hcw : count_writes ev = count_writes att).
  { rewrite Hev, !count_writes_app, count_writes_sleeps.
    destruct (Hfin fn) as (_ & _ & ->).
    destruct (0 <? a)%Z; unfold count_writes; simpl; lia. }
  split; [|split; [|split; [|split]]].
  - rewrite Hev, !backups_app.
    destruct (sleeps_files (Z.to_nat (_save_delay self)) fn) as [-> _].
    destruct (Hfin fn) as (-> & _).
    pose proof (attempt_loop_files verify d fn fp fn (Z.to_nat M) 0 M) as Hf.
    rewrite E in Hf. simpl in Hf. destruct Hf as [-> _].
    destruct (0 <? a)%Z; reflexivity.
  - intros k. rewrite Hcw. rewrite Hev, !writes_of_app.
    destruct (sleeps_files (Z.to_nat (_save_delay self)) k) as [_ ->].
    destruct (Hfin k) as (_ & -> & _).
    pose proof (attempt_loop_files verify d fn fp k (Z.to_nat M) 0 M) as Hf.
    rewrite E in Hf. simpl in Hf. destruct Hf as [_ ->].
    destruct (0 <? a)%Z; destruct (fn =? k); unfold writes_of; simpl; lia.
  - rewrite Hcw, Hw. destruct (Z.ltb_spec 0 a); lia.
  - intros Hv. rewrite Hcw.
    pose proof (attempt_all_first_ok verify M d fn fp Hv ltac:(lia)) as Hok.
    unfold attempt_all in Hok. rewrite E in Hok.
    injection Hok as _ ->. reflexivity.
  - intros Hall. rewrite Hcw, Hw.
    assert (a = 0%Z) as ->.
    { apply Hz. intros j Hj. now apply Hall. }
    simpl. lia.
Qed.

Lemma save_keeps_max delay filetype next_task s s' ev :
  save delay filetype next_task s = Returned (s', ev) ->
  maximum_saving_attempts s' = maximum_saving_attempts s.
Proof.
  unfold save, save_enqueue. intros H.
  assert (G : forall s0 s1 ev1,
             save_trigger delay s0 = Returned (s1, ev1) ->
             maximum_saving_attempts s1 = maximum_saving_attempts s0).
  { clear. intros s0 s1 ev1 H. unfold save_trigger in H.
    destruct (_save_queue s0) as [|[k [fp dd]] q] eqn:Q;
      [now injection H as <- _|].
    simpl in H. rewrite Q in H. simpl in H. rewrite String.eqb_refl in H.
    destruct (is_saving s0); simpl in H; now injection H as <- _. }
  destruct (negb next_task).
  - destruct (FileName.getattr (filename s) filetype) as [fname|].
    + destruct (negb (queue_mem fname (_save_queue s))).
      * destruct (Preset.getattr (user s) filetype) as [dd|];
          [|discriminate].
        match type of H with
        | match save_trigger ?d ?s1 with _ => _ end = _ =>
            destruct (save_trigger d s1) as [[s2 ev2]|e] eqn:T;
            [|discriminate]
        end.
        injection H as <- _. now rewrite (G _ _ _ T).
      * destruct (save_trigger delay s) as [[s2 ev2]|e] eqn:T;
          [|discriminate].
        injection H as <- _. now rewrite (G _ _ _ T).
    + destruct (save_trigger delay s) as [[s2 ev2]|e] eqn:T;
        [|discriminate].
      injection H as <- _. now rewrite (G _ _ _ T).
  - destruct (save_trigger delay s) as [[s2 ev2]|e] eqn:T; [|discriminate].
    injection H as <- _. now rewrite (G _ _ _ T).
Qed.

Lemma saving_keeps_max verify timer fn fp d self :
  max_attempts_of (fst (__saving verify timer fn fp d self))
  = max_attempts_of self.
Proof.
  unfold max_attempts_of. f_equal.
  rewrite saving_unfold. cbn [fst].
  destruct (delay_wait_keeps self) as (_ & _ & _ & Hm). rewrite <- Hm.
  generalize (fst (delay_wait self)) as s. clear. intros s.
  unfold saving_finish. simpl.
  destruct (queue_pop fn (_save_queue s)) as [|e q]; [reflexivity|].
  destruct (save 0 "setting" true
              (set_is_saving (set_save_queue s (e :: q)) false))
    as [[s' ev]|exc] eqn:E; [|reflexivity].
  simpl. now rewrite (save_keeps_max _ _ _ _ _ _ E).
Qed.

(** The chain, with no request arriving while it runs.  The thread of the
    first queued task is run from its first statement, then the thread
    it starts, and so on.  Each queued file gets one cycle, in the order of
    the queue: the backups made are those of the queued files, one each;
    each file is written at least once and at most [max_attempts] times,
    once when its first verification succeeds; no other file is written;
    and at the end the queue is empty and [is_saving] false. *)
Lemma drain_without_requests verifies timers : forall n r fname fpath d rest self,
  _save_queue self = (fname, (fpath, d)) :: rest ->
  NoDup (queue_keys (_save_queue self)) ->
  (List.length rest < n)%nat ->
  exists self_end ev_end,
    run_threads n verifies timers r [(fname, (fpath, d))] self
    = Some (self_end, ev_end)
    /\ _save_queue self_end = []
    /\ is_saving self_end = false
    /\ backups ev_end = map file_of (_save_queue self)
    /\ (forall i k, nth_error (queue_keys (_save_queue self)) i = Some k ->
          (1 <= writes_of k ev_end <= Z.to_nat (max_attempts_of self))%nat
          /\ (verifies (r + i)%nat 0%nat = true ->
              writes_of k ev_end = 1%nat))
    /\ (forall k, ~ In k (queue_keys (_save_queue self)) ->
          writes_of k ev_end = 0%nat).
Proof.
  induction n as [|n IH]; intros r fname fpath d rest self Q Hnd Hlen; [lia|].
  simpl.
  destruct (saving_outcome (verifies r) (timers r) fname fpath d self)
    as (Hq & _ & He & Hne).
  destruct (saving_files (verifies r) (timers r) fname fpath d self)
    as (Hb & Hw & Hcw & Hone & _).
  pose proof (saving_keeps_max (verifies r) (timers r) fname fpath d self)
    as Hmax.
  destruct (__saving (verifies r) (timers r) fname fpath d self)
    as [self1 ev1]. simpl in *.
  rewrite Q in *. simpl in Hq, He, Hne, Hnd. rewrite String.eqb_refl in *.
  apply NoDup_cons_iff in Hnd as [Hnotin Hnd'].
  assert (Hself : forall k, In k (queue_keys rest) -> (fname =? k) = false).
  { intros k Hk. apply String.eqb_neq. intros ->. contradiction. }
  destruct rest as [|[k1 [p1 d1]] rest'].
  - destruct (He eq_refl) as [Hfl Hst]. rewrite Hst. simpl.
    rewrite run_threads_nil.
    exists self1, (ev1 ++ []). rewrite app_nil_r.
    split; [reflexivity|]. split; [exact Hq|]. split; [exact Hfl|].
    split; [exact Hb|]. split.
    + intros i k Hi. destruct i as [|[|i]]; simpl in Hi; try discriminate.
      injection Hi as <-. rewrite Hw, String.eqb_refl.
      rewrite Nat.add_0_r. split; [exact Hcw | exact Hone].
    + intros k Hk. rewrite Hw.
      destruct (String.eqb_spec fname k) as [->|_]; [|reflexivity].
      exfalso. apply Hk. now left.
  - destruct (Hne k1 (p1, d1) rest' eq_refl) as [Hfl Hst]. rewrite Hst.
    destruct (IH (S r) k1 p1 d1 rest' self1 Hq)
      as (s_end & ev_end & Hrun & H1 & H2 & H3 & H4 & H5).
    { rewrite Hq. exact Hnd'. }
    { simpl in Hlen. lia. }
    exists s_end, (ev1 ++ ev_end).
    split.
    { simpl. etransitivity; [|exact (f_equal
        (fun o => match o with
                  | Some (s0, ev') => Some (s0, ev1 ++ ev')
                  | None => None
                  end) Hrun)].
      reflexivity. }
    split; [exact H1|]. split; [exact H2|].
    rewrite Hq in H3, H4, H5. rewrite Hmax in H4.
    split; [rewrite backups_app, Hb, H3; reflexivity|]. split.
    + intros i k Hi. rewrite writes_of_app, Hw.
      destruct i as [|i]; simpl in Hi.
      * injection Hi as <-. rewrite String.eqb_refl, Nat.add_0_r.
        rewrite (H5 fname Hnotin). rewrite Nat.add_0_r.
        split; [exact Hcw | exact Hone].
      * rewrite (Hself k) by (eapply nth_error_In; exact Hi).
        replace (r + S i)%nat with (S r + i)%nat by lia.
        exact (H4 i k Hi).
    + intros k Hk. rewrite writes_of_app, Hw.
      destruct (String.eqb_spec fname k) as [->|_];
        [exfalso; apply Hk; now left|].
      apply H5. intros Hin. apply Hk. now right.
Qed.

(** * Draining the queue, with requests in between *)

Lemma flag_stays_up : forall acts sys sys',
  is_saving (cfg sys) = true ->
  forallb (fun th => dead (pc th)) (threads sys) = true ->
  sys_run acts sys = Some sys' ->
  is_saving (cfg sys') = true /\ threads sys' = threads sys.
Proof.
  induction acts as [|a acts IH]; intros sys sys' F D H; simpl in H.
  - injection H as <-. auto.
  - destruct (sys_do a sys) as [sys1|] eqn:E; [|discriminate].
    destruct (stuck_step a sys sys1 F D E) as (F1 & T1 & _).
    rewrite <- T1 in D.
    destruct (IH sys1 sys' F1 D H) as (F2 & T2).
    split; congruence.
Qed.

(** C5 fails on this schedule.  [config] and [classes] are requested; the
    thread of [config] saves, takes its file name out of the queue, clears
    the flag, finds [classes] waiting and enters the chained call, where it
    reads the flag as false (line 367).  Before it sets the flag (line
    368), [classes] is requested again: the request starts a thread, which
    saves [classes.json], empties the queue and clears the flag.  The
    first thread then sets [is_saving] and fails on the queue entry that
    is gone (line 369).  Every queued category has been processed, each
    file backed up and written once, the queue is empty, and [is_saving]
    is true, with no thread left to clear it: it is true ever after. *)
Theorem C5_flag_up_after_drain :
  exists st,
    reachable (sys_init ex_cfg) st
    /\ backups (trace st)
       = [("config.json", "global/"); ("classes.json", "settings/")]
    /\ writes_of "config.json" (trace st) = 1%nat
    /\ writes_of "classes.json" (trace st) = 1%nat
    /\ In (EvDeleteBackup "classes.json" "settings/") (trace st)
    /\ _save_queue (cfg st) = []
    /\ is_saving (cfg st) = true
    /\ map pc (threads st) = [Crashed "KeyError"; Finished]
    /\ forall acts st',
         sys_run acts st = Some st' -> is_saving (cfg st') = true.
Proof.
  eexists.
  split; [exists stuck_schedule; vm_compute; reflexivity|].
  do 3 (split; [vm_compute; reflexivity|]).
  split; [vm_compute; tauto|].
  do 3 (split; [vm_compute; reflexivity|]).
  intros acts st' H.
  refine (proj1 (flag_stays_up acts _ st' _ _ H)); vm_compute; reflexivity.
Qed.

(** * Coalescing, whatever the verifications answer *)

(** C2 as the code has it.  Take a burst of calls [save(filetype=C)] whose
    first call finds C's file name [fname] not queued, the entry of
    [fname] staying in the queue between the calls.  After the burst the
    queue has exactly one entry keyed by [fname], and it holds the file
    path and the dictionary captured by the first call.  If nothing else
    touches queue or flag between the calls, the task is the last of the
    queue; the burst starts one thread, for that task, when it begins on
    an engine at rest, and none when it begins with [is_saving] true.
    When the thread of the first queued task then runs from its first
    statement and the threads chained to it one after the other, no
    request arriving meanwhile, the file is backed up once, after the
    files queued before it, and written at least once and at most
    [max_attempts] times: once when its first verification succeeds. *)
Theorem C2_coalescing_one_cycle :
  forall (R : Setting -> Setting -> Prop) filetype fname s0 ev sN,
    (forall a b, R a b -> keeps_entry fname a b) ->
    FileName.getattr (filename s0) filetype = Some fname ->
    NoDup (queue_keys (_save_queue s0)) ->
    queue_mem fname (_save_queue s0) = false ->
    burst R filetype s0 ev sN ->
    exists dd,
      let fpath := if filetype =? "config" then FilePath.config (path s0)
                   else FilePath.settings (path s0) in
      Preset.getattr (user s0) filetype = Some dd
      /\ count_occ string_dec (queue_keys (_save_queue sN)) fname = 1%nat
      /\ queue_get fname (_save_queue sN) = Some (fpath, dd)
      /\ ((forall a b, R a b -> keeps_engine a b) ->
          _save_queue sN = _save_queue s0 ++ [(fname, (fpath, dd))]
          /\ is_saving sN = true
          /\ (_save_queue s0 = [] -> is_saving s0 = false ->
              started ev = [(fname, (fpath, dd))])
          /\ (is_saving s0 = true -> started ev = [])
          /\ forall verifies timers r k0 p0 d0 rest,
              _save_queue sN = (k0, (p0, d0)) :: rest ->
              exists self_end ev_end,
                run_threads (S (List.length rest)) verifies timers r
                            [(k0, (p0, d0))] sN
                = Some (self_end, ev_end)
                /\ _save_queue self_end = []
                /\ is_saving self_end = false
                /\ backups ev_end
                   = map file_of (_save_queue s0) ++ [(fname, fpath)]
                /\ (1 <= writes_of fname ev_end
                    <= Z.to_nat (max_attempts_of sN))%nat
                /\ (verifies (r + List.length (_save_queue s0))%nat 0%nat
                    = true ->
                    writes_of fname ev_end = 1%nat)).
Proof.
  intros R filetype fname s0 ev sN HR Hg Hnd Hm Hb.
  set (fpath := if filetype =? "config" then FilePath.config (path s0)
                else FilePath.settings (path s0)).
  assert (Inv : exists dd,
             Preset.getattr (user s0) filetype = Some dd
             /\ filename sN = filename s0
             /\ NoDup (queue_keys (_save_queue sN))
             /\ queue_get fname (_save_queue sN) = Some (fpath, dd)
             /\ ((forall a b, R a b -> keeps_engine a b) ->
                 _save_queue sN = _save_queue s0 ++ [(fname, (fpath, dd))]
                 /\ is_saving sN = true
                 /\ (_save_queue s0 = [] -> is_saving s0 = false ->
                     started ev = [(fname, (fpath, dd))])
                 /\ (is_saving s0 = true -> started ev = []))).
  { induction Hb as [delay s s' ev H | delay s ev1 s1 s1' ev2 s2 Hb IH Hr H].
    - destruct (save_enqueues delay filetype fname s s' ev Hg Hm H)
        as (dd & Hdd & Hq & Hf & Hbusy & Hidle).
      exists dd. split; [exact Hdd|]. split; [exact Hf|].
      fold fpath in Hq, Hidle. rewrite Hq. split; [|split].
      + now apply queue_app_NoDup.
      + now apply queue_get_app_fresh.
      + intros _. split; [reflexivity|]. split; [|split].
        * apply (save_result_flag delay filetype false s s' ev H).
          rewrite Hq. destruct (_save_queue s); discriminate.
        * intros Q F. destruct (Hidle F Q) as [_ ->]. reflexivity.
        * intros F. destruct (Hbusy F) as [_ ->]. reflexivity.
    - destruct (IH Hg Hnd Hm) as (dd & Hdd & Hf1 & Hnd1 & Hget1 & Hidle1).
      destruct (HR _ _ Hr) as (Kf & Kget & Knd).
      assert (Hg' : FileName.getattr (filename s1') filetype = Some fname)
        by (rewrite Kf, Hf1; exact Hg).
      assert (Hm' : queue_mem fname (_save_queue s1') = true).
      { apply queue_get_mem. rewrite Kget, Hget1. discriminate. }
      destruct (save_coalesces delay filetype fname s1' s2 ev2 Hg' Hm' H)
        as (Hq & Hf & Hbusy).
      exists dd. split; [exact Hdd|]. split; [congruence|].
      rewrite Hq. split; [exact (Knd Hnd1)|].
      split; [rewrite Kget; exact Hget1|].
      intros HR'. destruct (Hidle1 HR') as (Q1 & F1 & St1 & Sb1).
      destruct (HR' _ _ Hr) as (_ & Eq & Ef).
      destruct (Hbusy (eq_trans Ef F1)) as [F2 ->].
      rewrite started_app. simpl. rewrite app_nil_r.
      split; [rewrite Eq; exact Q1|]. split; [exact F2|].
      split; assumption. }
  destruct Inv as (dd & Hdd & Hf & HndN & Hget & Hidle).
  exists dd. simpl. fold fpath.
  split; [exact Hdd|]. split; [|split; [exact Hget|]].
  - apply NoDup_count_occ'; [exact HndN|].
    apply queue_mem_In, queue_get_mem. rewrite Hget. discriminate.
  - intros HR'. destruct (Hidle HR') as (QN & FN & St & Sb).
    split; [exact QN|]. split; [exact FN|]. split; [exact St|].
    split; [exact Sb|].
    intros verifies timers r k0 p0 d0 rest Q.
    destruct (drain_without_requests verifies timers (S (List.length rest))
                r k0 p0 d0 rest sN Q HndN ltac:(lia))
      as (s_end & ev_end & Hrun & H1 & H2 & H3 & H4 & _).
    exists s_end, ev_end.
    split; [exact Hrun|]. split; [exact H1|]. split; [exact H2|].
    split.
    + rewrite H3, QN, map_app. reflexivity.
    + apply (H4 (List.length (_save_queue s0)) fname).
      rewrite QN. unfold queue_keys. rewrite map_app, nth_error_app2;
        rewrite length_map; [|lia].
      rewrite Nat.sub_diag. reflexivity.
Qed.

(** Two requests for [classes] while the thread of [config] waits. *)
Lemma ex_burst_busy :
  burst keeps_engine "classes" ex_busy ([] ++ [])
        (set_save_queue ex_busy
           [("config.json", ("global/", Some 1%nat));
            ("classes.json", ("settings/", Some 3%nat))]).
Proof.
  eapply burst_next with (delay := 66%Z).
  - apply burst_first with (delay := 66%Z). reflexivity.
  - repeat split.
  - reflexivity.
Qed.

(** C2 at a sample input: a burst for [classes] on a busy engine starts no
    thread; the chain then backs up [config.json] and [classes.json], once
    each, and when every verification fails it writes [classes.json]
    between one and three times. *)
Lemma C2_coalescing_one_cycle_witness :
  exists self_end ev_end,
    run_threads 2 (fun _ => no) (fun _ => 0%Z) 0
                [("config.json", ("global/", Some 1%nat))]
                (set_save_queue ex_busy
                   [("config.json", ("global/", Some 1%nat));
                    ("classes.json", ("settings/", Some 3%nat))])
    = Some (self_end, ev_end)
    /\ _save_queue self_end = []
    /\ backups ev_end
       = [("config.json", "global/"); ("classes.json", "settings/")]
    /\ (1 <= writes_of "classes.json" ev_end <= 3)%nat.
Proof.
  destruct (C2_coalescing_one_cycle keeps_engine "classes" "classes.json"
              ex_busy _ _ (keeps_engine_entry "classes.json") eq_refl
              ltac:(repeat constructor; simpl; intuition discriminate)
              eq_refl ex_burst_busy)
    as (dd & _ & _ & _ & H).
  destruct (H (fun a b K => K)) as (_ & _ & _ & _ & Hchain).
  destruct (Hchain (fun _ => no) (fun _ => 0%Z) 0%nat
                   "config.json" "global/" (Some 1%nat)
                   [("classes.json", ("settings/", Some 3%nat))] eq_refl)
    as (self_end & ev_end & Hrun & Hq & _ & Hb & Hw & _).
  exists self_end, ev_end.
  split; [exact Hrun|]. split; [exact Hq|]. split; [exact Hb|]. exact Hw.
Defined.

(** C2 as stated fails: the three requests of [ex_burst] start one thread,
    and when the verifications fail that thread writes the file three
    times, not once. *)
Lemma C2_three_writes_counterexample :
  exists ev,
    burst keeps_engine "setting" ex_cfg ev ex_after_burst
    /\ started ev = [("default.json", ("settings/", Some 2%nat))]
    /\ _save_queue ex_after_burst
       = [("default.json", ("settings/", Some 2%nat))]
    /\ writes_of "default.json"
         (snd (__saving no 0 "default.json" "settings/" (Some 2%nat)
                        ex_after_burst))
       = 3%nat
    /\ backups (snd (__saving no 0 "default.json" "settings/" (Some 2%nat)
                              ex_after_burst))
       = [("default.json", "settings/")].
Proof.
  eexists. split; [exact ex_burst|].
  split; [reflexivity|]. split; [reflexivity|].
  split; vm_compute; reflexivity.
Qed.
